(** * CreditZen: client-side encryption, session-key lifecycle and sync

    A shallow embedding of the services of the CreditZen wallet
    ([services/cryptoUtils.ts], [services/authService.ts],
    [services/storageService.ts]) together with the properties their
    specification states about them.

    Conventions.
    - A JavaScript string is the list of its UTF-16 code units ([jsstring]).
    - A [Uint8Array] / [ArrayBuffer] is a [list byte].
    - JavaScript numbers that hold integers (timestamps, lengths) are [Z].
    - A call that may throw returns a [result]; [Throw e] is the exception.
    - Browser primitives (WebCrypto, [JSON], [TextEncoder], [date-fns])
      are type classes, and what the services rely on from them is stated
      as laws; [btoa] / [atob] are written out after their definition in
      the HTML standard (forgiving-base64).
    - An [async] function runs to completion: the state is threaded through
      it in the order of its statements. *)

From Stdlib Require Import ZArith NArith List Lia Ascii String.
From Stdlib Require Import Decimal DecimalPos.
From Stdlib.Strings Require Import Byte.
From stdpp Require Import gmap strings list.

Set Default Proof Using "Type".

(** ** JavaScript strings and exceptions *)

Abbreviation jsstring := (list N).

(** The code units of an ASCII literal. *)
Definition str (s : string) : jsstring :=
  map N_of_ascii (list_ascii_of_string s).

Inductive exn : Type :=
  | InvalidCharacterError          (* DOMException raised by btoa / atob *)
  | OperationError                 (* WebCrypto: decryption failed *)
  | DataError                      (* WebCrypto: malformed key material *)
  | SyntaxError                    (* JSON.parse *)
  | TypeError                      (* property access on null *)
  | NotAllowedError                (* WebAuthn prompt refused *)
  | NetworkError                   (* a request to the backend failed *)
  | AuthError (message : jsstring) (* error object of the auth backend *)
  | Error (message : jsstring).    (* new Error(message) *)

(** [e.message], as far as the services compare it. *)
Definition exn_message (e : exn) : jsstring :=
  match e with
  | AuthError message | Error message => message
  | _ => []
  end.

Inductive result (A : Type) : Type :=
  | Ok (a : A)
  | Throw (e : exn).
Arguments Ok {A} a.
Arguments Throw {A} e.

Global Instance result_ret : MRet result := λ A a, Ok a.
Global Instance result_bind : MBind result := λ A B k r,
  match r with
  | Ok a => k a
  | Throw e => Throw e
  end.

(** [try { body } catch (e) { handler }] *)
Definition try_catch {A} (body : result A) (handler : exn → result A) : result A :=
  match body with
  | Ok a => Ok a
  | Throw e => handler e
  end.

(** ** Codec: ArrayBuffer <-> Base64 ([cryptoUtils.ts]) *)
Module Codec.
Local Open Scope N_scope.

(** Table 1 of RFC 4648. *)
Definition base64_alphabet : jsstring :=
  Eval vm_compute in
    str "ABCDEFGHIJKLMNOPQRSTUVWXYZabcdefghijklmnopqrstuvwxyz0123456789+/".

Definition pad_char : N := 61. (* '=' *)

Definition b64_char (sextet : N) : N :=
  nth (N.to_nat sextet) base64_alphabet 0.

Fixpoint index_of (c : N) (l : list N) : option N :=
  match l with
  | [] => None
  | x :: l' => if N.eqb x c then Some 0 else N.succ <$> index_of c l'
  end.

Definition b64_index (c : N) : option N := index_of c base64_alphabet.

(** Three bytes become four 6-bit groups; a final group of one or two
    bytes is padded with zero bits (RFC 4648, section 4). *)
Fixpoint sextets_of_bytes (l : list N) : list N :=
  match l with
  | a :: b :: c :: rest =>
      a / 4 :: (a mod 4) * 16 + b / 16 :: (b mod 16) * 4 + c / 64 :: c mod 64
        :: sextets_of_bytes rest
  | [a; b] => [a / 4; (a mod 4) * 16 + b / 16; (b mod 16) * 4]
  | [a] => [a / 4; (a mod 4) * 16]
  | [] => []
  end.

Definition padding (l : list N) : jsstring :=
  match (length l mod 3)%nat with
  | 1%nat => [pad_char; pad_char]
  | 2%nat => [pad_char]
  | _ => []
  end.

Definition forgiving_base64_encode (l : list N) : jsstring :=
  (b64_char <$> sextets_of_bytes l) ++ padding l.

(** [window.btoa]: throws when a code unit exceeds U+00FF. *)
Definition btoa (data : jsstring) : result jsstring :=
  if forallb (λ c, c <=? 255) data
  then Ok (forgiving_base64_encode data)
  else Throw InvalidCharacterError.

(** TAB, LF, FF, CR, SPACE. *)
Definition is_ascii_whitespace (c : N) : bool :=
  (c =? 9) || (c =? 10) || (c =? 12) || (c =? 13) || (c =? 32).

(** "If data ends with one or two U+003D (=) code points, remove them." *)
Definition remove_padding (data : jsstring) : jsstring :=
  if decide (last data = Some pad_char) then
    let data' := removelast data in
    if decide (last data' = Some pad_char) then removelast data' else data'
  else data.

(** Four 6-bit groups become three bytes; 18 left-over bits give two bytes
    and 12 left-over bits give one, the surplus bits being discarded. *)
Fixpoint bytes_of_sextets (l : list N) : list N :=
  match l with
  | s1 :: s2 :: s3 :: s4 :: rest =>
      s1 * 4 + s2 / 16 :: (s2 mod 16) * 16 + s3 / 4 :: (s3 mod 4) * 64 + s4
        :: bytes_of_sextets rest
  | [s1; s2; s3] => [s1 * 4 + s2 / 16; (s2 mod 16) * 16 + s3 / 4]
  | [s1; s2] => [s1 * 4 + s2 / 16]
  | _ => []
  end.

Definition forgiving_base64_decode (data : jsstring) : option (list N) :=
  let data := List.filter (λ c, negb (is_ascii_whitespace c)) data in
  let data :=
    if decide (length data mod 4 = 0)%nat then remove_padding data else data in
  if decide (length data mod 4 = 1)%nat then None
  else sextets ← mapM b64_index data; Some (bytes_of_sextets sextets).

(** [window.atob]: throws on input that is not forgiving-base64. *)
Definition atob (data : jsstring) : result jsstring :=
  match forgiving_base64_decode data with
  | Some binary => Ok binary
  | None => Throw InvalidCharacterError
  end.

(** [String.fromCharCode(n)]: one code unit, [n] taken modulo 2^16. *)
Definition String_fromCharCode (n : N) : jsstring := [n mod 65536].

(** A store into a [Uint8Array] keeps the value modulo 2^8. *)
Definition uint8 (n : N) : byte :=
  default Byte.x00 (Byte.of_N (n mod 256)).

Definition bufferToBase64 (buffer : list byte) : result jsstring :=
  let binary :=
    fold_left (λ binary b, binary ++ String_fromCharCode (Byte.to_N b))
              buffer [] in
  btoa binary.

Definition base64ToBuffer (base64 : jsstring) : result (list byte) :=
  binary_string ← atob base64;
  Ok (map uint8 binary_string).

End Codec.

(** ** Numbers as text: [Number.prototype.toString] and [parseInt] *)
Module Number.
Local Open Scope Z_scope.

Fixpoint uint_chars (d : Decimal.uint) : jsstring :=
  match d with
  | Decimal.Nil => []
  | Decimal.D0 d => 48%N :: uint_chars d
  | Decimal.D1 d => 49%N :: uint_chars d
  | Decimal.D2 d => 50%N :: uint_chars d
  | Decimal.D3 d => 51%N :: uint_chars d
  | Decimal.D4 d => 52%N :: uint_chars d
  | Decimal.D5 d => 53%N :: uint_chars d
  | Decimal.D6 d => 54%N :: uint_chars d
  | Decimal.D7 d => 55%N :: uint_chars d
  | Decimal.D8 d => 56%N :: uint_chars d
  | Decimal.D9 d => 57%N :: uint_chars d
  end.

(** [n.toString()] for an integer [n] (below 10^21 in absolute value,
    where JavaScript prints every digit). *)
Definition toString (n : Z) : jsstring :=
  match n with
  | Z0 => [48%N]
  | Zpos p => uint_chars (Pos.to_uint p)
  | Zneg p => 45%N :: uint_chars (Pos.to_uint p)
  end.

(** [StrWhiteSpaceChar] of ECMAScript: white space and line terminators. *)
Definition is_str_whitespace (c : N) : bool :=
  bool_decide (c ∈ [9; 10; 11; 12; 13; 32; 160; 5760; 8232; 8233; 8239; 8287;
                    12288; 65279]%N)
  || ((8192 <=? c)%N && (c <=? 8202)%N).

Fixpoint skip_whitespace (s : jsstring) : jsstring :=
  match s with
  | c :: s' => if is_str_whitespace c then skip_whitespace s' else s
  | [] => []
  end.

Definition digit_value (c : N) : option Z :=
  if ((48 <=? c) && (c <=? 57))%N then Some (Z.of_N (c - 48)) else None.

(** The value of the longest prefix of decimal digits; [acc] is the value
    of the digits already read, [None] when there are none yet. *)
Fixpoint parse_digits (s : jsstring) (acc : option Z) : option Z :=
  match s with
  | c :: s' =>
      match digit_value c with
      | Some d => parse_digits s' (Some (10 * default 0 acc + d))
      | None => acc
      end
  | [] => acc
  end.

(** [parseInt(s, 10)]; [None] is [NaN]. *)
Definition parseInt (s : jsstring) : option Z :=
  let s := skip_whitespace s in
  match s with
  | c :: s' =>
      if (c =? 45)%N then Z.opp <$> parse_digits s' None
      else if (c =? 43)%N then parse_digits s' None
      else parse_digits s None
  | [] => None
  end.

(** [a > b] on numbers, false as soon as an operand is [NaN]. *)
Definition gt (a : Z) (b : option Z) : bool :=
  match b with
  | Some b => bool_decide (a > b)
  | None => false
  end.

(** The value of a digit string read after the digits worth [acc]. *)
Fixpoint uint_value (d : Decimal.uint) (acc : Z) : Z :=
  match d with
  | Decimal.Nil => acc
  | Decimal.D0 d => uint_value d (10 * acc + 0)
  | Decimal.D1 d => uint_value d (10 * acc + 1)
  | Decimal.D2 d => uint_value d (10 * acc + 2)
  | Decimal.D3 d => uint_value d (10 * acc + 3)
  | Decimal.D4 d => uint_value d (10 * acc + 4)
  | Decimal.D5 d => uint_value d (10 * acc + 5)
  | Decimal.D6 d => uint_value d (10 * acc + 6)
  | Decimal.D7 d => uint_value d (10 * acc + 7)
  | Decimal.D8 d => uint_value d (10 * acc + 8)
  | Decimal.D9 d => uint_value d (10 * acc + 9)
  end.

End Number.

(** ** Data model ([types.ts], [constants.ts]) *)

Record UserProfile := {
  user_id : jsstring;        (* id *)
  username : jsstring;
  salt : jsstring;           (* Base64 salt of the key derivation *)
}.

Record EncryptedPayload := {
  iv : jsstring;             (* Base64 of the initialization vector *)
  ciphertext : jsstring;     (* Base64 of the AES-GCM output *)
}.

Record NotificationSettings := {
  daysBeforeStatement : Z;
  daysBeforeDue : Z;
}.

Inductive AIProvider := google | openai | anthropic | custom.

Record AISettings := {
  provider : AIProvider;
  modelId : jsstring;
  apiKey : option jsstring;
  baseUrl : option jsstring;
}.

Definition DEFAULT_NOTIFICATIONS : NotificationSettings :=
  {| daysBeforeStatement := 5; daysBeforeDue := 3 |}.

Definition DEFAULT_AI_SETTINGS : AISettings :=
  {| provider := google;
     modelId := str "gemini-3-flash-preview";
     apiKey := Some [];
     baseUrl := None |}.

(** A benefit and a card. The services read [expiryDate] of a benefit and
    [id] and [temporaryBenefits] of a card; every other field is carried
    along unread, in [benefit_details] and [card_details]. *)
Record Benefit (BenefitDetails : Type) := {
  expiryDate : option jsstring;
  benefit_details : BenefitDetails;
}.
Arguments expiryDate {_} _.
Arguments benefit_details {_} _.

Record CreditCard (CardDetails BenefitDetails : Type) := {
  card_id : jsstring;
  temporaryBenefits : option (list (Benefit BenefitDetails));
  card_details : CardDetails;
}.
Arguments card_id {_ _} _.
Arguments temporaryBenefits {_ _} _.
Arguments card_details {_ _} _.

(** The document that is encrypted as a whole, and also the shape of a
    backup file. A field is [None] when the JSON text lacks it. *)
Record UserData (CardDetails BenefitDetails : Type) := {
  cards : option (list (CreditCard CardDetails BenefitDetails));
  settings : option NotificationSettings;
  aiSettings : option AISettings;
}.
Arguments cards {_ _} _.
Arguments settings {_ _} _.
Arguments aiSettings {_ _} _.

(** The object [exportWalletJSON] prints: a version number, the date of the
    export, and the three fields of the wallet. *)
Record WalletBackup (CardDetails BenefitDetails : Type) := {
  version : Z;
  exportDate : jsstring;
  backup_cards : list (CreditCard CardDetails BenefitDetails);
  backup_settings : NotificationSettings;
  backup_aiSettings : AISettings;
}.
Arguments version {_ _} _.
Arguments exportDate {_ _} _.
Arguments backup_cards {_ _} _.
Arguments backup_settings {_ _} _.
Arguments backup_aiSettings {_ _} _.

(** What a reader that looks for [cards], [settings] and [aiSettings] finds
    in a backup. *)
Definition backup_document {CardDetails BenefitDetails}
    (b : WalletBackup CardDetails BenefitDetails)
    : UserData CardDetails BenefitDetails :=
  {| cards := Some (backup_cards b);
     settings := Some (backup_settings b);
     aiSettings := Some (backup_aiSettings b) |}.

(** ** Browser primitives

    The services call into the browser; these calls are parameters of the
    model. Each class lists the calls of one interface, with the results the
    services can observe. *)

(** [window.crypto.subtle] for AES-GCM keys. [subtle_encrypt key iv data]
    and [subtle_decrypt key iv data] are the AES-GCM calls (decryption
    rejects when the authentication tag does not verify);
    [subtle_deriveKey password salt] is PBKDF2 / HMAC-SHA-256 with 100000
    iterations into an extractable 256-bit AES-GCM key. *)
Class WebCrypto (CryptoKey JsonWebKey : Type) := {
  subtle_encrypt : CryptoKey → list byte → list byte → list byte;
  subtle_decrypt : CryptoKey → list byte → list byte → result (list byte);
  subtle_deriveKey : list byte → list byte → CryptoKey;
  subtle_exportKey : CryptoKey → result JsonWebKey;
  subtle_importKey : JsonWebKey → result CryptoKey;
}.

(** [TextEncoder.encode] and [TextDecoder.decode] (UTF-8). *)
Class Utf8 := {
  TextEncoder_encode : jsstring → list byte;
  TextDecoder_decode : list byte → jsstring;
}.

(** [JSON.stringify] and [JSON.parse] at the type [A] a value is used at.
    [JSON_parse] throws [SyntaxError] on text that is not JSON and returns
    [None] for the JSON text [null]. *)
Class Json (A : Type) := {
  JSON_stringify : A → jsstring;
  JSON_parse : jsstring → result (option A);
}.

(** The calls into [date-fns] made by [cleanCards]: [startOfDay(new Date())]
    as a function of the clock, [parseISO] and [isBefore]. *)
Class DateFns (JSDate : Type) := {
  startOfDay : Z → JSDate;
  parseISO : jsstring → JSDate;
  isBefore : JSDate → JSDate → bool;
}.

(** [new Date().toISOString()] as a function of the clock. *)
Class IsoDate := {
  toISOString : Z → jsstring;
}.

(** What the services rely on. *)

(** AES-GCM decryption with the key and IV of the encryption returns the
    plaintext. *)
Class AesGcmCorrect `{WebCrypto CryptoKey JsonWebKey} : Prop :=
  decrypt_encrypt : ∀ key iv data,
    subtle_decrypt key iv (subtle_encrypt key iv data) = Ok data.

(** AES-GCM as an ideal authenticated cipher: under any other key the tag
    of a ciphertext does not verify. *)
Class AesGcmAuthentic `{WebCrypto CryptoKey JsonWebKey} : Prop :=
  decrypt_wrong_key : ∀ key1 key2 iv data,
    key1 ≠ key2 →
    subtle_decrypt key2 iv (subtle_encrypt key1 iv data) = Throw OperationError.

(** Keys made by [deriveKey] and [importKeyFromJWK] are extractable, so
    that exporting them succeeds. *)
Class Extractable `{WebCrypto CryptoKey JsonWebKey} : Prop :=
  export_ok : ∀ key, ∃ jwk, subtle_exportKey key = Ok jwk.

(** Importing the JWK that [exportKey] made of a key gives that key back. *)
Class JwkCorrect `{WebCrypto CryptoKey JsonWebKey} : Prop :=
  import_export : ∀ key jwk,
    subtle_exportKey key = Ok jwk → subtle_importKey jwk = Ok key.

(** [JSON.parse] reads back what [JSON.stringify] wrote, and rejects the
    empty text. *)
Class JsonCorrect (A : Type) `{Json A} : Prop := {
  parse_stringify : ∀ a : A, JSON_parse (JSON_stringify a) = Ok (Some a);
  parse_empty : JSON_parse (A:=A) [] = Throw SyntaxError;
}.

(** The text of a backup, parsed and read as a wallet document, has the
    cards and the settings of the backup: [JSON.parse] keeps every field,
    and the reader ignores [version] and [exportDate]. *)
Class JsonBackup (CardDetails BenefitDetails : Type)
    `{Json (WalletBackup CardDetails BenefitDetails),
      Json (UserData CardDetails BenefitDetails)} : Prop :=
  parse_backup : ∀ b : WalletBackup CardDetails BenefitDetails,
    JSON_parse (A:=UserData CardDetails BenefitDetails) (JSON_stringify b)
    = Ok (Some (backup_document b)).

(** JSON text survives the UTF-8 encoder and decoder ([JSON.stringify]
    emits well-formed strings). *)
Class JsonUtf8 (A : Type) `{Utf8, Json A} : Prop :=
  decode_encode_json : ∀ a : A,
    TextDecoder_decode (TextEncoder_encode (JSON_stringify a))
    = JSON_stringify a.

(** ** Key manager and encryption engine ([cryptoUtils.ts])

    The random bytes a call draws from [crypto.getRandomValues] are an
    argument of the function. *)
Module CryptoUtils.
Import Codec.
Section crypto.
Context {CryptoKey JsonWebKey : Type}.
Context `{!WebCrypto CryptoKey JsonWebKey, !Utf8}.

(** [salt]: the 16 bytes of [getRandomValues(new Uint8Array(16))]. *)
Definition generateSalt (salt : list byte) : result jsstring :=
  bufferToBase64 salt.

Definition deriveKey (password saltBase64 : jsstring) : result CryptoKey :=
  salt ← base64ToBuffer saltBase64;
  Ok (subtle_deriveKey (TextEncoder_encode password) salt).

Definition exportKeyToJWK (key : CryptoKey) : result JsonWebKey :=
  subtle_exportKey key.

Definition importKeyFromJWK (jwk : JsonWebKey) : result CryptoKey :=
  subtle_importKey jwk.

(** [iv]: the 12 bytes of [getRandomValues(new Uint8Array(12))]. *)
Definition encryptData `{!Json A} (data : A) (key : CryptoKey)
    (iv : list byte) : result EncryptedPayload :=
  let encodedData := TextEncoder_encode (JSON_stringify data) in
  let encryptedContent := subtle_encrypt key iv encodedData in
  iv64 ← bufferToBase64 iv;
  ciphertext64 ← bufferToBase64 encryptedContent;
  Ok {| iv := iv64; ciphertext := ciphertext64 |}.

Definition decryption_failed : jsstring :=
  Eval vm_compute in
    str "Decryption failed. Invalid password or corrupted data.".

Definition decryptData `{!Json A} (ivBase64 ciphertextBase64 : jsstring)
    (key : CryptoKey) : result (option A) :=
  iv ← base64ToBuffer ivBase64;
  ciphertext ← base64ToBuffer ciphertextBase64;
  try_catch
    (decryptedContent ← subtle_decrypt key iv ciphertext;
     JSON_parse (TextDecoder_decode decryptedContent))
    (λ e, Throw (Error decryption_failed)).

End crypto.
End CryptoUtils.

(** ** The state the services run in

    [currentSessionKey] and [currentUser] are the module variables of
    [authService.ts]; [localStorage] is [window.localStorage]. The rest is
    the environment: the clock read by [Date.now()], [navigator.onLine],
    the remote [user_data] table with the outcome of requests to it, and
    the bytes [crypto.getRandomValues] will return. A service call runs
    to completion on this state (calls do not interleave), and the calls
    to [localStorage] themselves succeed (no quota or access error). *)

Inductive fetch_outcome :=
  | FetchOk          (* the request is answered *)
  | FetchError       (* the request is answered with an error object *)
  | FetchThrows.     (* the request throws *)

Record World (CryptoKey : Type) := {
  currentSessionKey : option CryptoKey;
  currentUser : option UserProfile;
  localStorage : gmap jsstring jsstring;
  now : Z;
  onLine : bool;
  network : fetch_outcome;
  user_data : gmap jsstring EncryptedPayload;
  entropy : nat → byte;
  entropy_used : nat;
}.
Arguments currentSessionKey {_} _.
Arguments currentUser {_} _.
Arguments localStorage {_} _.
Arguments now {_} _.
Arguments onLine {_} _.
Arguments network {_} _.
Arguments user_data {_} _.
Arguments entropy {_} _.
Arguments entropy_used {_} _.

Section world.
Context {CryptoKey : Type}.
Implicit Types w : World CryptoKey.

Definition set_currentSessionKey (key : option CryptoKey) w : World CryptoKey :=
  {| currentSessionKey := key; currentUser := currentUser w;
     localStorage := localStorage w; now := now w; onLine := onLine w;
     network := network w; user_data := user_data w;
     entropy := entropy w; entropy_used := entropy_used w |}.

Definition set_currentUser (user : option UserProfile) w : World CryptoKey :=
  {| currentSessionKey := currentSessionKey w; currentUser := user;
     localStorage := localStorage w; now := now w; onLine := onLine w;
     network := network w; user_data := user_data w;
     entropy := entropy w; entropy_used := entropy_used w |}.

Definition set_localStorage (ls : gmap jsstring jsstring) w : World CryptoKey :=
  {| currentSessionKey := currentSessionKey w; currentUser := currentUser w;
     localStorage := ls; now := now w; onLine := onLine w;
     network := network w; user_data := user_data w;
     entropy := entropy w; entropy_used := entropy_used w |}.

Definition set_now (t : Z) w : World CryptoKey :=
  {| currentSessionKey := currentSessionKey w; currentUser := currentUser w;
     localStorage := localStorage w; now := t; onLine := onLine w;
     network := network w; user_data := user_data w;
     entropy := entropy w; entropy_used := entropy_used w |}.

Definition set_user_data (t : gmap jsstring EncryptedPayload) w : World CryptoKey :=
  {| currentSessionKey := currentSessionKey w; currentUser := currentUser w;
     localStorage := localStorage w; now := now w; onLine := onLine w;
     network := network w; user_data := t;
     entropy := entropy w; entropy_used := entropy_used w |}.

Definition set_entropy_used (n : nat) w : World CryptoKey :=
  {| currentSessionKey := currentSessionKey w; currentUser := currentUser w;
     localStorage := localStorage w; now := now w; onLine := onLine w;
     network := network w; user_data := user_data w;
     entropy := entropy w; entropy_used := n |}.

(** A computation on the state that returns or throws. A throw keeps the
    changes made before it. *)
Definition M (A : Type) : Type := World CryptoKey → result A * World CryptoKey.

Global Instance M_ret : MRet M := λ A a w, (Ok a, w).
Global Instance M_bind : MBind M := λ A B k m w,
  match m w with
  | (Ok a, w') => k a w'
  | (Throw e, w') => (Throw e, w')
  end.

Definition throw {A} (e : exn) : M A := λ w, (Throw e, w).

Definition lift {A} (r : result A) : M A := λ w, (r, w).

(** [try { body } catch (e) { handler }] *)
Definition catch {A} (body : M A) (handler : exn → M A) : M A := λ w,
  match body w with
  | (Ok a, w') => (Ok a, w')
  | (Throw e, w') => handler e w'
  end.

Definition gets {A} (f : World CryptoKey → A) : M A := λ w, (Ok (f w), w).
Definition modify (f : World CryptoKey → World CryptoKey) : M unit :=
  λ w, (Ok (), f w).

Definition getItem (key : jsstring) : M (option jsstring) :=
  gets (λ w, localStorage w !! key).
Definition setItem (key value : jsstring) : M unit :=
  modify (λ w, set_localStorage (<[key := value]> (localStorage w)) w).
Definition removeItem (key : jsstring) : M unit :=
  modify (λ w, set_localStorage (delete key (localStorage w)) w).

Definition Date_now : M Z := gets now.
Definition navigator_onLine : M bool := gets onLine.

Definition getRandomValues (n : nat) : M (list byte) := λ w,
  (Ok (entropy w <$> seq (entropy_used w) n),
   set_entropy_used (entropy_used w + n) w).

(** A string used as a condition: [null] and the empty string are falsy. *)
Definition truthy (s : option jsstring) : bool :=
  match s with
  | Some (_ :: _) => true
  | _ => false
  end.

End world.

(** ** Session controller ([authService.ts]) *)
Module AuthService.
Import CryptoUtils.
Local Open Scope Z_scope.

Definition SESSION_KEY_STORAGE : jsstring :=
  Eval vm_compute in str "creditzen_session_key".
Definition SESSION_USER_STORAGE : jsstring :=
  Eval vm_compute in str "creditzen_session_user".
Definition SESSION_EXPIRY_STORAGE : jsstring :=
  Eval vm_compute in str "creditzen_session_expiry".
Definition SESSION_BIOMETRIC_ENABLED : jsstring :=
  Eval vm_compute in str "creditzen_biometric_enabled".
Definition SESSION_TIMEOUT_MS : Z := 20 * 60 * 1000.
Definition BIOMETRIC_TIMEOUT_MS : Z := 7 * 24 * 60 * 60 * 1000.

(** The answer of [supabase.auth.signInWithPassword]. *)
Record RemoteUser := {
  remote_id : jsstring;                    (* data.user.id *)
  user_metadata_salt : option jsstring;    (* data.user.user_metadata?.salt *)
}.

Inductive sign_in_response :=
  | SignInError (error : exn)
  | SignInNoUser
  | SignedIn (user : RemoteUser).

Section auth.
Context {CryptoKey JsonWebKey : Type}.
Context `{!WebCrypto CryptoKey JsonWebKey, !Utf8}.
Context `{!Json JsonWebKey, !Json UserProfile}.
Local Abbreviation M := (M (CryptoKey:=CryptoKey)).

Definition isBiometricEnabled : M bool :=
  flag ← getItem SESSION_BIOMETRIC_ENABLED;
  mret (bool_decide (flag = Some (str "true"))).

Definition session_timeout (isBio : bool) : Z :=
  if isBio then BIOMETRIC_TIMEOUT_MS else SESSION_TIMEOUT_MS.

Definition persistSession (key : CryptoKey) (user : UserProfile) : M unit :=
  catch
    (jwk ← lift (exportKeyToJWK key);
     isBio ← isBiometricEnabled;
     let timeout := session_timeout isBio in
     setItem SESSION_KEY_STORAGE (JSON_stringify jwk);;
     setItem SESSION_USER_STORAGE (JSON_stringify user);;
     t ← Date_now;
     setItem SESSION_EXPIRY_STORAGE (Number.toString (t + timeout)))
    (λ e, mret ()).

Definition clearSession : M unit :=
  removeItem SESSION_KEY_STORAGE;;
  removeItem SESSION_USER_STORAGE;;
  removeItem SESSION_EXPIRY_STORAGE.

(** [available]: the answer of [isBiometricAvailable()];
    [credential]: the outcome of [navigator.credentials.create]. *)
Definition enableBiometrics (available : bool) (credential : result unit)
    : M unit :=
  if negb available then throw (Error (str "Biometrics not supported"))
  else
    challenge ← getRandomValues 32;
    lift credential;;
    setItem SESSION_BIOMETRIC_ENABLED (str "true");;
    key ← gets currentSessionKey;
    user ← gets currentUser;
    match key, user with
    | Some key, Some user => persistSession key user
    | _, _ => mret ()
    end.

(** The source does not await the [persistSession] it starts; here its
    writes are made before [disableBiometrics] returns. *)
Definition disableBiometrics : M unit :=
  removeItem SESSION_BIOMETRIC_ENABLED;;
  key ← gets currentSessionKey;
  user ← gets currentUser;
  match key, user with
  | Some key, Some user => persistSession key user
  | _, _ => mret ()
  end.

Definition restoreSession (skipBiometricCheck : bool) : M bool :=
  catch
    (expiryStr ← getItem SESSION_EXPIRY_STORAGE;
     if negb (truthy expiryStr) then mret false
     else
       let expiry := Number.parseInt (default [] expiryStr) in
       t ← Date_now;
       if Number.gt t expiry then clearSession;; mret false
       else
         isBio ← isBiometricEnabled;
         if isBio && negb skipBiometricCheck then mret false
         else
           jwkStr ← getItem SESSION_KEY_STORAGE;
           userStr ← getItem SESSION_USER_STORAGE;
           if negb (truthy jwkStr) || negb (truthy userStr) then mret false
           else
             jwk ← lift (JSON_parse (A:=JsonWebKey) (default [] jwkStr));
             key ← match jwk with
                   | Some jwk => lift (importKeyFromJWK jwk)
                   | None => throw TypeError
                   end;
             user ← lift (JSON_parse (A:=UserProfile) (default [] userStr));
             modify (set_currentSessionKey (Some key));;
             modify (set_currentUser user);;
             isBio ← isBiometricEnabled;
             let timeout := session_timeout isBio in
             t ← Date_now;
             setItem SESSION_EXPIRY_STORAGE (Number.toString (t + timeout));;
             mret true)
    (λ e, clearSession;; mret false).

(** [response]: the answer of [supabase.auth.signInWithPassword]. A salt
    generated here is also sent to [supabase.auth.updateUser]. *)
Definition loginUser (email password : jsstring)
    (response : sign_in_response) : M UserProfile :=
  catch
    (user ← match response with
            | SignInError error => throw error
            | SignInNoUser => throw (Error (str "Login failed"))
            | SignedIn user => mret user
            end;
     salt ← (if truthy (user_metadata_salt user)
             then mret (default [] (user_metadata_salt user))
             else bytes ← getRandomValues 16; lift (generateSalt bytes));
     key ← lift (deriveKey password salt);
     modify (set_currentSessionKey (Some key));;
     let profile :=
       {| user_id := remote_id user; username := email; salt := salt |} in
     modify (set_currentUser (Some profile));;
     persistSession key profile;;
     mret profile)
    (λ error,
       if bool_decide (exn_message error = str "Failed to fetch")
       then throw (Error (str
              "Network error. Please check your internet connection."))
       else throw error).

(** The call to [supabase.auth.signOut()] that comes first leaves the
    state of this model alone. *)
Definition logoutUser : M unit :=
  modify (set_currentSessionKey None);;
  modify (set_currentUser None);;
  clearSession.

Definition getCurrentUser : M (option UserProfile) := gets currentUser.
Definition getSessionKey : M (option CryptoKey) := gets currentSessionKey.
Definition isAuthenticated : M bool :=
  gets (λ w, bool_decide (is_Some (currentSessionKey w))).

(** [publicKeyCredential]: [None] when the browser has no
    [window.PublicKeyCredential], else the answer of
    [isUserVerifyingPlatformAuthenticatorAvailable()]. *)
Definition isBiometricAvailable (publicKeyCredential : option bool) : M bool :=
  match publicKeyCredential with
  | None => mret false
  | Some available => mret available
  end.

(** [assertion]: the outcome of [navigator.credentials.get]. *)
Definition verifyBiometric (assertion : result unit) : M bool :=
  catch
    (challenge ← getRandomValues 32;
     lift assertion;;
     mret true)
    (λ e, mret false).

(** [response]: the answer of [supabase.auth.signUp]. *)
Definition registerUser (email password : jsstring)
    (response : sign_in_response) : M unit :=
  catch
    (match response with
     | SignInError error => throw error
     | SignInNoUser => throw (Error (str "Registration failed"))
     | SignedIn user => mret ()
     end)
    (λ error,
       if bool_decide (exn_message error = str "Failed to fetch")
       then throw (Error (str
              "Network error. Please check your internet connection."))
       else throw error).

(** [session]: whether [supabase.auth.getSession()] holds a session. *)
Definition isLocked (session : bool) : M bool :=
  key ← getSessionKey;
  if session && negb (bool_decide (is_Some key)) then
    restored ← restoreSession false;
    mret (negb restored)
  else mret (session && negb (bool_decide (is_Some key))).

(** [session_user]: whether the session that [supabase.auth.getSession()]
    holds has a user; it is asked for only when the restore failed. *)
Definition checkSession (session_user : bool) : M bool :=
  restored ← restoreSession false;
  if (restored : bool) then mret true
  else if session_user then mret true
  else mret false.

End auth.
End AuthService.

(** The ways the body of [restoreSession] throws once the stored key
    material [jwkStr] and user profile [userStr] have been read: the stored
    JWK is not JSON or is [null], the key import rejects it, or the stored
    profile is not JSON. *)
Module RestoreFailure.
Import CryptoUtils.
Section failure.
Context {CryptoKey JsonWebKey : Type}.
Context `{!WebCrypto CryptoKey JsonWebKey}.
Context `{!Json JsonWebKey, !Json UserProfile}.

Inductive restore_failure (jwkStr userStr : jsstring) : Prop :=
  | malformed_jwk e :
      JSON_parse (A:=JsonWebKey) jwkStr = Throw e →
      restore_failure jwkStr userStr
  | null_jwk :
      JSON_parse (A:=JsonWebKey) jwkStr = Ok None →
      restore_failure jwkStr userStr
  | import_failure jwk e :
      JSON_parse jwkStr = Ok (Some jwk) →
      importKeyFromJWK jwk = Throw e →
      restore_failure jwkStr userStr
  | malformed_profile jwk (key : CryptoKey) e :
      JSON_parse jwkStr = Ok (Some jwk) →
      importKeyFromJWK jwk = Ok key →
      JSON_parse (A:=UserProfile) userStr = Throw e →
      restore_failure jwkStr userStr.

End failure.
End RestoreFailure.

(** ** Sequences of session operations

    An operation of the session controller together with what the
    environment answers to it; [step elapsed o] lets [elapsed] milliseconds
    pass on the clock and then runs [o]. *)
Module Session.
Import CryptoUtils AuthService.
Local Open Scope Z_scope.

Inductive session_op :=
  | Login (email password : jsstring) (response : sign_in_response)
  | RestoreSession (skipBiometricCheck : bool)
  | EnableBiometrics (available : bool) (credential : result unit)
  | DisableBiometrics
  | Logout.

(** The operations that may shorten a session on purpose. *)
Definition explicit_reset (o : session_op) : bool :=
  match o with
  | DisableBiometrics | Logout => true
  | _ => false
  end.

Section session.
Context {CryptoKey JsonWebKey : Type}.
Context `{!WebCrypto CryptoKey JsonWebKey, !Utf8}.
Context `{!Json JsonWebKey, !Json UserProfile}.
Implicit Types w : World CryptoKey.

Definition run_op (o : session_op) w : World CryptoKey :=
  match o with
  | Login email password response => (loginUser email password response w).2
  | RestoreSession skip => (restoreSession skip w).2
  | EnableBiometrics available credential =>
      (enableBiometrics available credential w).2
  | DisableBiometrics => (disableBiometrics w).2
  | Logout => (logoutUser w).2
  end.

Definition step (elapsed : N) (o : session_op) w : World CryptoKey :=
  run_op o (set_now (now w + Z.of_N elapsed) w).

Definition run (trace : list (N * session_op)) w : World CryptoKey :=
  foldl (λ w eo, step eo.1 eo.2 w) w trace.

(** A page load: the module variables of [authService.ts] start at [null],
    local storage is what the last page left. *)
Definition reload w : World CryptoKey :=
  set_currentUser None (set_currentSessionKey None w).

(** The persisted expiry timestamp, as [restoreSession] reads it. *)
Definition stored_expiry w : option Z :=
  localStorage w !! SESSION_EXPIRY_STORAGE ≫= Number.parseInt.

(** The biometric preference, as [isBiometricEnabled] reads it. *)
Definition biometric_enabled w : bool :=
  bool_decide (localStorage w !! SESSION_BIOMETRIC_ENABLED = Some (str "true")).

(** The state after [clearSession]. *)
Definition cleared w : World CryptoKey :=
  set_localStorage
    (delete SESSION_EXPIRY_STORAGE
       (delete SESSION_USER_STORAGE
          (delete SESSION_KEY_STORAGE (localStorage w)))) w.

(** What [restoreSession] has read and checked when it starts to rebuild
    the key: a record that has not expired, no pending biometric check, and
    stored key material [jwkStr] and user profile [userStr]. *)
Definition reaches_load (skip : bool) w (jwkStr userStr : jsstring) : Prop :=
  (∃ expiryStr, localStorage w !! SESSION_EXPIRY_STORAGE = Some expiryStr ∧
     truthy (Some expiryStr) = true ∧
     Number.gt (now w) (Number.parseInt expiryStr) = false) ∧
  biometric_enabled w && negb skip = false ∧
  localStorage w !! SESSION_KEY_STORAGE = Some jwkStr ∧
  truthy (Some jwkStr) = true ∧
  localStorage w !! SESSION_USER_STORAGE = Some userStr ∧
  truthy (Some userStr) = true.

(** The state after a successful restore. *)
Definition restored (key : CryptoKey) (user : option UserProfile) w
    : World CryptoKey :=
  set_localStorage
    (<[SESSION_EXPIRY_STORAGE :=
         Number.toString (now w + session_timeout (biometric_enabled w))]>
       (localStorage w))
    (set_currentUser user (set_currentSessionKey (Some key) w)).

(** The state after [persistSession] wrote the record. *)
Definition persisted (jwk : JsonWebKey) (user : UserProfile) w
    : World CryptoKey :=
  set_localStorage
    (<[SESSION_EXPIRY_STORAGE :=
         Number.toString (now w + session_timeout (biometric_enabled w))]>
       (<[SESSION_USER_STORAGE := JSON_stringify user]>
          (<[SESSION_KEY_STORAGE := JSON_stringify jwk]> (localStorage w))))
    w.

(** The state after the preference flag was written or removed. *)
Definition flagged (flag : option jsstring) w : World CryptoKey :=
  set_localStorage
    (match flag with
     | Some v => <[SESSION_BIOMETRIC_ENABLED := v]> (localStorage w)
     | None => delete SESSION_BIOMETRIC_ENABLED (localStorage w)
     end) w.

(** The state after the re-persist that ends [enableBiometrics] and
    [disableBiometrics]. *)
Definition repersisted w : World CryptoKey :=
  match currentSessionKey w, currentUser w with
  | Some key, Some user =>
      match exportKeyToJWK key with
      | Ok jwk => persisted jwk user w
      | Throw _ => w
      end
  | _, _ => w
  end.


End session.
End Session.

(** The earlier copy of [authService.ts] kept in the repository: one
    20-minute timeout and no biometric preference. *)
Module AuthServiceLegacy.
Import CryptoUtils.
Local Open Scope Z_scope.
Section auth.
Context {CryptoKey JsonWebKey : Type}.
Context `{!WebCrypto CryptoKey JsonWebKey, !Utf8}.
Context `{!Json JsonWebKey, !Json UserProfile}.
Local Abbreviation M := (M (CryptoKey:=CryptoKey)).

Definition persistSession (key : CryptoKey) (user : UserProfile) : M unit :=
  catch
    (jwk ← lift (exportKeyToJWK key);
     setItem AuthService.SESSION_KEY_STORAGE (JSON_stringify jwk);;
     setItem AuthService.SESSION_USER_STORAGE (JSON_stringify user);;
     t ← Date_now;
     setItem AuthService.SESSION_EXPIRY_STORAGE
       (Number.toString (t + AuthService.SESSION_TIMEOUT_MS)))
    (λ e, mret ()).

Definition restoreSession : M bool :=
  catch
    (expiryStr ← getItem AuthService.SESSION_EXPIRY_STORAGE;
     if negb (truthy expiryStr) then mret false
     else
       let expiry := Number.parseInt (default [] expiryStr) in
       t ← Date_now;
       if Number.gt t expiry then AuthService.clearSession;; mret false
       else
         jwkStr ← getItem AuthService.SESSION_KEY_STORAGE;
         userStr ← getItem AuthService.SESSION_USER_STORAGE;
         if negb (truthy jwkStr) || negb (truthy userStr) then mret false
         else
           jwk ← lift (JSON_parse (A:=JsonWebKey) (default [] jwkStr));
           key ← match jwk with
                 | Some jwk => lift (importKeyFromJWK jwk)
                 | None => throw TypeError
                 end;
           user ← lift (JSON_parse (A:=UserProfile) (default [] userStr));
           modify (set_currentSessionKey (Some key));;
           modify (set_currentUser user);;
           t ← Date_now;
           setItem AuthService.SESSION_EXPIRY_STORAGE
             (Number.toString (t + AuthService.SESSION_TIMEOUT_MS));;
           mret true)
    (λ e, AuthService.clearSession;; mret false).

(** No [try] / [catch] around the login: an error is thrown as it is. *)
Definition loginUser (email password : jsstring)
    (response : AuthService.sign_in_response) : M UserProfile :=
  user ← match response with
          | AuthService.SignInError error => throw error
          | AuthService.SignInNoUser => throw (Error (str "Login failed"))
          | AuthService.SignedIn user => mret user
          end;
  salt ← (if truthy (AuthService.user_metadata_salt user)
          then mret (default [] (AuthService.user_metadata_salt user))
          else bytes ← getRandomValues 16; lift (generateSalt bytes));
  key ← lift (deriveKey password salt);
  modify (set_currentSessionKey (Some key));;
  let profile :=
    {| user_id := AuthService.remote_id user; username := email;
       salt := salt |} in
  modify (set_currentUser (Some profile));;
  persistSession key profile;;
  mret profile.

End auth.
End AuthServiceLegacy.

(** ** Sync coordinator and wallet operations ([storageService.ts]) *)
Module StorageService.
Import CryptoUtils AuthService.

Definition GUEST_DATA_KEY : jsstring :=
  Eval vm_compute in str "creditzen_guest_data".
Definition USER_DATA_PREFIX : jsstring :=
  Eval vm_compute in str "creditzen_user_data_".
Definition OLD_CARDS_KEY : jsstring :=
  Eval vm_compute in str "creditzen_cards".
Definition OLD_SETTINGS_KEY : jsstring :=
  Eval vm_compute in str "creditzen_settings".

Section storage.
Context {CryptoKey JsonWebKey CardDetails BenefitDetails JSDate : Type}.
Context `{!WebCrypto CryptoKey JsonWebKey, !Utf8, !DateFns JSDate}.
Context `{!Json EncryptedPayload, !Json (UserData CardDetails BenefitDetails)}.
Local Abbreviation M := (M (CryptoKey:=CryptoKey)).
Local Abbreviation UserData := (UserData CardDetails BenefitDetails).
Local Abbreviation CreditCard := (CreditCard CardDetails BenefitDetails).

(** [`creditzen_user_data_${userId}`] *)
Definition user_data_key (userId : jsstring) : jsstring :=
  USER_DATA_PREFIX ++ userId.

(** [supabase.from('user_data').upsert(row)]: the [error] of the answer. *)
Definition supabase_upsert (userId : jsstring) (data : EncryptedPayload)
    : M (option exn) := λ w,
  match network w with
  | FetchOk => (Ok None, set_user_data (<[userId := data]> (user_data w)) w)
  | FetchError => (Ok (Some NetworkError), w)
  | FetchThrows => (Throw NetworkError, w)
  end.

(** [supabase.from('user_data').select('iv, ciphertext')
      .eq('user_id', userId).single()]: the [data] and [error] of the
    answer; a missing row is answered with an error. *)
Definition supabase_select (userId : jsstring)
    : M (option EncryptedPayload * option exn) := λ w,
  match network w with
  | FetchOk =>
      match user_data w !! userId with
      | Some row => (Ok (Some row, None), w)
      | None => (Ok (None, Some NetworkError), w)
      end
  | FetchError => (Ok (None, Some NetworkError), w)
  | FetchThrows => (Throw NetworkError, w)
  end.

Definition saveUserData (userId : jsstring) (data : EncryptedPayload)
    : M unit :=
  catch (setItem (user_data_key userId) (JSON_stringify data)) (λ e, mret ());;
  online ← navigator_onLine;
  if (online : bool) then
    catch (error ← supabase_upsert userId data; mret ()) (λ err, mret ())
  else mret ().

Definition getUserDataRaw (userId : jsstring) : M (option EncryptedPayload) :=
  let localKey := user_data_key userId in
  online ← navigator_onLine;
  (* [Some data]: the [return data] inside the [try] block *)
  fetched ← (if (online : bool) then
               catch
                 (answer ← supabase_select userId;
                  match answer return M (option EncryptedPayload) with
                  | (Some data, None) =>
                      setItem localKey (JSON_stringify data);;
                      mret (Some data)
                  | _ => mret None
                  end)
                 (λ err, mret None)
             else mret None);
  match fetched with
  | Some data => mret (Some data)
  | None =>
      local ← getItem localKey;
      if truthy local then lift (JSON_parse (default [] local))
      else mret None
  end.

(** [data.field] on a value that may be [null]. *)
Definition field {A B} (f : A → B) (data : option A) : M B :=
  match data with
  | Some a => mret (f a)
  | None => throw TypeError
  end.

Definition empty_data : UserData :=
  {| cards := None; settings := None; aiSettings := None |}.

Definition getGuestData : M (option UserData) :=
  item ← getItem GUEST_DATA_KEY;
  if truthy item then lift (JSON_parse (default [] item))
  else mret (Some {| cards := Some [];
                     settings := Some DEFAULT_NOTIFICATIONS;
                     aiSettings := Some DEFAULT_AI_SETTINGS |}).

Definition saveGuestData (data : UserData) : M unit :=
  setItem GUEST_DATA_KEY (JSON_stringify data).

Definition still_valid (today : JSDate) (benefit : Benefit BenefitDetails)
    : bool :=
  if negb (truthy (expiryDate benefit)) then true
  else negb (isBefore (parseISO (default [] (expiryDate benefit))) today).

Definition cleanCards (cards : list CreditCard) : M (list CreditCard) :=
  t ← Date_now;
  let today := startOfDay t in
  mret (map (λ card,
    match temporaryBenefits card with
    | None | Some [] => card
    | Some benefits =>
        {| card_id := card_id card;
           temporaryBenefits := Some (List.filter (still_valid today) benefits);
           card_details := card_details card |}
    end) cards).

Definition getCards : M (list CreditCard) :=
  catch
    (user ← getCurrentUser;
     match user with
     | None =>
         data ← getGuestData;
         cs ← field cards data;
         cleanCards (default [] cs)
     | Some user =>
         key ← getSessionKey;
         match key with
         | None => mret []
         | Some key =>
             encryptedData ← getUserDataRaw (user_id user);
             match encryptedData with
             | None => mret []
             | Some encryptedData =>
                 decrypted ← lift (decryptData (A:=UserData)
                   (iv encryptedData) (ciphertext encryptedData) key);
                 cs ← field cards decrypted;
                 cleanCards (default [] cs)
             end
         end
     end)
    (λ e, mret []).

(** [encryptData(payload, key)] followed by [saveUserData]. *)
Definition encrypt_and_save (userId : jsstring) (payload : UserData)
    (key : CryptoKey) : M unit :=
  iv ← getRandomValues 12;
  encrypted ← lift (encryptData payload key iv);
  saveUserData userId encrypted.

Definition saveCards (cards : list CreditCard) : M unit :=
  user ← getCurrentUser;
  match user with
  | None =>
      data ← getGuestData;
      let data := default empty_data data in
      saveGuestData {| cards := Some cards; settings := settings data;
                       aiSettings := aiSettings data |}
  | Some user =>
      key ← getSessionKey;
      match key with
      | None => mret ()
      | Some key =>
          encryptedData ← getUserDataRaw (user_id user);
          current ←
            match encryptedData with
            | Some encryptedData =>
                catch
                  (decrypted ← lift (decryptData (A:=UserData)
                     (iv encryptedData) (ciphertext encryptedData) key);
                   s ← field settings decrypted;
                   a ← field aiSettings decrypted;
                   mret (default DEFAULT_NOTIFICATIONS s,
                         default DEFAULT_AI_SETTINGS a))
                  (λ e, mret (DEFAULT_NOTIFICATIONS, DEFAULT_AI_SETTINGS))
            | None => mret (DEFAULT_NOTIFICATIONS, DEFAULT_AI_SETTINGS)
            end;
          let payload := {| cards := Some cards; settings := Some current.1;
                            aiSettings := Some current.2 |} in
          encrypt_and_save (user_id user) payload key
      end
  end.

Definition default_settings : NotificationSettings * AISettings :=
  (DEFAULT_NOTIFICATIONS, DEFAULT_AI_SETTINGS).

(** The pair is [{notifications, ai}]. *)
Definition getSettings : M (NotificationSettings * AISettings) :=
  catch
    (user ← getCurrentUser;
     match user with
     | None =>
         data ← getGuestData;
         s ← field settings data;
         a ← field aiSettings data;
         mret (default DEFAULT_NOTIFICATIONS s, default DEFAULT_AI_SETTINGS a)
     | Some user =>
         key ← getSessionKey;
         match key with
         | None => mret default_settings
         | Some key =>
             encryptedData ← getUserDataRaw (user_id user);
             match encryptedData with
             | None => mret default_settings
             | Some encryptedData =>
                 decrypted ← lift (decryptData (A:=UserData)
                   (iv encryptedData) (ciphertext encryptedData) key);
                 s ← field settings decrypted;
                 a ← field aiSettings decrypted;
                 mret (default DEFAULT_NOTIFICATIONS s,
                       default DEFAULT_AI_SETTINGS a)
             end
         end
     end)
    (λ e, mret default_settings).

Definition saveSettings (notifications : NotificationSettings)
    (ai : AISettings) : M unit :=
  user ← getCurrentUser;
  match user with
  | None =>
      data ← getGuestData;
      let data := default empty_data data in
      saveGuestData {| cards := cards data; settings := Some notifications;
                       aiSettings := Some ai |}
  | Some user =>
      key ← getSessionKey;
      match key with
      | None => mret ()
      | Some key =>
          encryptedData ← getUserDataRaw (user_id user);
          currentCards ←
            match encryptedData with
            | Some encryptedData =>
                catch
                  (decrypted ← lift (decryptData (A:=UserData)
                     (iv encryptedData) (ciphertext encryptedData) key);
                   cs ← field cards decrypted;
                   mret (default [] cs))
                  (λ e, mret [])
            | None => mret []
            end;
          let payload := {| cards := Some currentCards;
                            settings := Some notifications;
                            aiSettings := Some ai |} in
          encrypt_and_save (user_id user) payload key
      end
  end.

(** The cards of an append: the current cards, then the imported cards
    whose id is not among the current ids. *)
Definition append_cards (currentCards importedCards : list CreditCard)
    : list CreditCard :=
  let currentIds : gset jsstring := list_to_set (card_id <$> currentCards) in
  let newCards :=
    List.filter (λ c, negb (bool_decide (card_id c ∈ currentIds)))
                importedCards in
  currentCards ++ newCards.

Definition importWalletJSON (jsonString : jsstring) (append : bool) : M bool :=
  catch
    (data ← lift (JSON_parse (A:=UserData) jsonString);
     cs ← field cards data;
     importedCards ← match cs with
                     | Some cs => mret cs
                     | None => throw (Error (str "Invalid backup file"))
                     end;
     importedSettings ← field settings data;
     importedAI ← field aiSettings data;
     let importedSettings := default DEFAULT_NOTIFICATIONS importedSettings in
     let importedAI := default DEFAULT_AI_SETTINGS importedAI in
     currentCards ← getCards;
     current ← getSettings;
     let payload :=
       if append
       then {| cards := Some (append_cards currentCards importedCards);
               settings := Some current.1;
               aiSettings := Some current.2 |}
       else {| cards := Some importedCards;
               settings := Some importedSettings;
               aiSettings := Some importedAI |} in
     user ← getCurrentUser;
     match user with
     | None => saveGuestData payload;; mret true
     | Some user =>
         key ← getSessionKey;
         match key with
         | Some key => encrypt_and_save (user_id user) payload key
         | None => mret ()
         end;;
         mret true
     end)
    (λ e, throw (Error (str
       "Failed to import backup. File might be corrupted."))).


(** *** Backup file and data of earlier versions *)
Context `{!IsoDate, !Json (WalletBackup CardDetails BenefitDetails)}.
Context `{!Json (list CreditCard), !Json NotificationSettings}.

(** [JSON.stringify(exportData, null, 2)] *)
Definition exportWalletJSON : M jsstring :=
  cards ← getCards;
  current ← getSettings;
  t ← Date_now;
  let exportData :=
    {| version := 2;
       exportDate := toISOString t;
       backup_cards := cards;
       backup_settings := current.1;
       backup_aiSettings := current.2 |} in
  mret (JSON_stringify exportData).

Definition hasLegacyData : M bool :=
  item ← getItem OLD_CARDS_KEY;
  mret (truthy item).

Definition getLegacyData : M UserData :=
  catch
    (cardsStr ← getItem OLD_CARDS_KEY;
     settingsStr ← getItem OLD_SETTINGS_KEY;
     cards ← (if truthy cardsStr
              then lift (JSON_parse (A:=list CreditCard) (default [] cardsStr))
              else mret (Some []));
     settings ← (if truthy settingsStr
                 then lift (JSON_parse (A:=NotificationSettings)
                              (default [] settingsStr))
                 else mret (Some DEFAULT_NOTIFICATIONS));
     mret {| cards := cards; settings := settings;
             aiSettings := Some DEFAULT_AI_SETTINGS |})
    (λ e, mret {| cards := Some []; settings := Some DEFAULT_NOTIFICATIONS;
                  aiSettings := Some DEFAULT_AI_SETTINGS |}).

Definition clearLegacyData : M unit :=
  removeItem OLD_CARDS_KEY;;
  removeItem OLD_SETTINGS_KEY.

End storage.
End StorageService.

(** ** Callers of the services

    An event handler of a component is a computation on the same state;
    the component state it reads is an argument, and what it leaves on the
    screen is its result. *)

(** [App.tsx]: the wallet held in the [cards] state and saved on every
    change. The result is the new value of [cards]. *)
Module App.
Import AuthService StorageService.
Section app.
Context {CryptoKey JsonWebKey CardDetails BenefitDetails JSDate : Type}.
Context `{!WebCrypto CryptoKey JsonWebKey, !Utf8, !DateFns JSDate}.
Context `{!Json EncryptedPayload, !Json (UserData CardDetails BenefitDetails)}.
Local Abbreviation M := (M (CryptoKey:=CryptoKey)).
Local Abbreviation CreditCard := (CreditCard CardDetails BenefitDetails).



End app.
End App.

(** [components/Auth.tsx]: the "Unlock with Biometrics" button. *)
Module Auth.
Import AuthService.

(** What the handler leaves on the screen: [onLoginSuccess()] was called,
    or an error is shown, with the biometric button still offered or not. *)
Inductive screen :=
  | LoginSuccess
  | ShowError (error : jsstring) (showBiometric : bool).

Section auth.
Context {CryptoKey JsonWebKey : Type}.
Context `{!WebCrypto CryptoKey JsonWebKey, !Utf8}.
Context `{!Json JsonWebKey, !Json UserProfile}.
Local Abbreviation M := (M (CryptoKey:=CryptoKey)).

Definition handleBiometricLogin (assertion : result unit) : M screen :=
  catch
    (verified ← verifyBiometric assertion;
     if (verified : bool) then
       restored ← restoreSession true;
       if (restored : bool) then mret LoginSuccess
       else mret (ShowError
              (str "Session expired. Please login with password.") false)
     else mret (ShowError (str "Biometric verification failed.") true))
    (λ e, mret (ShowError (str "Biometric error.") true)).

End auth.
End Auth.

(** [components/Settings.tsx]: the biometric toggle. *)
Module Settings.
Import AuthService.
Section settings.
Context {CryptoKey JsonWebKey : Type}.
Context `{!WebCrypto CryptoKey JsonWebKey, !Utf8}.
Context `{!Json JsonWebKey, !Json UserProfile}.
Local Abbreviation M := (M (CryptoKey:=CryptoKey)).

(** [biometricsActive] is the state of the toggle; the result is its new
    value and the status line. *)
Definition handleToggleBiometrics (biometricsActive : bool)
    (available : bool) (credential : result unit) : M (bool * jsstring) :=
  catch
    (if biometricsActive then
       disableBiometrics;;
       mret (false, str "Biometric login disabled.")
     else
       enableBiometrics available credential;;
       mret (true, str "Biometric login enabled."))
    (λ e, mret (biometricsActive, str "Error: " ++ exn_message e)).

End settings.
End Settings.

(** ** What the wallet operations are specified with *)
Module StorageSpec.
Import CryptoUtils AuthService StorageService.
Section spec.
Context {CryptoKey JsonWebKey CardDetails BenefitDetails JSDate : Type}.
Context `{!WebCrypto CryptoKey JsonWebKey, !Utf8, !DateFns JSDate}.
Context `{!Json EncryptedPayload, !Json (UserData CardDetails BenefitDetails)}.
Implicit Types w : World CryptoKey.
Local Abbreviation UserData := (UserData CardDetails BenefitDetails).
Local Abbreviation CreditCard := (CreditCard CardDetails BenefitDetails).

(** The blob a fetch from the remote table returns: there is one when the
    browser is on line, the request is answered and the row exists. *)
Definition remote_blob (userId : jsstring) w : option EncryptedPayload :=
  if onLine w then
    match network w with
    | FetchOk => user_data w !! userId
    | _ => None
    end
  else None.

(** The state after the local cache of [userId] was overwritten. *)
Definition cached (userId : jsstring) (data : EncryptedPayload) w
    : World CryptoKey :=
  set_localStorage
    (<[user_data_key userId := JSON_stringify data]> (localStorage w)) w.

(** The cache entry of [userId] is absent or was written by the services. *)
Definition cache_wf (userId : jsstring) w : Prop :=
  ∀ s, localStorage w !! user_data_key userId = Some s →
       ∃ data : EncryptedPayload, s = JSON_stringify data.

(** What a call leaves alone: the session in memory and the clock. *)
Definition same_session w w' : Prop :=
  currentUser w' = currentUser w ∧
  currentSessionKey w' = currentSessionKey w ∧
  now w' = now w.

(** [cleanCards] as a function of the day. *)
Definition cleaned (today : JSDate) (cards : list CreditCard) : list CreditCard :=
  map (λ card,
    match temporaryBenefits card with
    | None | Some [] => card
    | Some benefits =>
        {| card_id := card_id card;
           temporaryBenefits := Some (List.filter (still_valid today) benefits);
           card_details := card_details card |}
    end) cards.

(** The bytes the next call of [getRandomValues(new Uint8Array(12))]
    returns. *)
Definition next_iv w : list byte := entropy w <$> seq (entropy_used w) 12.

(** The payload [encryptData] makes of [payload] in state [w]. *)
Definition sealed (payload : UserData) (key : CryptoKey) w : EncryptedPayload :=
  {| iv := Codec.forgiving_base64_encode (Byte.to_N <$> next_iv w);
     ciphertext := Codec.forgiving_base64_encode
       (Byte.to_N <$> subtle_encrypt key (next_iv w)
                        (TextEncoder_encode (JSON_stringify payload))) |}.

(** The wallet [payload] is what a save made in state [w] left in [w']:
    the guest document for a guest, the encrypted cache entry of the user
    for an unlocked session. (With a user but no key in memory the save is
    skipped.) *)
Definition wallet_saved (payload : UserData) w w' : Prop :=
  match currentUser w, currentSessionKey w with
  | None, _ =>
      localStorage w' !! GUEST_DATA_KEY = Some (JSON_stringify payload)
  | Some user, Some key =>
      ∃ ivBytes encrypted,
        encryptData payload key ivBytes = Ok encrypted ∧
        localStorage w' !! user_data_key (user_id user)
          = Some (JSON_stringify encrypted)
  | Some user, None => w' = w
  end.

(** The settings [getSettings] reads of a document. *)
Definition settings_of (data : UserData) : NotificationSettings * AISettings :=
  (default DEFAULT_NOTIFICATIONS (settings data),
   default DEFAULT_AI_SETTINGS (aiSettings data)).

(** The settings [saveCards] carries over from the blob it found. *)
Definition carried_settings (decrypted : result (option UserData))
    : NotificationSettings * AISettings :=
  match decrypted with
  | Ok (Some old) => settings_of old
  | _ => (DEFAULT_NOTIFICATIONS, DEFAULT_AI_SETTINGS)
  end.

(** The blob a save found, decrypted; no blob reads as no document. *)
Definition found (blob : option EncryptedPayload) (key : CryptoKey)
    : result (option UserData) :=
  match blob with
  | Some blob => decryptData (iv blob) (ciphertext blob) key
  | None => Ok None
  end.

(** The cards [saveSettings] carries over from the blob it found. *)
Definition carried_cards (decrypted : result (option UserData))
    : list CreditCard :=
  match decrypted with
  | Ok (Some old) => default [] (cards old)
  | _ => []
  end.

(** The state after [saveUserData]: the cache entry of [userId] is
    overwritten, and so is the remote row when the browser is on line and
    the request is answered. *)
Definition saved (userId : jsstring) (data : EncryptedPayload) w
    : World CryptoKey :=
  let w1 := cached userId data w in
  if onLine w then
    match network w with
    | FetchOk => set_user_data (<[userId := data]> (user_data w)) w1
    | _ => w1
    end
  else w1.

(** The document of guest mode, as [getGuestData] reads it. *)
Definition guest_document w : result (option UserData) :=
  match localStorage w !! GUEST_DATA_KEY with
  | Some (c :: s) => JSON_parse (c :: s)
  | _ => Ok (Some {| cards := Some [];
                     settings := Some DEFAULT_NOTIFICATIONS;
                     aiSettings := Some DEFAULT_AI_SETTINGS |})
  end.

(** The state after [saveGuestData]. *)
Definition guest_saved (data : UserData) w : World CryptoKey :=
  set_localStorage
    (<[GUEST_DATA_KEY := JSON_stringify data]> (localStorage w)) w.



(** The temporary benefits of a card, none when the field is missing. *)
Definition benefits_of (card : CreditCard) : list (Benefit BenefitDetails) :=
  default [] (temporaryBenefits card).

End spec.
End StorageSpec.

(** ** A reference environment

    A small, executable implementation of the browser primitives, on which
    the services can be run: a cipher that tags the plaintext with its
    one-byte key, Latin-1 in place of UTF-8, JSON values printed as the
    decimal numeral of their code, and dates as numbers. *)
Module Reference.

Global Instance byte_eq_dec : EqDecision byte := Byte.byte_eq_dec.
Global Instance byte_countable : Countable byte.
Proof.
  refine (inj_countable' Byte.to_N Codec.uint8 _).
  intros b. unfold Codec.uint8.
  pose proof (Byte.to_N_bounded b).
  by rewrite N.mod_small, Byte.of_to_N by lia.
Defined.

Definition webcrypto : WebCrypto byte byte := {|
  subtle_encrypt key iv data := key :: data;
  subtle_decrypt key iv data :=
    match data with
    | tag :: plain => if decide (tag = key) then Ok plain else Throw OperationError
    | [] => Throw OperationError
    end;
  subtle_deriveKey password salt := default Byte.x00 (head salt);
  subtle_exportKey key := Ok key;
  subtle_importKey jwk := Ok jwk;
|}.

Definition utf8 : Utf8 := {|
  TextEncoder_encode s := Codec.uint8 <$> s;
  TextDecoder_decode bytes := Byte.to_N <$> bytes;
|}.

Definition json (A : Type) `{Countable A} : Json A := {|
  JSON_stringify a := Number.toString (Z.pos (encode a));
  JSON_parse s :=
    match Number.parseInt s with
    | Some (Z.pos p) => Ok (decode p)
    | _ => Throw SyntaxError
    end;
|}.

(** A state of the reference environment: on line, the backend answering,
    an empty remote table and an all-zero entropy source. *)
Definition world (key : option byte) (user : option UserProfile)
    (storage : gmap jsstring jsstring) (t : Z) : World byte :=
  {| currentSessionKey := key; currentUser := user; localStorage := storage;
     now := t; onLine := true; network := FetchOk; user_data := ∅;
     entropy := λ _, Byte.x00; entropy_used := 0 |}.

Definition datefns : DateFns Z := {|
  startOfDay t := t;
  parseISO s := default 0%Z (Number.parseInt s);
  isBefore a b := bool_decide (a < b)%Z;
|}.


(** The records of the data model are countable, so that [json] applies. *)
Global Instance UserProfile_eq_dec : EqDecision UserProfile.
Proof. solve_decision. Defined.
Global Instance UserProfile_countable : Countable UserProfile.
Proof.
  refine (inj_countable' (λ u, (user_id u, username u, salt u))
    (λ t, {| user_id := t.1.1; username := t.1.2; salt := t.2 |}) _).
  by intros [].
Defined.

Global Instance EncryptedPayload_eq_dec : EqDecision EncryptedPayload.
Proof. solve_decision. Defined.
Global Instance EncryptedPayload_countable : Countable EncryptedPayload.
Proof.
  refine (inj_countable' (λ p, (iv p, ciphertext p))
    (λ t, {| iv := t.1; ciphertext := t.2 |}) _).
  by intros [].
Defined.

Global Instance NotificationSettings_eq_dec : EqDecision NotificationSettings.
Proof. solve_decision. Defined.
Global Instance NotificationSettings_countable : Countable NotificationSettings.
Proof.
  refine (inj_countable' (λ s, (daysBeforeStatement s, daysBeforeDue s))
    (λ t, {| daysBeforeStatement := t.1; daysBeforeDue := t.2 |}) _).
  by intros [].
Defined.

Global Instance AIProvider_eq_dec : EqDecision AIProvider.
Proof. solve_decision. Defined.
Global Instance AIProvider_countable : Countable AIProvider.
Proof.
  refine (inj_countable'
    (λ p, match p with
          | google => 0 | openai => 1 | anthropic => 2 | custom => 3
          end)
    (λ n, match n with
          | 0 => google | 1 => openai | 2 => anthropic | _ => custom
          end) _).
  by intros [].
Defined.

Global Instance AISettings_eq_dec : EqDecision AISettings.
Proof. solve_decision. Defined.
Global Instance AISettings_countable : Countable AISettings.
Proof.
  refine (inj_countable' (λ s, (provider s, modelId s, apiKey s, baseUrl s))
    (λ t, {| provider := t.1.1.1; modelId := t.1.1.2; apiKey := t.1.2;
             baseUrl := t.2 |}) _).
  by intros [].
Defined.

Section records.
Context {CardDetails BenefitDetails : Type}.
Context `{Countable CardDetails, Countable BenefitDetails}.

Global Instance Benefit_eq_dec : EqDecision (Benefit BenefitDetails).
Proof using Type*. solve_decision. Defined.
Global Instance Benefit_countable : Countable (Benefit BenefitDetails).
Proof using Type*.
  refine (inj_countable' (λ b, (expiryDate b, benefit_details b))
    (λ t, {| expiryDate := t.1; benefit_details := t.2 |}) _).
  by intros [].
Defined.

Global Instance CreditCard_eq_dec
    : EqDecision (CreditCard CardDetails BenefitDetails).
Proof using Type*. solve_decision. Defined.
Global Instance CreditCard_countable : Countable (CreditCard CardDetails BenefitDetails).
Proof using Type*.
  refine (inj_countable' (λ c, (card_id c, temporaryBenefits c, card_details c))
    (λ t, {| card_id := t.1.1; temporaryBenefits := t.1.2;
             card_details := t.2 |}) _).
  by intros [].
Defined.

Global Instance UserData_eq_dec
    : EqDecision (UserData CardDetails BenefitDetails).
Proof using Type*. solve_decision. Defined.
Global Instance UserData_countable : Countable (UserData CardDetails BenefitDetails).
Proof using Type*.
  refine (inj_countable' (λ d, (cards d, settings d, aiSettings d))
    (λ t, {| cards := t.1.1; settings := t.1.2; aiSettings := t.2 |}) _).
  by intros [].
Defined.

(** JSON for the wallet document and for a backup of it, such that the
    text of a backup also reads as a document: a text is the numeral of the
    code of a document together with the version and the date of the backup
    it is part of, if any. *)
Definition document_text (header : option (Z * jsstring))
    (data : UserData CardDetails BenefitDetails) : jsstring :=
  Number.toString (Z.pos (encode (header, data))).

Definition read_text (s : jsstring)
    : result (option (Z * jsstring) * UserData CardDetails BenefitDetails) :=
  match Number.parseInt s with
  | Some (Z.pos p) =>
      match decode p with
      | Some x => Ok x
      | None => Throw SyntaxError
      end
  | _ => Throw SyntaxError
  end.

Definition json_document : Json (UserData CardDetails BenefitDetails) := {|
  JSON_stringify data := document_text None data;
  JSON_parse s := x ← read_text s; Ok (Some x.2);
|}.

Definition json_backup : Json (WalletBackup CardDetails BenefitDetails) := {|
  JSON_stringify b :=
    document_text (Some (version b, exportDate b)) (backup_document b);
  JSON_parse s :=
    x ← read_text s;
    match x with
    | (Some (v, date),
       {| cards := Some cs; settings := Some s; aiSettings := Some a |}) =>
        Ok (Some {| version := v; exportDate := date; backup_cards := cs;
                    backup_settings := s; backup_aiSettings := a |})
    | _ => Ok None
    end;
|}.

End records.

(** The date of an export, printed as its timestamp. *)
Definition iso_date : IsoDate := {|
  toISOString t := Number.toString t;
|}.

End Reference.

(** ** Scenarios

    States and inputs of the reference environment on which the services
    are run: the account "a@x.com" / "secret123" and the card with id "1"
    of the specification's scenarios. *)
Module Scenario.
Import Reference AuthService Session StorageService.

Module Instances.
#[export] Existing Instance webcrypto.
#[export] Existing Instance utf8.
#[export] Existing Instance datefns.
#[export] Existing Instance json.
End Instances.
Import Instances.
Local Open Scope Z_scope.

(** A first start: nothing in memory, nothing persisted. *)
Definition fresh : World byte := world None None ∅ 0.

Definition alice : RemoteUser :=
  {| remote_id := str "u1"; user_metadata_salt := Some (str "AAAA") |}.
Definition alice_profile : UserProfile :=
  {| user_id := str "u1"; username := str "a@x.com"; salt := str "AAAA" |}.
Definition login_alice : session_op :=
  Login (str "a@x.com") (str "secret123") (SignedIn alice).

(** Just after the login, and 21 minutes later. *)
Definition after_login : World byte := run [(0%N, login_alice)] fresh.
Definition stale : World byte := set_now 1260000 after_login.

(** A cold start on a record without key material, and on a record whose
    key material is not JSON. *)
Definition partial_record : World byte :=
  world None None
    (<[SESSION_EXPIRY_STORAGE := str "5000"]>
       (<[SESSION_USER_STORAGE := JSON_stringify alice_profile]> ∅)) 1000.
Definition corrupt_record : World byte :=
  world None None
    (<[SESSION_EXPIRY_STORAGE := str "5000"]>
       (<[SESSION_KEY_STORAGE := str "{not json"]>
          (<[SESSION_USER_STORAGE := JSON_stringify alice_profile]> ∅))) 1000.

(** A cold start one hour after a login made with the biometric preference
    enabled: the 7-day record is persisted, memory is empty. *)
Definition locked : World byte :=
  let w := run [(0%N, EnableBiometrics true (Ok ())); (0%N, login_alice)] fresh in
  set_now 3600000 (set_currentUser None (set_currentSessionKey None w)).

(** Cards and wallets. *)
Definition card (id : string) (details : N) : CreditCard N unit :=
  {| card_id := str id; temporaryBenefits := None; card_details := details |}.

Definition reminders : NotificationSettings :=
  {| daysBeforeStatement := 7; daysBeforeDue := 2 |}.
Definition assistant : AISettings :=
  {| provider := openai; modelId := str "gpt"; apiKey := None; baseUrl := None |}.

(** A guest wallet holding card "1" with settings of its own. *)
Definition guest_wallet : World byte :=
  world None None
    (<[GUEST_DATA_KEY :=
         JSON_stringify
           {| cards := Some [card "1" 100]; settings := Some reminders;
              aiSettings := Some assistant |}]> ∅) 0.

(** A backup with another card "1" and a card "2". *)
Definition backup : jsstring :=
  JSON_stringify
    {| cards := Some [card "1" 999; card "2" 200];
       settings := Some DEFAULT_NOTIFICATIONS; aiSettings := None |}.

(** The session of "a@x.com" after a first [saveSettings] and [saveCards]. *)
Definition with_wallet : World byte :=
  let w := (saveSettings (CardDetails:=N) (BenefitDetails:=unit)
              reminders assistant after_login).2 in
  (saveCards [card "1" 100] w).2.

(** The blob of that session as [getUserDataRaw] fetches it, and the state
    after the fetch. *)
Definition stored_blob : EncryptedPayload :=
  match (getUserDataRaw (str "u1") with_wallet).1 with
  | Ok (Some blob) => blob
  | _ => {| iv := []; ciphertext := [] |}
  end.
Definition refreshed : World byte := (getUserDataRaw (str "u1") with_wallet).2.

End Scenario.


(** * Properties *)

(** ** Codec *)
Module CodecFacts.
Import Codec.
Local Open Scope N_scope.

(** Linear arithmetic with division and remainder by constants. *)
Ltac lia_div := zify; Z.to_euclidean_division_equations; lia.

(** Induction over a buffer three bytes at a time. *)
Lemma list_ind3 {A} (P : list A → Prop) :
  P [] → (∀ a, P [a]) → (∀ a b, P [a; b]) →
  (∀ a b c l, P l → P (a :: b :: c :: l)) →
  ∀ l, P l.
Proof.
  intros H0 H1 H2 H3 l.
  assert (P l ∧ (∀ a, P (a :: l)) ∧ (∀ a b, P (a :: b :: l))) as [? _].
  { induction l as [|x l (IH0 & IH1 & IH2)]; [by auto|].
    split_and!; [done| |];  intros; [apply IH2|by apply H3]. }
  done.
Qed.

(** Every value below [bound] satisfies a boolean test that holds on
    [0 .. bound-1]. *)
Lemma below_forallb (f : N → bool) (bound : nat) :
  forallb f (N.of_nat <$> seq 0 bound) = true →
  ∀ n, n < N.of_nat bound → f n = true.
Proof.
  intros Hall n Hn. rewrite forallb_forall in Hall. apply Hall.
  apply list_elem_of_In, list_elem_of_fmap. exists (N.to_nat n). split; [lia|].
  apply list_elem_of_In, in_seq. lia.
Qed.

Lemma b64_index_char n : n < 64 → b64_index (b64_char n) = Some n.
Proof.
  intros Hn.
  pose proof (below_forallb
    (λ n, bool_decide (b64_index (b64_char n) = Some n)) 64 eq_refl n Hn) as H.
  by apply bool_decide_eq_true in H.
Qed.

Lemma b64_char_not_whitespace n : n < 64 → is_ascii_whitespace (b64_char n) = false.
Proof.
  intros Hn.
  pose proof (below_forallb
    (λ n, negb (is_ascii_whitespace (b64_char n))) 64 eq_refl n Hn) as H.
  by apply negb_true_iff in H.
Qed.

Lemma b64_char_not_pad n : b64_char n ≠ pad_char.
Proof.
  destruct (decide (n < 64)) as [Hn|Hn].
  - pose proof (below_forallb
      (λ n, bool_decide (b64_char n ≠ pad_char)) 64 eq_refl n Hn) as H.
    by apply bool_decide_eq_true in H.
  - unfold b64_char. rewrite nth_overflow; [done|]. simpl. lia.
Qed.

Lemma sextets_of_bytes_bound l :
  Forall (λ b, b < 256) l → Forall (λ s, s < 64) (sextets_of_bytes l).
Proof.
  induction l as [|a|a b|a b c l IH] using list_ind3; intros Hl; simpl.
  - constructor.
  - inversion_clear Hl. repeat constructor; lia_div.
  - inversion_clear Hl as [|?? Ha Hl']. inversion_clear Hl'.
    repeat constructor; lia_div.
  - inversion_clear Hl as [|?? Ha Hl1]. inversion_clear Hl1 as [|?? Hb Hl2].
    inversion_clear Hl2 as [|?? Hc Hl3].
    repeat (constructor; [lia_div|]). by apply IH.
Qed.

Lemma bytes_of_sextets_of_bytes l :
  Forall (λ b, b < 256) l → bytes_of_sextets (sextets_of_bytes l) = l.
Proof.
  induction l as [|a|a b|a b c l IH] using list_ind3; intros Hl; simpl.
  - done.
  - inversion_clear Hl. f_equal. lia_div.
  - inversion_clear Hl as [|?? Ha Hl']. inversion_clear Hl'.
    repeat f_equal; lia_div.
  - inversion_clear Hl as [|?? Ha Hl1]. inversion_clear Hl1 as [|?? Hb Hl2].
    inversion_clear Hl2 as [|?? Hc Hl3].
    rewrite IH by done. repeat f_equal; lia_div.
Qed.

(** The encoder emits four characters per started group of three bytes. *)
Lemma sextets_length_padding l :
  ((length (sextets_of_bytes l) + length (padding l)) mod 4 = 0)%nat ∧
  (length (sextets_of_bytes l) mod 4 ≠ 1)%nat.
Proof.
  unfold padding.
  induction l as [|a|a b|a b c l [IH1 IH2]] using list_ind3; try done.
  cbn [sextets_of_bytes length].
  replace (S (S (S (length l))) mod 3)%nat with (length l mod 3)%nat
    by (by rewrite <-(Nat.Div0.mod_add (length l) 1 3), Nat.add_comm).
  set (n := length (sextets_of_bytes l)) in *.
  set (p := length (match _ with 1%nat => _ | _ => _ end)) in *.
  replace (S (S (S (S n))) + p)%nat with (n + p + 1 * 4)%nat by lia.
  replace (S (S (S (S n)))) with (n + 1 * 4)%nat by lia.
  by rewrite !Nat.Div0.mod_add.
Qed.

Lemma remove_padding_encoded (chars pad : jsstring) :
  Forall (λ c, c ≠ pad_char) chars →
  pad = [] ∨ pad = [pad_char] ∨ pad = [pad_char; pad_char] →
  remove_padding (chars ++ pad) = chars.
Proof.
  intros Hchars Hpad.
  assert (last chars ≠ Some pad_char) as Hlast.
  { intros H. apply last_Some in H as [l' ->].
    apply Forall_app in Hchars as [_ H]. by inversion_clear H. }
  unfold remove_padding. destruct Hpad as [->|[->| ->]].
  - rewrite app_nil_r. by rewrite decide_False.
  - rewrite last_snoc, decide_True by done. cbn zeta.
    rewrite removelast_last. by rewrite decide_False.
  - change (chars ++ [pad_char; pad_char])
      with (chars ++ [pad_char] ++ [pad_char]).
    rewrite app_assoc, last_snoc, decide_True by done. cbn zeta.
    rewrite removelast_last, last_snoc, decide_True by done.
    by rewrite removelast_last.
Qed.

Lemma padding_cases l :
  padding l = [] ∨ padding l = [pad_char] ∨ padding l = [pad_char; pad_char].
Proof.
  unfold padding. destruct (length l mod 3)%nat as [|[|[|?]]]; auto.
Qed.

Lemma filter_whitespace_encoded l :
  Forall (λ b, b < 256) l →
  List.filter (λ c, negb (is_ascii_whitespace c)) (forgiving_base64_encode l)
  = forgiving_base64_encode l.
Proof.
  intros Hl. apply forallb_filter_id, forallb_forall.
  intros c Hc%list_elem_of_In. unfold forgiving_base64_encode in Hc.
  apply elem_of_app in Hc as [Hc|Hc].
  - apply list_elem_of_fmap in Hc as (s & -> & Hs).
    pose proof (sextets_of_bytes_bound l Hl) as Hb.
    rewrite Forall_forall in Hb. by rewrite b64_char_not_whitespace by auto.
  - destruct (padding_cases l) as [H|[H|H]]; rewrite H in Hc;
      repeat (apply elem_of_cons in Hc as [->|Hc]; [done|]);
      by apply elem_of_nil in Hc.
Qed.

(** Decoding undoes encoding on every sequence of byte values. *)
Lemma forgiving_base64_decode_encode l :
  Forall (λ b, b < 256) l →
  forgiving_base64_decode (forgiving_base64_encode l) = Some l.
Proof.
  intros Hl. unfold forgiving_base64_decode.
  rewrite filter_whitespace_encoded by done. cbv zeta.
  destruct (sextets_length_padding l) as [Hlen H1].
  assert (remove_padding (forgiving_base64_encode l)
          = b64_char <$> sextets_of_bytes l) as Hrem.
  { apply remove_padding_encoded; [|apply padding_cases].
    apply Forall_fmap, Forall_true. intros s. apply b64_char_not_pad. }
  destruct (decide (length (forgiving_base64_encode l) mod 4 = 0)%nat)
    as [_|Hne]; last first.
  { destruct Hne. unfold forgiving_base64_encode.
    by rewrite length_app, length_fmap. }
  rewrite Hrem, decide_False by (by rewrite length_fmap).
  rewrite mapM_fmap_Forall_Some.
  - simpl. by rewrite bytes_of_sextets_of_bytes.
  - eapply Forall_impl; [by apply sextets_of_bytes_bound|].
    intros s Hs. by apply b64_index_char.
Qed.

Lemma binary_of_buffer (buffer : list byte) (acc : jsstring) :
  fold_left (λ binary b, binary ++ String_fromCharCode (Byte.to_N b)) buffer acc
  = acc ++ (Byte.to_N <$> buffer).
Proof.
  revert acc. induction buffer as [|b buffer IH]; intros acc; simpl.
  - by rewrite app_nil_r.
  - rewrite IH, <-app_assoc. unfold String_fromCharCode. simpl.
    pose proof (Byte.to_N_bounded b). by rewrite N.mod_small by lia.
Qed.

Lemma byte_values_bound (buffer : list byte) :
  Forall (λ b, b < 256) (Byte.to_N <$> buffer).
Proof.
  apply Forall_fmap, Forall_true. intros b. simpl.
  pose proof (Byte.to_N_bounded b). lia.
Qed.

Lemma uint8_to_N b : uint8 (Byte.to_N b) = b.
Proof.
  unfold uint8. pose proof (Byte.to_N_bounded b).
  by rewrite N.mod_small, Byte.of_to_N by lia.
Qed.

Lemma bufferToBase64_ok buffer :
  bufferToBase64 buffer = Ok (forgiving_base64_encode (Byte.to_N <$> buffer)).
Proof.
  unfold bufferToBase64, btoa. rewrite binary_of_buffer. simpl.
  replace (forallb _ _) with true; [done|].
  symmetry. apply forallb_forall. intros c Hc%list_elem_of_In.
  pose proof (byte_values_bound buffer) as Hb. rewrite Forall_forall in Hb.
  apply N.leb_le. specialize (Hb c Hc). simpl in Hb. lia.
Qed.

Lemma base64ToBuffer_encoded buffer :
  base64ToBuffer (forgiving_base64_encode (Byte.to_N <$> buffer)) = Ok buffer.
Proof.
  unfold base64ToBuffer, atob.
  rewrite forgiving_base64_decode_encode by apply byte_values_bound.
  simpl. f_equal. rewrite map_map. rewrite <-(map_id buffer) at 2.
  apply map_ext. intros b. apply uint8_to_N.
Qed.

(** C3. For every byte sequence [b], the empty and the one-byte sequences
    included, [bufferToBase64 b] returns a text [t] without throwing and
    [base64ToBuffer t] returns [b]: the Base64 codec round-trips. *)
Theorem base64_roundtrip (b : list byte) :
  bufferToBase64 b ≫= base64ToBuffer = Ok b.
Proof.
  rewrite bufferToBase64_ok. simpl. apply base64ToBuffer_encoded.
Qed.

(** RFC 4648 test vectors and malformed input. *)
Example btoa_Man : btoa (str "Man") = Ok (str "TWFu").
Proof. reflexivity. Qed.
Example btoa_Ma : btoa (str "Ma") = Ok (str "TWE=").
Proof. reflexivity. Qed.
Example btoa_M : btoa (str "M") = Ok (str "TQ==").
Proof. reflexivity. Qed.
Example btoa_wide : btoa [256] = Throw InvalidCharacterError.
Proof. reflexivity. Qed.
Example atob_TWE : atob (str "TWE=") = Ok (str "Ma").
Proof. reflexivity. Qed.
Example atob_spaces : atob (str " T Q = = ") = Ok (str "M").
Proof. reflexivity. Qed.
Example atob_bad_length : atob (str "TWFuT") = Throw InvalidCharacterError.
Proof. reflexivity. Qed.
Example atob_bad_char : atob (str "TW-u") = Throw InvalidCharacterError.
Proof. reflexivity. Qed.
Example buffer_empty : bufferToBase64 [] ≫= base64ToBuffer = Ok [].
Proof. reflexivity. Qed.
Example buffer_single :
  bufferToBase64 [Byte.xff] ≫= base64ToBuffer = Ok [Byte.xff].
Proof. reflexivity. Qed.

End CodecFacts.

(** ** Numbers as text *)
Module NumberFacts.
Import Number.
Local Open Scope Z_scope.

Lemma of_uint_acc_value d acc :
  Z.pos (Pos.of_uint_acc d acc) = uint_value d (Z.pos acc).
Proof.
  revert acc. induction d; intros acc; simpl; try done;
    rewrite IHd; f_equal; lia.
Qed.

Lemma of_uint_value d : Z.of_N (Pos.of_uint d) = uint_value d 0.
Proof.
  induction d; simpl; try done;
    rewrite of_uint_acc_value; f_equal.
Qed.

Lemma parse_digits_uint d acc :
  parse_digits (uint_chars d) (Some acc) = Some (uint_value d acc).
Proof.
  revert acc. induction d; intros acc; simpl; try done; apply IHd.
Qed.

Lemma parse_digits_uint_nonempty d :
  d ≠ Decimal.Nil →
  parse_digits (uint_chars d) None = Some (uint_value d 0).
Proof. destruct d; try done; intros _; simpl; apply parse_digits_uint. Qed.

Lemma to_uint_nonempty p : Pos.to_uint p ≠ Decimal.Nil.
Proof.
  intros H. pose proof (DecimalPos.Unsigned.of_to p) as Hp.
  rewrite H in Hp. done.
Qed.

Lemma parse_digits_pos p :
  parse_digits (uint_chars (Pos.to_uint p)) None = Some (Z.pos p).
Proof.
  rewrite parse_digits_uint_nonempty by apply to_uint_nonempty.
  by rewrite <-of_uint_value, DecimalPos.Unsigned.of_to.
Qed.

(** The first character of a printed positive number is a digit. *)
Lemma uint_chars_head d :
  d ≠ Decimal.Nil →
  ∃ c s, uint_chars d = c :: s ∧ (48 ≤ c ≤ 57)%N.
Proof. destruct d; try done; intros _; simpl; eexists _, _; split; done || lia. Qed.

Lemma parseInt_digits s c :
  (48 ≤ c ≤ 57)%N → parseInt (c :: s) = parse_digits (c :: s) None.
Proof.
  intros Hc. unfold parseInt.
  assert (is_str_whitespace c = false) as Hws.
  { unfold is_str_whitespace. apply orb_false_iff. split.
    - apply bool_decide_eq_false. intros Hin.
      repeat (apply elem_of_cons in Hin as [->|Hin]; [lia|]).
      by apply elem_of_nil in Hin.
    - apply andb_false_iff. left. apply N.leb_gt. lia. }
  simpl skip_whitespace. rewrite Hws.
  destruct (N.eqb_spec c 45); [lia|]. destruct (N.eqb_spec c 43); [lia|]. done.
Qed.

(** [parseInt] reads back the integer that [toString] printed. *)
Lemma parseInt_toString n : parseInt (toString n) = Some n.
Proof.
  destruct n as [|p|p]; [done| |].
  - simpl. destruct (uint_chars_head (Pos.to_uint p)) as (c & s & Hcs & Hc);
      [apply to_uint_nonempty|].
    rewrite Hcs, parseInt_digits by done. rewrite <-Hcs. apply parse_digits_pos.
  - unfold parseInt, toString. simpl. by rewrite parse_digits_pos.
Qed.

Lemma uint_chars_ascii d : Forall (λ c, (c < 256)%N) (uint_chars d).
Proof. induction d; simpl; constructor; done || lia. Qed.

Lemma toString_ascii n : Forall (λ c, (c < 256)%N) (toString n).
Proof.
  destruct n; simpl; repeat constructor; try apply uint_chars_ascii; lia.
Qed.

Lemma toString_nonempty n : toString n ≠ [].
Proof.
  intros H. pose proof (parseInt_toString n) as Hp. by rewrite H in Hp.
Qed.

Example toString_1200000 : Number.toString 1200000 = str "1200000".
Proof. reflexivity. Qed.
Example parseInt_plain : Number.parseInt (str "1700000000000") = Some 1700000000000%Z.
Proof. reflexivity. Qed.
Example parseInt_prefix : Number.parseInt (str "  -12px") = Some (-12)%Z.
Proof. reflexivity. Qed.
Example parseInt_NaN : Number.parseInt (str "soon") = None.
Proof. reflexivity. Qed.

End NumberFacts.

(** ** The reference environment satisfies what the services rely on *)
Module ReferenceFacts.
Import Reference.

Lemma aes_gcm_correct : AesGcmCorrect (H:=webcrypto).
Proof. intros key iv data. simpl. by rewrite decide_True. Qed.

Lemma aes_gcm_authentic : AesGcmAuthentic (H:=webcrypto).
Proof. intros key1 key2 iv data Hne. simpl. by rewrite decide_False. Qed.

Lemma extractable : Extractable (H:=webcrypto).
Proof. intros key. by exists key. Qed.

Lemma json_correct A `{Countable A} : JsonCorrect A (H:=json A).
Proof.
  split.
  - intros a. unfold JSON_parse, JSON_stringify, json.
    by rewrite NumberFacts.parseInt_toString, decode_encode.
  - done.
Qed.

Lemma json_utf8 A `{Countable A} : JsonUtf8 A (H:=utf8) (H0:=json A).
Proof.
  intros a.
  unfold JSON_stringify, json, TextDecoder_decode, TextEncoder_encode, utf8.
  generalize (NumberFacts.toString_ascii (Z.pos (encode a))).
  generalize (Number.toString (Z.pos (encode a))).
  induction 1 as [|c s Hc _ IH]; [done|]. rewrite !fmap_cons, IH. f_equal.
  unfold Codec.uint8. rewrite N.mod_small by done.
  destruct (Byte.of_N c) as [b|] eqn:Hb.
  - by apply Byte.to_of_N.
  - apply Byte.of_N_None_iff in Hb. lia.
Qed.

End ReferenceFacts.

(** ** Encryption engine *)
Module CryptoFacts.
Import Codec CryptoUtils.

Section crypto.
Context {CryptoKey JsonWebKey : Type}.
Context `{!WebCrypto CryptoKey JsonWebKey, !Utf8}.
Context {A : Type} `{!Json A}.

(** [encryptData] never throws: its Base64 conversions are applied to
    byte buffers. *)
Lemma encryptData_ok (data : A) (key : CryptoKey) (ivBytes : list byte) :
  encryptData data key ivBytes
  = Ok {| iv := forgiving_base64_encode (Byte.to_N <$> ivBytes);
          ciphertext := forgiving_base64_encode
            (Byte.to_N <$> subtle_encrypt key ivBytes
                             (TextEncoder_encode (JSON_stringify data))) |}.
Proof. unfold encryptData. by rewrite !CodecFacts.bufferToBase64_ok. Qed.

(** On a payload of [encryptData], [decryptData] calls AES-GCM with the
    IV and the ciphertext of the encryption. *)
Lemma decryptData_encrypted (data : A) (key1 key2 : CryptoKey) ivBytes :
  (encryptData data key1 ivBytes
     ≫= λ p, decryptData (A:=A) (iv p) (ciphertext p) key2)
  = try_catch
      (decryptedContent ← subtle_decrypt key2 ivBytes
         (subtle_encrypt key1 ivBytes
            (TextEncoder_encode (JSON_stringify data)));
       JSON_parse (TextDecoder_decode decryptedContent))
      (λ e, Throw (Error decryption_failed)).
Proof.
  rewrite encryptData_ok. simpl. unfold decryptData. simpl.
  by rewrite !CodecFacts.base64ToBuffer_encoded.
Qed.

Lemma decryptData_own_key `{!AesGcmCorrect, !JsonCorrect A, !JsonUtf8 A}
    (data : A) (key : CryptoKey) (ivBytes : list byte) :
  (encryptData data key ivBytes ≫= λ p, decryptData (iv p) (ciphertext p) key)
  = Ok (Some data).
Proof.
  rewrite decryptData_encrypted, decrypt_encrypt. simpl.
  by rewrite decode_encode_json, parse_stringify.
Qed.

Lemma decryptData_payload `{!AesGcmCorrect, !JsonCorrect A, !JsonUtf8 A}
    (data : A) (key : CryptoKey) (ivBytes : list byte) encrypted :
  encryptData data key ivBytes = Ok encrypted →
  decryptData (iv encrypted) (ciphertext encrypted) key = Ok (Some data).
Proof.
  intros Henc. pose proof (decryptData_own_key data key ivBytes) as Hround.
  by rewrite Henc in Hround.
Qed.

(** C1. For every value [o] that JSON can carry and every key [k],
    decrypting the payload of [encryptData o k] with [k] returns [o]. *)
Theorem decrypt_encrypt_roundtrip
    `{!AesGcmCorrect, !JsonCorrect A, !JsonUtf8 A}
    (o : A) (k : CryptoKey) (ivBytes : list byte) :
  (encryptData o k ivBytes ≫= λ p, decryptData (iv p) (ciphertext p) k)
  = Ok (Some o).
Proof. apply decryptData_own_key. Qed.

(** C2. For every value [o] and keys [k1 ≠ k2], decrypting the payload of
    [encryptData o k1] with [k2] throws the error whose message is
    "Decryption failed. Invalid password or corrupted data."; it returns no
    value and throws nothing else. *)
Theorem decrypt_wrong_key_fails `{!AesGcmAuthentic}
    (o : A) (k1 k2 : CryptoKey) (ivBytes : list byte) :
  k1 ≠ k2 →
  (encryptData o k1 ivBytes ≫= λ p, decryptData (A:=A) (iv p) (ciphertext p) k2)
  = Throw (Error (str "Decryption failed. Invalid password or corrupted data.")).
Proof.
  intros Hne. by rewrite decryptData_encrypted, decrypt_wrong_key.
Qed.

(** Whatever AES-GCM answers, [decryptData] on a payload of [encryptData]
    returns a value or throws that same error. *)
Lemma decryptData_encrypted_cases (o : A) (k1 k2 : CryptoKey) ivBytes :
  let r := encryptData o k1 ivBytes
             ≫= λ p, decryptData (A:=A) (iv p) (ciphertext p) k2 in
  (∃ v, r = Ok v) ∨ r = Throw (Error decryption_failed).
Proof.
  simpl. rewrite decryptData_encrypted. unfold try_catch.
  destruct (_ ≫= _); eauto.
Qed.

End crypto.

Lemma decrypt_encrypt_roundtrip_witness :
  (@encryptData _ _ Reference.webcrypto Reference.utf8 _ (Reference.json Z)
     42%Z Byte.x07 [Byte.x01; Byte.x02]
   ≫= λ p, @decryptData _ _ Reference.webcrypto Reference.utf8 _
             (Reference.json Z) (iv p) (ciphertext p) Byte.x07)
  = Ok (Some 42%Z).
Proof.
  apply (@decrypt_encrypt_roundtrip _ _ Reference.webcrypto Reference.utf8
           _ (Reference.json Z) ReferenceFacts.aes_gcm_correct
           (ReferenceFacts.json_correct Z) (ReferenceFacts.json_utf8 Z)).
Defined.

Lemma decrypt_wrong_key_fails_witness :
  Byte.x07 ≠ Byte.x08 ∧
  (@encryptData _ _ Reference.webcrypto Reference.utf8 _ (Reference.json Z)
     42%Z Byte.x07 [Byte.x01; Byte.x02]
   ≫= λ p, @decryptData _ _ Reference.webcrypto Reference.utf8 _
             (Reference.json Z) (iv p) (ciphertext p) Byte.x08)
  = Throw (Error (str "Decryption failed. Invalid password or corrupted data.")).
Proof.
  split; [done|].
  apply (@decrypt_wrong_key_fails _ _ Reference.webcrypto Reference.utf8
           _ (Reference.json Z) ReferenceFacts.aes_gcm_authentic); done.
Defined.

End CryptoFacts.

(** ** Session controller *)
Module AuthFacts.
Import CryptoUtils AuthService Session RestoreFailure.
Local Open Scope Z_scope.

(** Unfold the combinators of [M] and compute on the state. *)
Ltac run_M :=
  cbv beta iota zeta delta
    [mbind mret M_bind M_ret result_bind result_ret try_catch
     catch throw lift gets modify getItem setItem removeItem Date_now navigator_onLine
     fst snd negb andb orb truthy default from_option id];
  cbn [localStorage now currentSessionKey currentUser onLine network
       user_data entropy entropy_used set_localStorage set_currentSessionKey
       set_currentUser set_now set_user_data set_entropy_used].

Lemma session_keys_distinct :
  SESSION_KEY_STORAGE ≠ SESSION_USER_STORAGE ∧
  SESSION_KEY_STORAGE ≠ SESSION_EXPIRY_STORAGE ∧
  SESSION_KEY_STORAGE ≠ SESSION_BIOMETRIC_ENABLED ∧
  SESSION_USER_STORAGE ≠ SESSION_EXPIRY_STORAGE ∧
  SESSION_USER_STORAGE ≠ SESSION_BIOMETRIC_ENABLED ∧
  SESSION_EXPIRY_STORAGE ≠ SESSION_BIOMETRIC_ENABLED.
Proof. by repeat split. Qed.

Lemma timeouts :
  SESSION_TIMEOUT_MS = 1200000 ∧ BIOMETRIC_TIMEOUT_MS = 604800000.
Proof. done. Qed.

Section auth.
Context {CryptoKey JsonWebKey : Type}.
Context `{!WebCrypto CryptoKey JsonWebKey, !Utf8}.
Context `{!Json JsonWebKey, !Json UserProfile}.
Implicit Types w : World CryptoKey.

Lemma clearSession_spec w : clearSession w = (Ok (), cleared w).
Proof. done. Qed.

Lemma cleared_record w :
  localStorage (cleared w) !! SESSION_KEY_STORAGE = None ∧
  localStorage (cleared w) !! SESSION_USER_STORAGE = None ∧
  localStorage (cleared w) !! SESSION_EXPIRY_STORAGE = None.
Proof.
  destruct session_keys_distinct as (? & ? & ? & ? & ? & ?).
  unfold cleared; cbn [localStorage set_localStorage].
  split_and!; by simplify_map_eq.
Qed.

Lemma cleared_memory w :
  currentSessionKey (cleared w) = currentSessionKey w ∧
  currentUser (cleared w) = currentUser w.
Proof. done. Qed.

Lemma isBiometricEnabled_spec w :
  isBiometricEnabled w = (Ok (biometric_enabled w), w).
Proof. done. Qed.

Lemma truthy_parseInt (s : jsstring) e :
  Number.parseInt s = Some e → truthy (Some s) = true.
Proof. by destruct s. Qed.

(** On an expired record [restoreSession] only runs [clearSession]. *)
Lemma restoreSession_clears_expired skip w s e :
  localStorage w !! SESSION_EXPIRY_STORAGE = Some s →
  Number.parseInt s = Some e →
  e < now w →
  restoreSession skip w = (Ok false, cleared w).
Proof.
  intros Hs He Hlt. pose proof (truthy_parseInt s e He) as Ht.
  unfold restoreSession. run_M. rewrite Hs. destruct s as [|c s]; [done|].
  run_M. rewrite He. unfold Number.gt. by rewrite bool_decide_eq_true_2 by lia.
Qed.

(** C4, as the code has it. For every persisted session whose stored expiry
    timestamp is strictly in the past at the time of the call,
    [restoreSession] returns false, removes the persisted session record
    (key material, user profile, expiry timestamp) from local storage and
    leaves the key and the user held in memory as they were before the call:
    no key is in memory afterwards when none was before. *)
Theorem restoreSession_expired skip w s e :
  localStorage w !! SESSION_EXPIRY_STORAGE = Some s →
  Number.parseInt s = Some e →
  e < now w →
  ∃ w', restoreSession skip w = (Ok false, w') ∧
    localStorage w' !! SESSION_KEY_STORAGE = None ∧
    localStorage w' !! SESSION_USER_STORAGE = None ∧
    localStorage w' !! SESSION_EXPIRY_STORAGE = None ∧
    currentSessionKey w' = currentSessionKey w ∧
    currentUser w' = currentUser w ∧
    (currentSessionKey w = None → currentSessionKey w' = None).
Proof.
  intros Hs He Hlt. exists (cleared w).
  rewrite (restoreSession_clears_expired skip w s e) by done.
  destruct (cleared_record w) as (? & ? & ?). by split_and!.
Qed.

Lemma restoreSession_load skip w jwkStr userStr :
  reaches_load skip w jwkStr userStr →
  restoreSession skip w =
    match
      (jwk ← JSON_parse (A:=JsonWebKey) jwkStr;
       key ← match jwk with
             | Some jwk => importKeyFromJWK jwk
             | None => Throw TypeError
             end;
       user ← JSON_parse (A:=UserProfile) userStr;
       Ok (key, user))
    with
    | Ok (key, user) => (Ok true, restored key user w)
    | Throw e => (Ok false, cleared w)
    end.
Proof.
  intros ((expiryStr & Hs & Ht & Hgt) & Hbio & Hk & Htk & Hu & Htu).
  unfold restoreSession. run_M. rewrite Hs.
  destruct expiryStr as [|c s]; [done|]. run_M. rewrite Hgt.
  rewrite isBiometricEnabled_spec. run_M. 
  replace (if biometric_enabled w then if skip then false else true else false)
    with false by (by destruct (biometric_enabled w), skip).
  rewrite Hk, Hu.
  destruct jwkStr as [|c1 s1]; [done|]. destruct userStr as [|c2 s2]; [done|].
  run_M.
  destruct (JSON_parse (A:=JsonWebKey) _) as [[jwk|]|]; [|done..].
  run_M. destruct (importKeyFromJWK jwk) as [key|]; [|done].
  run_M. destruct (JSON_parse (A:=UserProfile) _) as [user|]; [|done].
  rewrite isBiometricEnabled_spec. done.
Qed.

(** C5, as the code has it. Whenever [restoreSession] fails on a stored
    record that has not expired because a step of it throws (the stored JWK
    is malformed, the key import fails, or the stored user profile is
    malformed), it removes the whole persisted session record and returns
    false, and it has written neither key nor user to memory: both are as
    they were before the call, hence unset when they were unset. *)
Theorem restoreSession_failure_clears skip w jwkStr userStr :
  reaches_load skip w jwkStr userStr →
  restore_failure jwkStr userStr →
  ∃ w', restoreSession skip w = (Ok false, w') ∧
    localStorage w' !! SESSION_KEY_STORAGE = None ∧
    localStorage w' !! SESSION_USER_STORAGE = None ∧
    localStorage w' !! SESSION_EXPIRY_STORAGE = None ∧
    currentSessionKey w' = currentSessionKey w ∧
    currentUser w' = currentUser w ∧
    (currentSessionKey w = None → currentUser w = None →
     currentSessionKey w' = None ∧ currentUser w' = None).
Proof.
  intros Hload Hfail. exists (cleared w).
  rewrite (restoreSession_load skip w jwkStr userStr Hload).
  destruct (cleared_record w) as (? & ? & ?).
  destruct Hfail as [e He| He |jwk e Hj He|jwk key e Hj Hk He];
    rewrite ?He, ?Hj; simpl; rewrite ?He, ?Hk; simpl; rewrite ?He; simpl;
    by split_and!.
Qed.

(** A record without key material or without a user profile is left as it
    is: [restoreSession] returns false and changes nothing. *)
Lemma restoreSession_missing_material skip w expiryStr :
  localStorage w !! SESSION_EXPIRY_STORAGE = Some expiryStr →
  truthy (Some expiryStr) = true →
  Number.gt (now w) (Number.parseInt expiryStr) = false →
  truthy (localStorage w !! SESSION_KEY_STORAGE) = false ∨
  truthy (localStorage w !! SESSION_USER_STORAGE) = false →
  restoreSession skip w = (Ok false, w).
Proof.
  intros Hs Ht Hgt Hmiss. unfold restoreSession. run_M. rewrite Hs.
  destruct expiryStr as [|c s]; [done|]. run_M. rewrite Hgt.
  rewrite isBiometricEnabled_spec. run_M.
  destruct (biometric_enabled w), skip; try done.
  all: destruct (localStorage w !! SESSION_KEY_STORAGE) as [[|??]|];
    destruct (localStorage w !! SESSION_USER_STORAGE) as [[|??]|];
    try done; by destruct Hmiss.
Qed.

(** A restore that goes through puts the key and the user in memory and
    refreshes the expiry. *)
Lemma restoreSession_success skip w jwkStr userStr jwk key user :
  reaches_load skip w jwkStr userStr →
  JSON_parse jwkStr = Ok (Some jwk) →
  importKeyFromJWK jwk = Ok key →
  JSON_parse userStr = Ok user →
  restoreSession skip w = (Ok true, restored key user w).
Proof.
  intros Hload Hj Hk Hu. rewrite (restoreSession_load _ _ _ _ Hload).
  rewrite Hj. simpl. rewrite Hk. simpl. by rewrite Hu.
Qed.

Lemma persistSession_spec key user w :
  persistSession key user w =
    (Ok (), match exportKeyToJWK key with
            | Ok jwk => persisted jwk user w
            | Throw _ => w
            end).
Proof.
  unfold persistSession. run_M. destruct (exportKeyToJWK key); [|done].
  by rewrite isBiometricEnabled_spec.
Qed.

Lemma persisted_expiry (jwk : JsonWebKey) user w :
  stored_expiry (persisted jwk user w)
  = Some (now w + session_timeout (biometric_enabled w)).
Proof.
  unfold stored_expiry, persisted. cbn [localStorage set_localStorage].
  rewrite lookup_insert_eq. apply NumberFacts.parseInt_toString.
Qed.

Lemma persisted_frame (jwk : JsonWebKey) user w :
  now (persisted jwk user w) = now w ∧
  biometric_enabled (persisted jwk user w) = biometric_enabled w ∧
  currentSessionKey (persisted jwk user w) = currentSessionKey w ∧
  currentUser (persisted jwk user w) = currentUser w ∧
  localStorage (persisted jwk user w) !! SESSION_USER_STORAGE
    = Some (JSON_stringify user) ∧
  localStorage (persisted jwk user w) !! SESSION_KEY_STORAGE
    = Some (JSON_stringify jwk).
Proof.
  destruct session_keys_distinct as (? & ? & ? & ? & ? & ?).
  unfold persisted, biometric_enabled. cbn [localStorage set_localStorage now].
  split_and!; try done; by simplify_map_eq.
Qed.

(** [loginUser] changes local storage through [persistSession] only. *)
Lemma loginUser_ok email password response w profile w' :
  loginUser email password response w = (Ok profile, w') →
  ∃ key w1,
    now w1 = now w ∧ localStorage w1 = localStorage w ∧
    currentSessionKey w1 = Some key ∧ currentUser w1 = Some profile ∧
    w' = match exportKeyToJWK key with
         | Ok jwk => persisted jwk profile w1
         | Throw _ => w1
         end.
Proof.
  unfold loginUser. run_M.
  destruct response as [error| |user]; run_M.
  { by destruct (bool_decide _). }
  { by destruct (bool_decide _). }
  destruct (user_metadata_salt user) as [[|c s]|]; run_M;
    unfold getRandomValues; run_M;
    try (destruct (generateSalt _) as [salt|e]; run_M;
         [|by destruct (bool_decide _)]).
  all: match goal with |- context [deriveKey ?p ?s] =>
         destruct (deriveKey p s) as [key|e] end; run_M;
       [|by destruct (bool_decide _)].
  all: rewrite persistSession_spec; run_M; intros [= <- <-].
  all: eexists key, _; split_and!; [..|done]; done.
Qed.


Lemma loginUser_throw email password response w e w' :
  loginUser email password response w = (Throw e, w') →
  localStorage w' = localStorage w ∧ now w' = now w ∧
  currentSessionKey w' = currentSessionKey w ∧ currentUser w' = currentUser w.
Proof.
  unfold loginUser. run_M.
  destruct response as [error| |user]; run_M.
  { by destruct (bool_decide _); intros [= <- <-]. }
  { by destruct (bool_decide _); intros [= <- <-]. }
  destruct (user_metadata_salt user) as [[|c s]|]; run_M;
    unfold getRandomValues; run_M;
    try (destruct (generateSalt _) as [salt|e0]; run_M;
         [|by destruct (bool_decide _); intros [= <- <-]]).
  all: match goal with |- context [deriveKey ?p ?s] =>
         destruct (deriveKey p s) as [key|e0] end; run_M;
       [|by destruct (bool_decide _); intros [= <- <-]].
  all: by rewrite persistSession_spec.
Qed.


Lemma disableBiometrics_spec w :
  disableBiometrics w = (Ok (), repersisted (flagged None w)).
Proof.
  unfold disableBiometrics, repersisted. run_M.
  cbn [flagged currentSessionKey currentUser set_localStorage].
  destruct (currentSessionKey w) as [key|], (currentUser w) as [user|];
    try done.
  by rewrite persistSession_spec.
Qed.

Lemma enableBiometrics_cases available credential w :
  ∃ r w1, enableBiometrics available credential w = (r, w1) ∧
    ((localStorage w1 = localStorage w ∧ now w1 = now w ∧
      currentSessionKey w1 = currentSessionKey w ∧
      currentUser w1 = currentUser w) ∨
     w1 = repersisted
            (flagged (Some (str "true"))
               (set_entropy_used (entropy_used w + 32) w))).
Proof.
  unfold enableBiometrics.
  destruct available; run_M;
    [|by eexists _, _; split; [reflexivity|left]].
  unfold getRandomValues. run_M.
  destruct credential as [[]|e]; run_M;
    [|by eexists _, _; split; [reflexivity|left]].
  eexists _, _. split; [|right; reflexivity].
  unfold repersisted.
  cbn [flagged currentSessionKey currentUser set_localStorage set_entropy_used].
  destruct (currentSessionKey w) as [key|], (currentUser w) as [user|];
    try done.
  by rewrite persistSession_spec.
Qed.

Lemma logoutUser_spec w :
  logoutUser w =
    (Ok (), cleared (set_currentUser None (set_currentSessionKey None w))).
Proof. done. Qed.

(** *** The expiry only moves forward *)







Lemma flagged_frame flag w :
  now (flagged flag w) = now w ∧
  currentSessionKey (flagged flag w) = currentSessionKey w ∧
  currentUser (flagged flag w) = currentUser w ∧
  localStorage (flagged flag w) !! SESSION_EXPIRY_STORAGE
    = localStorage w !! SESSION_EXPIRY_STORAGE ∧
  localStorage (flagged flag w) !! SESSION_USER_STORAGE
    = localStorage w !! SESSION_USER_STORAGE.
Proof.
  destruct session_keys_distinct as (? & ? & ? & ? & ? & ?).
  unfold flagged. cbn [localStorage set_localStorage now].
  destruct flag; split_and!; try done; by simplify_map_eq.
Qed.

Lemma flagged_true_enabled w :
  biometric_enabled (flagged (Some (str "true")) w) = true.
Proof.
  unfold biometric_enabled, flagged. cbn [localStorage set_localStorage].
  by rewrite lookup_insert_eq, bool_decide_eq_true_2.
Qed.








(** Of these operations only [restoreSession] deletes a stored expiry. *)
Lemma run_op_deletes_expiry o w :
  explicit_reset o = false →
  is_Some (localStorage w !! SESSION_EXPIRY_STORAGE) →
  localStorage (run_op o w) !! SESSION_EXPIRY_STORAGE = None →
  ∃ skip, o = RestoreSession skip.
Proof.
  intros Ho [s Hs] Hnone.
  assert (∀ (jwk : JsonWebKey) user w1, localStorage (persisted jwk user w1)
            !! SESSION_EXPIRY_STORAGE ≠ None) as Hpersisted.
  { intros jwk user w1. unfold persisted. cbn [localStorage set_localStorage].
    by rewrite lookup_insert_eq. }
  destruct o as [email password response|skip|available credential| |];
    try done; [| by exists skip |]; unfold run_op in Hnone.
  - destruct (loginUser email password response w) as [[profile|err] w'] eqn:Hrun.
    + apply loginUser_ok in Hrun as (key & w1 & Hn & Hl & Hk & Hu & ->).
      simpl in Hnone. destruct (exportKeyToJWK key) as [jwk|].
      * by apply Hpersisted in Hnone.
      * rewrite Hl in Hnone. congruence.
    + apply loginUser_throw in Hrun as (Hl & _). simpl in Hnone.
      rewrite Hl in Hnone. congruence.
  - destruct (enableBiometrics_cases available credential w)
      as (r & w1 & Hrun & Hcases).
    rewrite Hrun in Hnone. simpl in Hnone.
    destruct Hcases as [(Hl & _)| ->]; [rewrite Hl in Hnone; congruence|].
    set (w2 := flagged _ _) in *.
    assert (localStorage w2 !! SESSION_EXPIRY_STORAGE = Some s) as Hs2.
    { unfold w2.
      destruct (flagged_frame (Some (str "true"))
                  (set_entropy_used (entropy_used w + 32) w))
        as (_ & _ & _ & -> & _). done. }
    unfold repersisted in Hnone.
    destruct (currentSessionKey w2), (currentUser w2); try congruence.
    destruct (exportKeyToJWK _); [by apply Hpersisted in Hnone|congruence].
Qed.


(** *** The earlier copy of the session controller *)

(** Without the biometric preference the two copies of [persistSession] and
    of [restoreSession] do the same. *)
Lemma legacy_persistSession key user w :
  biometric_enabled w = false →
  AuthServiceLegacy.persistSession key user w = persistSession key user w.
Proof.
  intros Hb. rewrite persistSession_spec.
  unfold AuthServiceLegacy.persistSession. run_M.
  destruct (exportKeyToJWK key); [|done]. unfold persisted. by rewrite Hb.
Qed.

Lemma legacy_restoreSession skip w :
  biometric_enabled w = false →
  AuthServiceLegacy.restoreSession w = restoreSession skip w.
Proof.
  intros Hb. unfold AuthServiceLegacy.restoreSession, restoreSession. run_M.
  destruct (localStorage w !! SESSION_EXPIRY_STORAGE) as [[|c s]|]; try done.
  destruct (Number.gt _ _); [done|].
  rewrite isBiometricEnabled_spec, Hb. run_M.
  destruct (localStorage w !! SESSION_KEY_STORAGE) as [[|c1 s1]|]; try done.
  destruct (localStorage w !! SESSION_USER_STORAGE) as [[|c2 s2]|]; try done.
  destruct (JSON_parse (A:=JsonWebKey) _) as [[jwk|]|]; try done.
  run_M. destruct (importKeyFromJWK jwk) as [key|]; [|done].
  run_M. destruct (JSON_parse (A:=UserProfile) _) as [user|]; [|done].
  rewrite isBiometricEnabled_spec. run_M.
  change (biometric_enabled (set_currentUser user
            (set_currentSessionKey (Some key) w)))
    with (biometric_enabled w).
  by rewrite Hb.
Qed.

(** The earlier copy clears an expired record in the same way. *)
Lemma legacy_clears_expired w s e :
  localStorage w !! SESSION_EXPIRY_STORAGE = Some s →
  Number.parseInt s = Some e →
  e < now w →
  AuthServiceLegacy.restoreSession w = (Ok false, cleared w).
Proof.
  intros Hs He Hlt. unfold AuthServiceLegacy.restoreSession. run_M.
  rewrite Hs. destruct s as [|c s]; [done|].
  run_M. rewrite He. unfold Number.gt. by rewrite bool_decide_eq_true_2 by lia.
Qed.

End auth.
End AuthFacts.

(** ** Sync coordinator and wallet operations *)
Module StorageFacts.
Import CryptoUtils AuthService Session StorageService StorageSpec.
Import AuthFacts.

Section storage.
Context {CryptoKey JsonWebKey CardDetails BenefitDetails JSDate : Type}.
Context `{!WebCrypto CryptoKey JsonWebKey, !Utf8, !DateFns JSDate}.
Context `{!Json EncryptedPayload, !Json (UserData CardDetails BenefitDetails)}.
Implicit Types w : World CryptoKey.
Local Abbreviation UserData := (UserData CardDetails BenefitDetails).
Local Abbreviation CreditCard := (CreditCard CardDetails BenefitDetails).

Lemma getUserDataRaw_remote userId w data :
  remote_blob userId w = Some data →
  getUserDataRaw userId w = (Ok (Some data), cached userId data w).
Proof.
  unfold remote_blob, getUserDataRaw, supabase_select. run_M.
  destruct (onLine w); [|done]. destruct (network w); try done.
  by intros ->.
Qed.

Lemma getUserDataRaw_local userId w :
  remote_blob userId w = None →
  getUserDataRaw userId w =
    (if truthy (localStorage w !! user_data_key userId)
     then JSON_parse (default [] (localStorage w !! user_data_key userId))
     else Ok None, w).
Proof.
  unfold remote_blob, getUserDataRaw, supabase_select. run_M.
  destruct (onLine w); [destruct (network w); [intros ->|..]|];
    by destruct (localStorage w !! user_data_key userId) as [[|??]|].
Qed.

Lemma stringify_nonempty {A} `{!Json A, !JsonCorrect A} (a : A) :
  JSON_stringify a ≠ [].
Proof.
  intros Hnil. pose proof (parse_stringify a) as Hp.
  by rewrite Hnil, parse_empty in Hp.
Qed.


(** The services keep cache entries well formed. *)
Lemma cache_wf_cached userId data w : cache_wf userId (cached userId data w).
Proof.
  intros s. unfold cached. cbn [localStorage set_localStorage].
  rewrite lookup_insert_eq. intros [= <-]. by exists data.
Qed.

Lemma same_session_refl w : same_session w w.
Proof. done. Qed.

Lemma same_session_trans w1 w2 w3 :
  same_session w1 w2 → same_session w2 w3 → same_session w1 w3.
Proof. intros (? & ? & ?) (? & ? & ?). split_and!; congruence. Qed.

Lemma getUserDataRaw_frame userId w r w' :
  getUserDataRaw userId w = (r, w') → same_session w w'.
Proof.
  destruct (remote_blob userId w) as [data|] eqn:Hremote.
  - rewrite (getUserDataRaw_remote _ _ data) by done. by intros [= <- <-].
  - rewrite getUserDataRaw_local by done. by intros [= <- <-].
Qed.

Lemma saveUserData_spec userId data w :
  ∃ w', saveUserData userId data w = (Ok (), w') ∧
    localStorage w' = <[user_data_key userId := JSON_stringify data]>
                        (localStorage w) ∧
    same_session w w'.
Proof.
  unfold saveUserData, supabase_upsert. run_M.
  destruct (onLine w); run_M; [destruct (network w)|];
    (eexists; split_and!; [reflexivity|done|done]).
Qed.

(** [saveUserData] and [getUserDataRaw] leave the cache entry well formed. *)
Lemma cache_wf_saveUserData userId data w :
  cache_wf userId (saveUserData userId data w).2.
Proof.
  destruct (saveUserData_spec userId data w) as (w' & -> & Hl & _).
  intros s. simpl. rewrite Hl, lookup_insert_eq. intros [= <-]. by exists data.
Qed.

Lemma cache_wf_getUserDataRaw userId w :
  cache_wf userId w → cache_wf userId (getUserDataRaw userId w).2.
Proof.
  intros Hwf. destruct (remote_blob userId w) as [data|] eqn:Hremote.
  - rewrite (getUserDataRaw_remote _ _ data) by done. apply cache_wf_cached.
  - by rewrite getUserDataRaw_local.
Qed.

Lemma cleanCards_spec (cards : list CreditCard) w :
  cleanCards cards w = (Ok (cleaned (startOfDay (now w)) cards), w).
Proof. done. Qed.

Ltac run_S :=
  unfold getCurrentUser, getSessionKey, getGuestData, saveGuestData, field,
    cleanCards, default_settings;
  run_M.

(** [getCards] always returns a list. *)
Ltac solve_total :=
  eexists _, _; split;
    [reflexivity|first [apply same_session_refl|assumption]].

Lemma getCards_total w :
  ∃ cards w1, getCards w = (Ok cards, w1) ∧ same_session w w1.
Proof.
  unfold getCards. run_S.
  destruct (currentUser w) as [user|].
  - destruct (currentSessionKey w) as [key|]; [|solve_total].
    destruct (getUserDataRaw (user_id user) w) as [[[blob|]|e] w1] eqn:Hraw;
      apply getUserDataRaw_frame in Hraw; run_S; try solve_total.
    destruct (decryptData _ _ key) as [[data|]|e]; run_S; solve_total.
  - destruct (localStorage w !! GUEST_DATA_KEY) as [[|c s]|]; run_S;
      try solve_total.
    destruct (JSON_parse (c :: s)) as [[data|]|e]; run_S; solve_total.
Qed.

(** [getSettings] always returns settings. *)
Lemma getSettings_total w :
  ∃ current w1, getSettings w = (Ok current, w1) ∧ same_session w w1.
Proof.
  unfold getSettings. run_S.
  destruct (currentUser w) as [user|].
  - destruct (currentSessionKey w) as [key|]; [|solve_total].
    destruct (getUserDataRaw (user_id user) w) as [[[blob|]|e] w1] eqn:Hraw;
      apply getUserDataRaw_frame in Hraw; run_S; try solve_total.
    destruct (decryptData _ _ key) as [[data|]|e]; run_S; solve_total.
  - destruct (localStorage w !! GUEST_DATA_KEY) as [[|c s]|]; run_S;
      try solve_total.
    destruct (JSON_parse (c :: s)) as [[data|]|e]; run_S; solve_total.
Qed.

Lemma sealed_encryptData payload key w :
  encryptData payload key (next_iv w) = Ok (sealed payload key w).
Proof. apply CryptoFacts.encryptData_ok. Qed.

Lemma encrypt_and_save_spec userId payload key w :
  ∃ w', encrypt_and_save userId payload key w = (Ok (), w') ∧
    localStorage w' =
      <[user_data_key userId := JSON_stringify (sealed payload key w)]>
        (localStorage w) ∧
    same_session w w'.
Proof.
  unfold encrypt_and_save, getRandomValues. run_M.
  fold (next_iv w). rewrite sealed_encryptData. run_M.
  destruct (saveUserData_spec userId (sealed payload key w)
              (set_entropy_used (entropy_used w + 12) w))
    as (w' & -> & Hl & Hs).
  by exists w'.
Qed.

Lemma append_cards_eq (current imported : list CreditCard) :
  append_cards current imported =
    current ++ List.filter
      (λ c, bool_decide (card_id c ∉ card_id <$> current)) imported.
Proof.
  unfold append_cards. f_equal. apply List.filter_ext. intros c.
  destruct (bool_decide (card_id c ∈ _)) eqn:Hin.
  - apply bool_decide_eq_true in Hin. rewrite elem_of_list_to_set in Hin.
    symmetry. apply bool_decide_eq_false. naive_solver.
  - apply bool_decide_eq_false in Hin. rewrite elem_of_list_to_set in Hin.
    symmetry. by apply bool_decide_eq_true.
Qed.


(** What [getCards] reads of a guest wallet: the stored cards without the
    temporary benefits that have expired. *)
Lemma getCards_guest `{!JsonCorrect UserData} w (data : UserData) :
  currentUser w = None →
  localStorage w !! GUEST_DATA_KEY = Some (JSON_stringify data) →
  getCards w =
    (Ok (cleaned (startOfDay (now w)) (default [] (cards data))), w).
Proof.
  intros Hu Hg. unfold getCards. run_S. rewrite Hu, Hg.
  pose proof (stringify_nonempty data).
  destruct (JSON_stringify data) as [|c s] eqn:Hs; [done|]. run_S.
  rewrite <-Hs, parse_stringify. by run_S.
Qed.

(** Cards without an expired temporary benefit are read as they are. *)
Lemma cleaned_id today (cards : list CreditCard) :
  Forall (λ card, Forall (λ b, still_valid today b = true)
                    (default [] (temporaryBenefits card))) cards →
  cleaned today cards = cards.
Proof.
  induction 1 as [|card cards Hcard _ IH]; [done|].
  simpl. rewrite IH. f_equal.
  destruct card as [cid [[|b bs]|] details]; try done.
  cbn [temporaryBenefits card_id card_details default from_option id] in *.
  do 2 f_equal. apply forallb_filter_id, forallb_forall.
  rewrite Forall_forall in Hcard. intros x Hx%list_elem_of_In. by apply Hcard.
Qed.

Lemma saveCards_unlocked newCards w user key blob w1 :
  currentUser w = Some user →
  currentSessionKey w = Some key →
  getUserDataRaw (user_id user) w = (Ok (Some blob), w1) →
  saveCards newCards w =
    encrypt_and_save (user_id user)
      {| cards := Some newCards;
         settings := Some (carried_settings
           (decryptData (iv blob) (ciphertext blob) key)).1;
         aiSettings := Some (carried_settings
           (decryptData (iv blob) (ciphertext blob) key)).2 |}
      key w1.
Proof.
  intros Hu Hk Hraw. unfold saveCards. run_S. rewrite Hu, Hk, Hraw. run_S.
  by destruct (decryptData (iv blob) (ciphertext blob) key) as [[old|]|e].
Qed.

(** C10. For every call of [saveCards] by an authenticated user with a
    session key and an existing encrypted blob: the call returns without
    throwing and saves a new blob that decrypts, with the session key, to a
    document holding the given cards; if the existing blob decrypts with the
    session key, the settings and AI settings of that document are those of
    the old blob (only the cards change); if the decryption fails, they are
    the built-in defaults. *)
Theorem saveCards_settings
    `{!AesGcmCorrect, !JsonCorrect UserData, !JsonUtf8 UserData}
    newCards w user key blob w1 :
  currentUser w = Some user →
  currentSessionKey w = Some key →
  getUserDataRaw (user_id user) w = (Ok (Some blob), w1) →
  ∃ w' saved payload,
    saveCards newCards w = (Ok (), w') ∧
    localStorage w' !! user_data_key (user_id user)
      = Some (JSON_stringify saved) ∧
    decryptData (iv saved) (ciphertext saved) key = Ok (Some payload) ∧
    cards payload = Some newCards ∧
    (∀ old, decryptData (iv blob) (ciphertext blob) key = Ok (Some old) →
       settings_of payload = settings_of old ∧
       (∀ s, settings old = Some s → settings payload = Some s) ∧
       (∀ a, aiSettings old = Some a → aiSettings payload = Some a)) ∧
    (∀ e, decryptData (A:=UserData) (iv blob) (ciphertext blob) key = Throw e →
       settings payload = Some DEFAULT_NOTIFICATIONS ∧
       aiSettings payload = Some DEFAULT_AI_SETTINGS).
Proof.
  intros Hu Hk Hraw.
  rewrite (saveCards_unlocked newCards w user key blob w1) by done.
  set (payload := {| cards := Some newCards; settings := _; aiSettings := _ |}).
  destruct (encrypt_and_save_spec (user_id user) payload key w1)
    as (w' & Hsave & Hl & _).
  exists w', (sealed payload key w1), payload. split_and!.
  - done.
  - by rewrite Hl, lookup_insert_eq.
  - apply (CryptoFacts.decryptData_payload payload key (next_iv w1)),
      sealed_encryptData.
  - done.
  - intros old Hold. subst payload. rewrite Hold. cbn [carried_settings].
    split_and!; [done|..]; intros x Hx; unfold settings_of; simpl;
      by rewrite Hx.
  - intros e He. subst payload. by rewrite He.
Qed.

End storage.
End StorageFacts.

(** ** The theorems at work on the scenarios *)
Module Examples.
Import CryptoUtils AuthService Session RestoreFailure StorageService.
Import StorageSpec Scenario Scenario.Instances.
Local Existing Instances ReferenceFacts.aes_gcm_correct
  ReferenceFacts.extractable ReferenceFacts.json_correct
  ReferenceFacts.json_utf8.
Local Open Scope Z_scope.

(** Decide a closed goal by evaluation. *)
Ltac evaluate := vm_compute; first [reflexivity | done].

(** 21 minutes after the login the record has expired: [restoreSession]
    returns false and removes it. *)
Lemma restoreSession_expired_witness :
  localStorage stale !! SESSION_EXPIRY_STORAGE = Some (str "1200000") ∧
  Number.parseInt (str "1200000") = Some 1200000 ∧
  1200000 < now stale ∧
  ∃ w', restoreSession false stale = (Ok false, w') ∧
    localStorage w' !! SESSION_KEY_STORAGE = None ∧
    localStorage w' !! SESSION_USER_STORAGE = None ∧
    localStorage w' !! SESSION_EXPIRY_STORAGE = None ∧
    currentSessionKey w' = currentSessionKey stale ∧
    currentUser w' = currentUser stale ∧
    (currentSessionKey stale = None → currentSessionKey w' = None).
Proof.
  split_and!; [evaluate..|].
  apply (AuthFacts.restoreSession_expired false stale (str "1200000") 1200000);
    evaluate.
Defined.

(** C4 as stated fails there: the record has expired, [restoreSession]
    returns false, and the key of the login is still in memory. *)
Lemma expired_restore_keeps_key :
  (∃ s e, localStorage stale !! SESSION_EXPIRY_STORAGE = Some s ∧
          Number.parseInt s = Some e ∧ e < now stale) ∧
  (restoreSession false stale).1 = Ok false ∧
  currentSessionKey (restoreSession false stale).2 ≠ None.
Proof.
  split_and!.
  - exists (str "1200000"), 1200000. split_and!; evaluate.
  - evaluate.
  - evaluate.
Qed.

(** A record whose key material is not JSON is removed. *)
Lemma restoreSession_failure_clears_witness :
  reaches_load false corrupt_record
    (str "{not json") (JSON_stringify alice_profile) ∧
  restore_failure (CryptoKey:=byte) (JsonWebKey:=byte)
    (str "{not json") (JSON_stringify alice_profile) ∧
  ∃ w', restoreSession false corrupt_record = (Ok false, w') ∧
    localStorage w' !! SESSION_KEY_STORAGE = None ∧
    localStorage w' !! SESSION_USER_STORAGE = None ∧
    localStorage w' !! SESSION_EXPIRY_STORAGE = None ∧
    currentSessionKey w' = currentSessionKey corrupt_record ∧
    currentUser w' = currentUser corrupt_record ∧
    (currentSessionKey corrupt_record = None →
     currentUser corrupt_record = None →
     currentSessionKey w' = None ∧ currentUser w' = None).
Proof.
  assert (reaches_load false corrupt_record
            (str "{not json") (JSON_stringify alice_profile)) as Hload.
  { split; [exists (str "5000")|]; split_and!; evaluate. }
  assert (restore_failure (CryptoKey:=byte) (JsonWebKey:=byte)
            (str "{not json") (JSON_stringify alice_profile)) as Hfail.
  { apply (malformed_jwk _ _ SyntaxError). evaluate. }
  split_and!; [done|done|].
  exact (AuthFacts.restoreSession_failure_clears false corrupt_record
           (str "{not json") (JSON_stringify alice_profile) Hload Hfail).
Defined.

(** C5 as stated fails on a record that has lost its key material: the
    expiry check passes, [restoreSession] returns false, and the expiry and
    the user profile stay in local storage. *)
Lemma partial_record_is_kept :
  localStorage partial_record !! SESSION_KEY_STORAGE = None ∧
  Number.gt (now partial_record) (stored_expiry partial_record) = false ∧
  (restoreSession false partial_record).1 = Ok false ∧
  localStorage (restoreSession false partial_record).2
    !! SESSION_EXPIRY_STORAGE = Some (str "5000") ∧
  localStorage (restoreSession false partial_record).2
    !! SESSION_USER_STORAGE = Some (JSON_stringify alice_profile).
Proof. split_and!; evaluate. Qed.


Example login_expiry_value : stored_expiry after_login = Some 1200000.
Proof. evaluate. Qed.

Example login_expiry_biometric :
  stored_expiry
    (run [(0%N, EnableBiometrics true (Ok ())); (0%N, login_alice)] fresh)
  = Some 604800000.
Proof. evaluate. Qed.


(** The start without a persisted record matters. On a cold start with a
    7-day record, a disabling made while no key is in memory leaves the
    expiry in place, and the [restoreSession] that follows lowers it to
    20 minutes from now. *)
Lemma restore_after_locked_disable :
  stored_expiry locked = Some 604800000 ∧
  stored_expiry (step 0 DisableBiometrics locked) = Some 604800000 ∧
  stored_expiry (step 0 (RestoreSession false)
                   (step 0 DisableBiometrics locked)) = Some 4800000.
Proof. split_and!; evaluate. Qed.


Example getUserDataRaw_remote_first :
  getUserDataRaw (str "u1") with_wallet = (Ok (Some stored_blob), refreshed) ∧
  localStorage refreshed !! user_data_key (str "u1")
    = Some (JSON_stringify stored_blob).
Proof. split; evaluate. Qed.


(** The scenario of the specification: the existing card "1" is kept, the
    imported card "1" is skipped, card "2" is appended, and the settings of
    the wallet stay. *)
Example import_append_scenario :
  localStorage
    (importWalletJSON (CardDetails:=N) (BenefitDetails:=unit)
       backup true guest_wallet).2 !! GUEST_DATA_KEY
  = Some (JSON_stringify
            {| cards := Some [card "1" 100; card "2" 200];
               settings := Some reminders; aiSettings := Some assistant |}).
Proof. evaluate. Qed.

(** Saving two cards over the wallet of "a@x.com". *)
Lemma saveCards_settings_witness :
  let newCards := [card "1" 100; card "2" 200] in
  currentUser with_wallet = Some alice_profile ∧
  currentSessionKey with_wallet = Some Byte.x00 ∧
  getUserDataRaw (str "u1") with_wallet = (Ok (Some stored_blob), refreshed) ∧
  ∃ w' saved payload,
    saveCards newCards with_wallet = (Ok (), w') ∧
    localStorage w' !! user_data_key (str "u1")
      = Some (JSON_stringify saved) ∧
    decryptData (A:=UserData N unit) (iv saved) (ciphertext saved) Byte.x00
      = Ok (Some payload) ∧
    cards payload = Some newCards ∧
    (∀ old : UserData N unit,
       decryptData (iv stored_blob) (ciphertext stored_blob) Byte.x00
         = Ok (Some old) →
       settings_of payload = settings_of old ∧
       (∀ s, settings old = Some s → settings payload = Some s) ∧
       (∀ a, aiSettings old = Some a → aiSettings payload = Some a)) ∧
    (∀ e, decryptData (A:=UserData N unit)
            (iv stored_blob) (ciphertext stored_blob) Byte.x00 = Throw e →
       settings payload = Some DEFAULT_NOTIFICATIONS ∧
       aiSettings payload = Some DEFAULT_AI_SETTINGS).
Proof.
  intros newCards.
  assert (getUserDataRaw (str "u1") with_wallet
          = (Ok (Some stored_blob), refreshed)) as Hraw by (evaluate).
  split_and!; [evaluate|evaluate|done|].
  exact (StorageFacts.saveCards_settings newCards with_wallet alice_profile
           Byte.x00 stored_blob refreshed eq_refl eq_refl Hraw).
Defined.

(** After that save the settings read back are those saved before. *)
Example saveCards_keeps_settings :
  (getSettings (CardDetails:=N) (BenefitDetails:=unit)
     (saveCards [card "1" 100; card "2" 200] with_wallet).2).1
  = Ok (reminders, assistant).
Proof. evaluate. Qed.

(** A blob sealed under another key cannot be read: [saveCards] still
    saves, with the default settings. *)
Example saveCards_resets_unreadable_settings :
  (let r := saveCards [card "1" 100]
              (set_currentSessionKey (Some Byte.x09) with_wallet) in
   (r.1, (getSettings (CardDetails:=N) (BenefitDetails:=unit) r.2).1))
  = (Ok (), Ok (DEFAULT_NOTIFICATIONS, DEFAULT_AI_SETTINGS)).
Proof. evaluate. Qed.

End Examples.


(** * Further properties of the services *)

(** ** Shape of the Base64 text and failures of the encryption engine *)
Module CodecShape.
Import Codec CodecFacts CryptoUtils.
Local Open Scope N_scope.

Lemma padding_group a b c l : padding (a :: b :: c :: l) = padding l.
Proof.
  unfold padding. cbn [length].
  replace (S (S (S (length l))) mod 3)%nat with (length l mod 3)%nat; [done|].
  by rewrite <-(Nat.Div0.mod_add (length l) 1 3), Nat.add_comm.
Qed.

Lemma encode_length l :
  length (forgiving_base64_encode l) = (4 * ((length l + 2) / 3))%nat.
Proof.
  unfold forgiving_base64_encode. rewrite length_app, length_fmap.
  induction l as [|a|a b|a b c l IH] using list_ind3; try done.
  rewrite padding_group. cbn [sextets_of_bytes length].
  replace (S (S (S (length l))) + 2)%nat with (length l + 2 + 1 * 3)%nat by lia.
  rewrite Nat.div_add by done. lia.
Qed.

Lemma b64_char_alphabet s : s < 64 → b64_char s ∈ base64_alphabet.
Proof.
  intros Hs. unfold b64_char. apply list_elem_of_In, nth_In.
  change (length base64_alphabet) with 64%nat. lia.
Qed.

(** X1. [bufferToBase64] never throws. Its text has four characters for
    every started group of three bytes, and every character is one of the 64
    of the Base64 alphabet or the padding character '='. *)
Theorem bufferToBase64_shape (buffer : list byte) :
  ∃ t, bufferToBase64 buffer = Ok t ∧
    length t = (4 * ((length buffer + 2) / 3))%nat ∧
    Forall (λ c, c ∈ base64_alphabet ∨ c = pad_char) t.
Proof.
  exists (forgiving_base64_encode (Byte.to_N <$> buffer)).
  split_and!; [apply bufferToBase64_ok| |].
  - by rewrite encode_length, length_fmap.
  - unfold forgiving_base64_encode. apply Forall_app. split.
    + apply Forall_fmap.
      eapply Forall_impl; [apply sextets_of_bytes_bound, byte_values_bound|].
      intros s Hs. left. by apply b64_char_alphabet.
    + destruct (padding_cases (Byte.to_N <$> buffer)) as [->|[->| ->]];
        repeat (constructor; [by right|]); constructor.
Qed.

Section crypto.
Context {CryptoKey JsonWebKey : Type}.
Context `{!WebCrypto CryptoKey JsonWebKey, !Utf8}.
Context {A : Type} `{!Json A}.

Lemma base64ToBuffer_throws s e :
  base64ToBuffer s = Throw e → e = InvalidCharacterError.
Proof.
  unfold base64ToBuffer, atob.
  destruct (forgiving_base64_decode s); simpl; congruence.
Qed.

(** X2. The failures of [decryptData]. When one of its two texts is not
    Base64 the [InvalidCharacterError] of the conversion escapes, since the
    conversions are made before the [try]; when both are Base64 the call
    returns a value or throws the error "Decryption failed. Invalid password
    or corrupted data.", whatever went wrong inside (AES-GCM rejecting the
    data, or a plaintext that is not JSON). *)
Theorem decryptData_outcomes (ivBase64 ciphertextBase64 : jsstring)
    (key : CryptoKey) :
  match base64ToBuffer ivBase64, base64ToBuffer ciphertextBase64 with
  | Ok ivBytes, Ok bytes =>
      decryptData (A:=A) ivBase64 ciphertextBase64 key
      = match subtle_decrypt key ivBytes bytes
                ≫= λ plain, JSON_parse (TextDecoder_decode plain) with
        | Ok v => Ok v
        | Throw _ =>
            Throw (Error (str
              "Decryption failed. Invalid password or corrupted data."))
        end
  | _, _ =>
      decryptData (A:=A) ivBase64 ciphertextBase64 key
      = Throw InvalidCharacterError
  end.
Proof.
  unfold decryptData.
  destruct (base64ToBuffer ivBase64) as [ivBytes|e1] eqn:H1.
  - destruct (base64ToBuffer ciphertextBase64) as [bytes|e2] eqn:H2.
    + simpl. unfold try_catch. by destruct (_ ≫= _).
    + simpl. by rewrite (base64ToBuffer_throws _ _ H2).
  - simpl. by rewrite (base64ToBuffer_throws _ _ H1).
Qed.

(** X3. A salt made by [generateSalt] is accepted by [deriveKey]: for all
    random bytes [generateSalt] returns a text, of 24 characters for 16
    bytes, and [deriveKey] on that text does not throw and derives the key
    from the UTF-8 bytes of the password and those same salt bytes. *)
Theorem deriveKey_generated_salt (password : jsstring) (bytes : list byte) :
  ∃ s, generateSalt bytes = Ok s ∧
    length s = (4 * ((length bytes + 2) / 3))%nat ∧
    deriveKey password s
    = Ok (subtle_deriveKey (TextEncoder_encode password) bytes).
Proof.
  exists (forgiving_base64_encode (Byte.to_N <$> bytes)).
  split_and!; [apply bufferToBase64_ok| |].
  - by rewrite encode_length, length_fmap.
  - unfold deriveKey. by rewrite base64ToBuffer_encoded.
Qed.

End crypto.
End CodecShape.

(** ** Life cycle of a session *)
Module SessionLifecycle.
Import Codec CryptoUtils AuthService Session RestoreFailure.
Import AuthFacts.
Local Open Scope Z_scope.

Section auth.
Context {CryptoKey JsonWebKey : Type}.
Context `{!WebCrypto CryptoKey JsonWebKey, !Utf8}.
Context `{!Json JsonWebKey, !Json UserProfile}.
Implicit Types w : World CryptoKey.

(** [deriveKey] reads back the salt that [generateSalt] printed. *)
Lemma generated_salt_derives (password : jsstring) (bytes : list byte) :
  ∃ s, generateSalt bytes = Ok s ∧
    deriveKey password s
    = Ok (subtle_deriveKey (TextEncoder_encode password) bytes).
Proof.
  exists (forgiving_base64_encode (Byte.to_N <$> bytes)).
  split; [apply CodecFacts.bufferToBase64_ok|].
  unfold deriveKey. by rewrite CodecFacts.base64ToBuffer_encoded.
Qed.

Lemma persistSession_memory key user w :
  currentSessionKey (persistSession key user w).2 = currentSessionKey w ∧
  currentUser (persistSession key user w).2 = currentUser w ∧
  now (persistSession key user w).2 = now w.
Proof.
  rewrite persistSession_spec. simpl. by destruct (exportKeyToJWK key).
Qed.

(** X4. A login that returns has been answered with a user, and returns
    the profile made of the id of that user, the e-mail address given and
    the salt: the salt stored with the user when there is one (and it is not
    empty), else the Base64 of 16 fresh random bytes. The key then held in
    memory is the one [deriveKey] makes of the password and that salt, and
    the user held in memory is the profile returned. *)
Theorem loginUser_session email password response w profile w' :
  loginUser email password response w = (Ok profile, w') →
  ∃ user key,
    response = SignedIn user ∧
    user_id profile = remote_id user ∧
    username profile = email ∧
    (if truthy (user_metadata_salt user)
     then user_metadata_salt user = Some (salt profile)
     else generateSalt (entropy w <$> seq (entropy_used w) 16)
          = Ok (salt profile)) ∧
    deriveKey password (salt profile) = Ok key ∧
    currentSessionKey w' = Some key ∧
    currentUser w' = Some profile.
Proof.
  unfold loginUser. run_M.
  destruct response as [error| |user]; run_M.
  { by destruct (bool_decide _). }
  { by destruct (bool_decide _). }
  destruct (user_metadata_salt user) as [[|c s]|] eqn:Hsalt; run_M;
    unfold getRandomValues; run_M;
    try (destruct (generateSalt _) as [salt0|e] eqn:Hgen; run_M;
         [|by destruct (bool_decide _)]).
  all: match goal with |- context [deriveKey ?p ?s] =>
         destruct (deriveKey p s) as [key|e] eqn:Hkey end; run_M;
       [|by destruct (bool_decide _)].
  all: match goal with |- context [persistSession ?k ?u ?w0] =>
         destruct (persistSession_memory k u w0) as (Hk & Hu & _);
         destruct (persistSession k u w0) as [[[]|e] w2] eqn:Hp;
         [|by rewrite persistSession_spec in Hp] end.
  all: run_M; intros [= <- <-]; exists user, key; simpl in *.
  all: rewrite ?Hsalt; split_and!; done.
Qed.

(** X5. A login that throws leaves local storage and the key and the user
    held in memory as they were. What it throws is: for an error answered
    by the backend, that error, or the error "Network error. Please check
    your internet connection." when its message is "Failed to fetch"; for an
    answer without a user, the error "Login failed"; and for an answer with
    a user, the [InvalidCharacterError] of a stored salt that is not
    Base64, which is the only way a login that was answered with a user
    fails. *)
Theorem loginUser_failure email password response w e w' :
  loginUser email password response w = (Throw e, w') →
  (localStorage w' = localStorage w ∧
   currentSessionKey w' = currentSessionKey w ∧
   currentUser w' = currentUser w) ∧
  match response with
  | SignInError error =>
      e = if bool_decide (exn_message error = str "Failed to fetch")
          then Error (str
                 "Network error. Please check your internet connection.")
          else error
  | SignInNoUser => e = Error (str "Login failed")
  | SignedIn user =>
      e = InvalidCharacterError ∧
      ∃ s, user_metadata_salt user = Some s ∧
           base64ToBuffer s = Throw InvalidCharacterError
  end.
Proof.
  intros Hrun.
  split; [apply loginUser_throw in Hrun as (? & _ & ? & ?); by split_and!|].
  revert Hrun. unfold loginUser. run_M.
  destruct response as [error| |user]; run_M.
  { by destruct (bool_decide _); intros [= <- <-]. }
  { by intros [= <- <-]. }
  destruct (user_metadata_salt user) as [[|c s]|] eqn:Hsalt; run_M;
    unfold getRandomValues; run_M.
  2: { unfold deriveKey.
       destruct (base64ToBuffer (c :: s)) as [bytes|e0] eqn:Hb; simpl.
       - run_M. by rewrite persistSession_spec.
       - pose proof (CodecShape.base64ToBuffer_throws _ _ Hb) as ->.
         run_M. simpl. intros [= <- <-]. split; [done|]. by exists (c :: s). }
  all: match goal with |- context [generateSalt ?b] =>
         destruct (generated_salt_derives password b) as (s0 & -> & Hd) end;
       run_M; rewrite Hd; run_M; by rewrite persistSession_spec.
Qed.

(** X6. [logoutUser] never throws. After it no key and no user are held
    in memory and the three entries of the session record are gone from
    local storage, so that a [restoreSession] finds nothing to restore;
    every other entry of local storage, the biometric preference and the
    encrypted wallet caches among them, is left as it was. *)
Theorem logoutUser_forgets w :
  ∃ w', logoutUser w = (Ok (), w') ∧
    currentSessionKey w' = None ∧ currentUser w' = None ∧
    localStorage w' !! SESSION_KEY_STORAGE = None ∧
    localStorage w' !! SESSION_USER_STORAGE = None ∧
    localStorage w' !! SESSION_EXPIRY_STORAGE = None ∧
    (∀ k, k ∉ [SESSION_KEY_STORAGE; SESSION_USER_STORAGE;
               SESSION_EXPIRY_STORAGE] →
          localStorage w' !! k = localStorage w !! k) ∧
    (∀ skip, restoreSession skip w' = (Ok false, w')).
Proof.
  rewrite logoutUser_spec. eexists. split; [done|].
  set (w0 := set_currentUser None (set_currentSessionKey None w)).
  destruct (cleared_record w0) as (Hk & Hu & He).
  split_and!; try done.
  - intros k Hk'. unfold cleared, w0. cbn [localStorage set_localStorage].
    rewrite !lookup_delete_ne; [done|..];
      intros <-; apply Hk'; set_solver.
  - intros skip. unfold restoreSession. run_M. by rewrite He.
Qed.

(** Every outcome of [restoreSession], with its answer. *)
Lemma restoreSession_answer skip w :
  ∃ r w', restoreSession skip w = (Ok r, w') ∧
    if (r : bool) then
      biometric_enabled w && negb skip = false ∧
      ∃ key user expiryStr,
        localStorage w !! SESSION_EXPIRY_STORAGE = Some expiryStr ∧
        Number.gt (now w) (Number.parseInt expiryStr) = false ∧
        w' = restored key user w
    else w' = w ∨ w' = cleared w.
Proof.
  destruct (localStorage w !! SESSION_EXPIRY_STORAGE) as [expiryStr|] eqn:Hs;
    last first.
  { exists false, w. split; [|by left]. unfold restoreSession. run_M.
    by rewrite Hs. }
  destruct (truthy (Some expiryStr)) eqn:Ht; last first.
  { exists false, w. split; [|by left]. unfold restoreSession. run_M.
    rewrite Hs. by destruct expiryStr. }
  destruct (Number.gt (now w) (Number.parseInt expiryStr)) eqn:Hgt.
  { exists false, (cleared w). split; [|by right].
    unfold restoreSession. run_M. rewrite Hs. destruct expiryStr; [done|].
    run_M. by rewrite Hgt. }
  destruct (biometric_enabled w && negb skip) eqn:Hbio.
  { exists false, w. split; [|by left]. unfold restoreSession. run_M.
    rewrite Hs. destruct expiryStr; [done|]. run_M. rewrite Hgt.
    rewrite isBiometricEnabled_spec. run_M.
    by destruct (biometric_enabled w), skip. }
  destruct (truthy (localStorage w !! SESSION_KEY_STORAGE)) eqn:Htk; last first.
  { exists false, w. split; [|by left].
    apply (restoreSession_missing_material _ _ expiryStr); auto. }
  destruct (truthy (localStorage w !! SESSION_USER_STORAGE)) eqn:Htu; last first.
  { exists false, w. split; [|by left].
    apply (restoreSession_missing_material _ _ expiryStr); auto. }
  destruct (localStorage w !! SESSION_KEY_STORAGE) as [jwkStr|] eqn:Hk; [|done].
  destruct (localStorage w !! SESSION_USER_STORAGE) as [userStr|] eqn:Hu; [|done].
  assert (reaches_load skip w jwkStr userStr) as Hload.
  { split; [by exists expiryStr|]. by split_and!. }
  rewrite (restoreSession_load _ _ _ _ Hload).
  destruct (JSON_parse (A:=JsonWebKey) jwkStr) as [[jwk|]|];
    [|exists false, (cleared w); split; [done|by right]..].
  run_M. destruct (importKeyFromJWK jwk) as [key|];
    [|exists false, (cleared w); split; [done|by right]].
  run_M. destruct (JSON_parse (A:=UserProfile) userStr) as [user|] eqn:Hp;
    [|exists false, (cleared w); split; [done|by right]].
  exists true, (restored key user w). split; [done|].
  split; [done|]. by exists key, user, expiryStr.
Qed.

Lemma restored_expiry key user w :
  stored_expiry (restored key user w)
  = Some (now w + session_timeout (biometric_enabled w)).
Proof.
  unfold stored_expiry, restored. cbn [localStorage set_localStorage].
  rewrite lookup_insert_eq. apply NumberFacts.parseInt_toString.
Qed.

(** X7. [restoreSession] never throws and never moves the clock. When it
    answers true, a key is held in memory, the expiry it found was not in
    the past, no biometric check was pending (the preference is off, or the
    caller said the check was made), and the stored expiry is now the
    current time plus the timeout in force. When it answers false, the key
    and the user held in memory are as they were, and local storage is as it
    was or has lost the session record, nothing else. *)
Theorem restoreSession_outcome skip w :
  ∃ r w', restoreSession skip w = (Ok r, w') ∧ now w' = now w ∧
    if (r : bool) then
      is_Some (currentSessionKey w') ∧
      biometric_enabled w && negb skip = false ∧
      Number.gt (now w) (stored_expiry w) = false ∧
      stored_expiry w' = Some (now w + session_timeout (biometric_enabled w))
    else
      currentSessionKey w' = currentSessionKey w ∧
      currentUser w' = currentUser w ∧
      (localStorage w' = localStorage w ∨
       localStorage w' =
         delete SESSION_EXPIRY_STORAGE
           (delete SESSION_USER_STORAGE
              (delete SESSION_KEY_STORAGE (localStorage w)))).
Proof.
  destruct (restoreSession_answer skip w) as (r & w' & Hrun & Hr).
  exists r, w'. split; [done|]. destruct r.
  - destruct Hr as (Hbio & key & user & expiryStr & Hs & Hgt & ->).
    split_and!; try done.
    + unfold stored_expiry. by rewrite Hs.
    + apply restored_expiry.
  - destruct Hr as [->| ->]; split_and!; try done; by (left + right).
Qed.

(** X8. While the biometric preference is on, a [restoreSession] that was
    not told that the biometric check was made answers false on a record
    that has not expired and changes nothing: the record stays in local
    storage for the unlock that follows the check, and no key enters
    memory. *)
Theorem restoreSession_biometric_gate w s e :
  biometric_enabled w = true →
  localStorage w !! SESSION_EXPIRY_STORAGE = Some s →
  Number.parseInt s = Some e →
  now w ≤ e →
  restoreSession false w = (Ok false, w).
Proof.
  intros Hbio Hs He Hle. pose proof (truthy_parseInt s e He) as Ht.
  unfold restoreSession. run_M. rewrite Hs. destruct s as [|c s]; [done|].
  run_M. rewrite He. unfold Number.gt. rewrite bool_decide_eq_false_2 by lia.
  rewrite isBiometricEnabled_spec. run_M. by rewrite Hbio.
Qed.

(** The state of a page load after a login that persisted its record. *)
Lemma reloaded_reaches_load
    `{!JsonCorrect JsonWebKey, !JsonCorrect UserProfile}
    (jwk : JsonWebKey) profile w0 (elapsed : Z) skip :
  0 ≤ elapsed ≤ session_timeout (biometric_enabled w0) →
  biometric_enabled w0 && negb skip = false →
  reaches_load skip
    (reload (set_now (now w0 + elapsed) (persisted jwk profile w0)))
    (JSON_stringify jwk) (JSON_stringify profile).
Proof.
  intros Hel Hbio.
  destruct (persisted_frame jwk profile w0) as (_ & Hb & _ & _ & Hu & Hk).
  set (w2 := reload _).
  assert (localStorage w2 = localStorage (persisted jwk profile w0)) as Hl
    by done.
  assert (biometric_enabled w2 = biometric_enabled w0) as Hb2.
  { unfold biometric_enabled in *. by rewrite Hl. }
  split; [|rewrite Hb2, Hl; split_and!; try done].
  - exists (Number.toString (now w0 + session_timeout (biometric_enabled w0))).
    rewrite Hl. split_and!.
    + unfold persisted. cbn [localStorage set_localStorage].
      by rewrite lookup_insert_eq.
    + pose proof (NumberFacts.toString_nonempty
        (now w0 + session_timeout (biometric_enabled w0))).
      by destruct (Number.toString _).
    + rewrite NumberFacts.parseInt_toString. unfold Number.gt.
      apply bool_decide_eq_false_2. unfold w2, reload. cbn [now set_now
        set_currentUser set_currentSessionKey]. lia.
  - pose proof (StorageFacts.stringify_nonempty jwk).
    by destruct (JSON_stringify jwk).
  - pose proof (StorageFacts.stringify_nonempty profile).
    by destruct (JSON_stringify profile).
Qed.

(** X9. The session record that a login persists brings the session back
    after a page load. Take a login that returns, with a key that can be
    exported; let at most the timeout in force pass, and load the page
    anew, which empties the memory. Then [restoreSession] (told that the
    biometric check was made, when the preference is on) answers true, the
    key in memory is again the key of the login, the user in memory is the
    profile the login returned, and the stored expiry is the time of the
    restore plus the timeout. *)
Theorem restoreSession_after_login
    `{!JsonCorrect JsonWebKey, !JsonCorrect UserProfile, !JwkCorrect,
      !Extractable}
    email password response w profile w1 (elapsed : Z) skip :
  loginUser email password response w = (Ok profile, w1) →
  0 ≤ elapsed ≤ session_timeout (biometric_enabled w) →
  biometric_enabled w && negb skip = false →
  ∃ w2,
    restoreSession skip (reload (set_now (now w + elapsed) w1))
      = (Ok true, w2) ∧
    is_Some (currentSessionKey w1) ∧
    currentSessionKey w2 = currentSessionKey w1 ∧
    currentUser w2 = Some profile ∧
    stored_expiry w2
      = Some (now w + elapsed + session_timeout (biometric_enabled w)).
Proof.
  intros (key & w0 & Hn & Hl & Hk & Hu & ->)%loginUser_ok Hel Hbio.
  destruct (export_ok key) as [jwk Hjwk]. unfold exportKeyToJWK.
  rewrite Hjwk.
  assert (biometric_enabled w0 = biometric_enabled w) as Hb.
  { unfold biometric_enabled. by rewrite Hl. }
  rewrite <-Hn, <-Hb in *.
  pose proof (reloaded_reaches_load jwk profile w0 elapsed skip Hel Hbio)
    as Hload.
  set (w2 := reload _) in *.
  exists (restored key (Some profile) w2). split_and!.
  - apply (restoreSession_success skip w2 _ _ jwk key (Some profile) Hload).
    + apply parse_stringify.
    + by apply import_export.
    + apply parse_stringify.
  - destruct (persisted_frame jwk profile w0) as (_ & _ & -> & _).
    by rewrite Hk.
  - destruct (persisted_frame jwk profile w0) as (_ & _ & -> & _).
    by rewrite Hk.
  - done.
  - rewrite restored_expiry. do 2 f_equal.
    destruct (persisted_frame jwk profile w0) as (_ & Hb2 & _).
    unfold biometric_enabled in *. by rewrite <-Hb2.
Qed.

(** The expiry after the re-persist that ends the two switches of the
    biometric preference. *)
Lemma repersisted_expiry `{!Extractable} w :
  stored_expiry (repersisted w) =
    if bool_decide (is_Some (currentSessionKey w) ∧ is_Some (currentUser w))
    then Some (now w + session_timeout (biometric_enabled w))
    else stored_expiry w.
Proof.
  unfold repersisted.
  destruct (currentSessionKey w) as [key|], (currentUser w) as [user|].
  - destruct (export_ok key) as [jwk Hjwk]. unfold exportKeyToJWK.
    rewrite Hjwk, persisted_expiry. by rewrite bool_decide_eq_true_2.
  - rewrite bool_decide_eq_false_2; [done|]. by intros [_ []].
  - rewrite bool_decide_eq_false_2; [done|]. by intros [[] _].
  - rewrite bool_decide_eq_false_2; [done|]. by intros [[] _].
Qed.

Lemma repersisted_frame w :
  now (repersisted w) = now w ∧
  biometric_enabled (repersisted w) = biometric_enabled w ∧
  currentSessionKey (repersisted w) = currentSessionKey w ∧
  currentUser (repersisted w) = currentUser w.
Proof.
  unfold repersisted.
  destruct (currentSessionKey w) as [key|] eqn:Hk; [|done].
  destruct (currentUser w) as [user|] eqn:Hu; [|done].
  destruct (exportKeyToJWK key) as [jwk|]; [|by rewrite Hk, Hu].
  destruct (persisted_frame jwk user w) as (? & ? & ? & ? & _).
  split_and!; congruence.
Qed.

Lemma flagged_none_disabled w : biometric_enabled (flagged None w) = false.
Proof.
  unfold biometric_enabled, flagged. cbn [localStorage set_localStorage].
  by rewrite lookup_delete_eq, bool_decide_eq_false_2.
Qed.

Lemma flagged_expiry flag w : stored_expiry (flagged flag w) = stored_expiry w.
Proof.
  unfold stored_expiry.
  by destruct (flagged_frame flag w) as (_ & _ & _ & -> & _).
Qed.

Lemma enableBiometrics_ok w :
  enableBiometrics true (Ok ()) w =
    (Ok (), repersisted (flagged (Some (str "true"))
                           (set_entropy_used (entropy_used w + 32) w))).
Proof.
  unfold enableBiometrics, repersisted, getRandomValues. run_M.
  cbn [flagged currentSessionKey currentUser set_localStorage set_entropy_used].
  destruct (currentSessionKey w) as [key|], (currentUser w) as [user|];
    try done.
  by rewrite persistSession_spec.
Qed.

(** X10. [enableBiometrics] switches the preference on only when the
    platform authenticator is available and the credential prompt went
    through: it then returns, the preference reads as enabled, the key and
    the user in memory are as before, and the stored expiry becomes the
    current time plus 7 days when a key and a user are in memory (keys
    being exportable), and is left alone when they are not. Otherwise it
    throws ("Biometrics not supported", or the error of the prompt) and
    leaves local storage, hence the preference and the expiry, and the
    memory as they were. *)
Theorem enableBiometrics_outcome `{!Extractable} available credential w :
  match enableBiometrics available credential w with
  | (Ok _, w') =>
      available = true ∧ credential = Ok () ∧
      biometric_enabled w' = true ∧
      currentSessionKey w' = currentSessionKey w ∧
      currentUser w' = currentUser w ∧
      stored_expiry w' =
        if bool_decide (is_Some (currentSessionKey w) ∧
                        is_Some (currentUser w))
        then Some (now w + 7 * 24 * 60 * 60 * 1000)
        else stored_expiry w
  | (Throw e, w') =>
      (if available then credential = Throw e
       else e = Error (str "Biometrics not supported")) ∧
      localStorage w' = localStorage w ∧
      currentSessionKey w' = currentSessionKey w ∧
      currentUser w' = currentUser w
  end.
Proof.
  destruct available; [|by unfold enableBiometrics; run_M].
  destruct credential as [[]|e];
    [|by unfold enableBiometrics, getRandomValues; run_M].
  rewrite enableBiometrics_ok.
  set (w1 := set_entropy_used (entropy_used w + 32) w).
  destruct (repersisted_frame (flagged (Some (str "true")) w1))
    as (Hn & Hb & Hk & Hu).
  rewrite repersisted_expiry, Hb, flagged_true_enabled, Hk, Hu.
  rewrite flagged_expiry. split_and!; try done.
Qed.



(** X13. The earlier copy of the session controller kept in the
    repository agrees with the current one as long as the biometric
    preference is off: its [persistSession] and its [restoreSession] do the
    same, and its [loginUser], which has no [try] / [catch], returns the
    same profile in the same state, and throws where the current one throws,
    the current one replacing an error whose message is "Failed to fetch"
    by the error "Network error. Please check your internet connection.". *)
Theorem legacy_session_agrees key user skip email password response w :
  biometric_enabled w = false →
  AuthServiceLegacy.persistSession key user w = persistSession key user w ∧
  AuthServiceLegacy.restoreSession w = restoreSession skip w ∧
  loginUser email password response w =
    match AuthServiceLegacy.loginUser email password response w with
    | (Ok profile, w') => (Ok profile, w')
    | (Throw error, w') =>
        (Throw (if bool_decide (exn_message error = str "Failed to fetch")
                then Error (str
                  "Network error. Please check your internet connection.")
                else error), w')
    end.
Proof.
  intros Hb. split_and!.
  - by apply legacy_persistSession.
  - by apply legacy_restoreSession.
  - unfold loginUser, AuthServiceLegacy.loginUser. run_M.
    destruct response as [error| |remote]; run_M;
      [by destruct (bool_decide _)|done|].
    destruct (user_metadata_salt remote) as [[|c s]|] eqn:Hsalt; run_M;
      unfold getRandomValues; run_M;
      try (destruct (generateSalt _) as [salt0|e]; run_M;
           [|by destruct (bool_decide _)]).
    all: match goal with |- context [deriveKey ?p ?s] =>
           destruct (deriveKey p s) as [k|e] end; run_M;
         [|by destruct (bool_decide _)].
    all: rewrite legacy_persistSession by done.
    all: by rewrite persistSession_spec.
Qed.

(** X14. The two probes of the session never throw. [isLocked] answers
    true exactly when the backend holds a session and no key is in memory
    once it returns (it tries a [restoreSession] first when the backend
    holds a session and no key is in memory, and touches nothing
    otherwise). [checkSession] answers true when its [restoreSession]
    answered true, in which case a key is in memory, or when the backend
    session has a user, in which case there may be none. *)
Theorem session_probes session session_user w :
  (∃ b w', isLocked session w = (Ok b, w') ∧
     b = session && negb (bool_decide (is_Some (currentSessionKey w'))) ∧
     (session = false ∨ is_Some (currentSessionKey w) → w' = w)) ∧
  (∃ r w', restoreSession false w = (Ok r, w') ∧
     checkSession session_user w = (Ok (r || session_user), w') ∧
     (r = true → is_Some (currentSessionKey w'))).
Proof.
  destruct (restoreSession_answer false w) as (r & w' & Hrun & Hr).
  split.
  - unfold isLocked, getSessionKey. run_M.
    destruct session; [|by exists false, w; split_and!; [done..|]].
    destruct (currentSessionKey w) as [key|] eqn:Hk.
    { exists false, w. rewrite Hk. split_and!; [done..|]. done. }
    rewrite (bool_decide_eq_false_2 (is_Some None)) by (by intros []).
    run_M. rewrite Hrun. run_M. exists (negb r), w'. split; [by destruct r|].
    split; [|by intros [|[]]].
    destruct r.
    + by destruct Hr as (_ & key & user & ? & _ & _ & ->).
    + by destruct Hr as [->| ->]; cbn [cleared currentSessionKey
        set_localStorage]; rewrite Hk.
  - exists r, w'. split; [done|]. unfold checkSession. run_M. rewrite Hrun.
    split; [by destruct r, session_user|].
    intros ->. by destruct Hr as (_ & key & user & ? & _ & _ & ->).
Qed.

(** X15. The "Unlock with Biometrics" button of the login screen. The
    handler never throws, and its last resort, the message "Biometric
    error.", is never shown. It reports success only when the biometric
    assertion went through, and a key is then in memory. When the assertion
    fails it shows "Biometric verification failed." and leaves local storage
    and the memory as they were; when the assertion goes through and the
    session cannot be restored it shows "Session expired. Please login with
    password.", withdraws the button, and leaves the memory as it was. *)
Theorem handleBiometricLogin_outcome (assertion : result unit) w :
  ∃ s w', Auth.handleBiometricLogin assertion w = (Ok s, w') ∧
    match s with
    | Auth.LoginSuccess =>
        assertion = Ok () ∧ is_Some (currentSessionKey w')
    | Auth.ShowError error showBiometric =>
        currentSessionKey w' = currentSessionKey w ∧
        currentUser w' = currentUser w ∧
        match assertion with
        | Ok _ =>
            error = str "Session expired. Please login with password." ∧
            showBiometric = false
        | Throw _ =>
            error = str "Biometric verification failed." ∧
            showBiometric = true ∧
            localStorage w' = localStorage w
        end
    end.
Proof.
  unfold Auth.handleBiometricLogin, verifyBiometric, getRandomValues. run_M.
  destruct assertion as [[]|e]; run_M; [|by eexists _, _].
  set (w1 := set_entropy_used _ w).
  destruct (restoreSession_answer true w1) as (r & w' & -> & Hr). run_M.
  destruct r; run_M; eexists _, _; (split; [done|]).
  - split; [done|]. by destruct Hr as (_ & key & user & ? & _ & _ & ->).
  - by destruct Hr as [->| ->].
Qed.

(** X16. The biometric toggle of the settings screen stays in step with
    the stored preference. When the toggle shows what [isBiometricEnabled]
    reads, the handler never throws, and the value it leaves the toggle
    with is again what [isBiometricEnabled] reads: off after a disabling,
    on after an enabling that went through, and still off, with the error
    on the status line, after one that did not. *)
Theorem handleToggleBiometrics_in_step (biometricsActive available : bool)
    (credential : result unit) w :
  biometricsActive = biometric_enabled w →
  ∃ active status w',
    Settings.handleToggleBiometrics biometricsActive available credential w
      = (Ok (active, status), w') ∧
    active = biometric_enabled w' ∧
    (biometricsActive = true → active = false) ∧
    (biometricsActive = false → active = true →
     available = true ∧ credential = Ok ()).
Proof.
  intros Hactive. unfold Settings.handleToggleBiometrics.
  destruct biometricsActive.
  - run_M. rewrite disableBiometrics_spec. eexists _, _, _.
    split; [done|]. split_and!; [|done..].
    destruct (repersisted_frame (flagged None w)) as (_ & -> & _).
    by rewrite flagged_none_disabled.
  - destruct available;
      [|by unfold enableBiometrics; run_M; eexists _, _, _].
    destruct credential as [[]|e];
      [|by unfold enableBiometrics, getRandomValues; run_M; eexists _, _, _].
    run_M. rewrite enableBiometrics_ok. eexists _, _, _.
    split; [done|]. split_and!; [|done..].
    destruct (repersisted_frame (flagged (Some (str "true"))
                (set_entropy_used (entropy_used w + 32) w))) as (_ & -> & _).
    by rewrite flagged_true_enabled.
Qed.

End auth.
End SessionLifecycle.

(** ** The wallet in storage *)
Module WalletFacts.
Import CryptoUtils AuthService Session StorageService StorageSpec.
Import AuthFacts StorageFacts.

(** Unfold the accessors of the storage service, then compute. *)
Ltac run_W :=
  unfold getCurrentUser, getSessionKey, saveGuestData, field, cleanCards,
    default_settings;
  run_M.

Section wallet.
Context {CryptoKey JsonWebKey CardDetails BenefitDetails JSDate : Type}.
Context `{!WebCrypto CryptoKey JsonWebKey, !Utf8, !DateFns JSDate}.
Context `{!Json EncryptedPayload, !Json (UserData CardDetails BenefitDetails)}.
Implicit Types w : World CryptoKey.
Local Abbreviation UserData := (UserData CardDetails BenefitDetails).
Local Abbreviation CreditCard := (CreditCard CardDetails BenefitDetails).

(** *** The encrypted blob: cache and remote row *)

Lemma saveUserData_saved userId (data : EncryptedPayload) w :
  saveUserData userId data w = (Ok (), saved userId data w).
Proof.
  unfold saveUserData, supabase_upsert, saved, cached. run_M.
  destruct (onLine w); run_M; [destruct (network w)|]; done.
Qed.

Lemma saved_frame userId (data : EncryptedPayload) w :
  same_session w (saved userId data w) ∧
  onLine (saved userId data w) = onLine w ∧
  network (saved userId data w) = network w ∧
  entropy (saved userId data w) = entropy w ∧
  localStorage (saved userId data w)
    = <[user_data_key userId := JSON_stringify data]> (localStorage w) ∧
  user_data (saved userId data w)
    = match onLine w, network w with
      | true, FetchOk => <[userId := data]> (user_data w)
      | _, _ => user_data w
      end.
Proof.
  unfold saved, cached, same_session.
  destruct (onLine w) eqn:Ho, (network w) eqn:Hn; run_M; by rewrite ?Ho, ?Hn.
Qed.






(** *** Reading back what was saved *)

Lemma getGuestData_spec w : getGuestData w = (guest_document w, w).
Proof.
  unfold getGuestData, guest_document. run_M.
  by destruct (localStorage w !! GUEST_DATA_KEY) as [[|??]|].
Qed.

Lemma guest_document_saved `{!JsonCorrect UserData} (data : UserData) w :
  guest_document (guest_saved data w) = Ok (Some data).
Proof.
  unfold guest_document, guest_saved. cbn [localStorage set_localStorage].
  rewrite lookup_insert_eq. pose proof (stringify_nonempty data).
  destruct (JSON_stringify data) eqn:Hs; [done|].
  by rewrite <-Hs, parse_stringify.
Qed.

Lemma getCards_guest_document w :
  currentUser w = None →
  getCards w =
    (Ok match guest_document w with
        | Ok (Some data) =>
            cleaned (startOfDay (now w)) (default [] (cards data))
        | _ => []
        end, w).
Proof.
  intros Hu. unfold getCards. run_W. rewrite Hu, getGuestData_spec.
  by destruct (guest_document w) as [[data|]|e].
Qed.

Lemma getSettings_guest_document w :
  currentUser w = None →
  getSettings w =
    (Ok match guest_document w with
        | Ok (Some data) => settings_of data
        | _ => (DEFAULT_NOTIFICATIONS, DEFAULT_AI_SETTINGS)
        end, w).
Proof.
  intros Hu. unfold getSettings. run_W. rewrite Hu, getGuestData_spec.
  by destruct (guest_document w) as [[data|]|e].
Qed.

Lemma saveCards_guest (newCards : list CreditCard) w :
  currentUser w = None →
  saveCards newCards w =
    match guest_document w with
    | Ok data =>
        (Ok (), guest_saved
           {| cards := Some newCards;
              settings := settings (default empty_data data);
              aiSettings := aiSettings (default empty_data data) |} w)
    | Throw e => (Throw e, w)
    end.
Proof.
  intros Hu. unfold saveCards. run_W. rewrite Hu, getGuestData_spec.
  by destruct (guest_document w) as [data|e].
Qed.

Lemma saveSettings_guest (notifications : NotificationSettings)
    (ai : AISettings) w :
  currentUser w = None →
  saveSettings notifications ai w =
    match guest_document w with
    | Ok data =>
        (Ok (), guest_saved
           {| cards := cards (default empty_data data);
              settings := Some notifications;
              aiSettings := Some ai |} w)
    | Throw e => (Throw e, w)
    end.
Proof.
  intros Hu. unfold saveSettings. run_W. rewrite Hu, getGuestData_spec.
  by destruct (guest_document w) as [data|e].
Qed.

Lemma encrypt_and_save_saved userId (payload : UserData) key w :
  encrypt_and_save userId payload key w =
    (Ok (), saved userId (sealed payload key w)
              (set_entropy_used (entropy_used w + 12) w)).
Proof.
  unfold encrypt_and_save, getRandomValues. run_M.
  fold (next_iv w). rewrite sealed_encryptData. run_M.
  apply saveUserData_saved.
Qed.


Lemma saveSettings_with_key (notifications : NotificationSettings)
    (ai : AISettings) w user key :
  currentUser w = Some user →
  currentSessionKey w = Some key →
  saveSettings notifications ai w =
    match getUserDataRaw (user_id user) w with
    | (Ok blob, w1) =>
        encrypt_and_save (user_id user)
          {| cards := Some (carried_cards (found blob key));
             settings := Some notifications;
             aiSettings := Some ai |}
          key w1
    | (Throw e, w1) => (Throw e, w1)
    end.
Proof.
  intros Hu Hk. unfold saveSettings. run_W. rewrite Hu, Hk.
  destruct (getUserDataRaw (user_id user) w) as [[[blob|]|e] w1]; run_W;
    try done.
  cbn [found].
  by destruct (decryptData (iv blob) (ciphertext blob) key) as [[old|]|e].
Qed.







(** X20. [saveSettings] by a user with a key in memory, the counterpart
    of what [saveCards] does with the settings. The call returns unless the
    fetch of the current blob throws; it saves a new blob that decrypts,
    with the session key, to a document holding the given notification and
    AI settings; the cards of that document are the cards of the blob it
    found, as they are stored (expired temporary benefits included), when
    that blob decrypts with the session key, and no cards at all when there
    was no blob, when it does not decrypt, or when it holds no cards. *)
Theorem saveSettings_cards
    `{!AesGcmCorrect, !JsonCorrect UserData, !JsonUtf8 UserData}
    (notifications : NotificationSettings) (ai : AISettings)
    w user key (blob : option EncryptedPayload) w1 :
  currentUser w = Some user →
  currentSessionKey w = Some key →
  getUserDataRaw (user_id user) w = (Ok blob, w1) →
  ∃ w' (sealedBlob : EncryptedPayload) (payload : UserData),
    saveSettings notifications ai w = (Ok (), w') ∧
    localStorage w' !! user_data_key (user_id user)
      = Some (JSON_stringify sealedBlob) ∧
    decryptData (iv sealedBlob) (ciphertext sealedBlob) key
      = Ok (Some payload) ∧
    settings payload = Some notifications ∧
    aiSettings payload = Some ai ∧
    cards payload =
      Some match blob with
           | Some old =>
               match decryptData (A:=UserData) (iv old) (ciphertext old) key
               with
               | Ok (Some document) => default [] (cards document)
               | _ => []
               end
           | None => []
           end.
Proof.
  intros Hu Hk Hraw.
  rewrite (saveSettings_with_key _ _ _ user key), Hraw by done.
  set (payload := {| cards := _; settings := _; aiSettings := _ |}).
  rewrite encrypt_and_save_saved.
  destruct (saved_frame (user_id user) (sealed payload key w1)
              (set_entropy_used (entropy_used w1 + 12) w1))
    as (_ & _ & _ & _ & Hl & _).
  eexists _, (sealed payload key w1), payload. split_and!; try done.
  - by rewrite Hl, lookup_insert_eq.
  - apply (CryptoFacts.decryptData_payload payload key (next_iv w1)),
      sealed_encryptData.
  - by destruct blob as [old|].
Qed.

(** X21. In guest mode a save of one half of the wallet keeps the other
    half, and stays on the device. After a [saveCards] that returned,
    [getSettings] reads the settings it read before; after a
    [saveSettings] that returned, [getCards] reads the cards it read
    before. Either save writes the guest document and no other entry of
    local storage, and leaves the remote table alone; and either throws
    only when the guest document in storage is not JSON, and then writes
    nothing. *)
Theorem guest_saves_keep_rest `{!JsonCorrect UserData}
    (newCards : list CreditCard) (notifications : NotificationSettings)
    (ai : AISettings) w :
  currentUser w = None →
  (∀ r w', saveCards newCards w = (r, w') ∨
           saveSettings notifications ai w = (r, w') →
     user_data w' = user_data w ∧
     (∀ k, k ≠ GUEST_DATA_KEY → localStorage w' !! k = localStorage w !! k) ∧
     (∀ e, r = Throw e → w' = w ∧ guest_document w = Throw e)) ∧
  (∀ w', saveCards newCards w = (Ok (), w') →
     (getSettings w').1 = (getSettings w).1) ∧
  (∀ w', saveSettings notifications ai w = (Ok (), w') →
     (getCards w').1 = (getCards w).1).
Proof.
  intros Hu. rewrite saveCards_guest, saveSettings_guest by done.
  rewrite (getSettings_guest_document w), (getCards_guest_document w)
    by done.
  split_and!.
  - intros r w' Hrun.
    destruct (guest_document w) as [data|e0]; last first.
    { destruct Hrun as [[= <- <-]|[= <- <-]];
        (split_and!; [done|done|by intros e [= <-]]). }
    destruct Hrun as [[= <- <-]|[= <- <-]];
      (split_and!; [done| |done]); intros k Hk; unfold guest_saved;
      cbn [localStorage set_localStorage]; by rewrite lookup_insert_ne.
  - intros w'. destruct (guest_document w) as [data|e0]; [|done].
    intros [= <-]. rewrite getSettings_guest_document by done.
    rewrite guest_document_saved. by destruct data as [data|].
  - intros w'. destruct (guest_document w) as [data|e0]; [|done].
    intros [= <-]. rewrite getCards_guest_document by done.
    rewrite guest_document_saved. by destruct data as [data|].
Qed.


(** X23. The readers of the wallet swallow every failure. [getCards] and
    [getSettings] never throw, and leave the session in memory and the
    clock alone. Whenever the wallet cannot be read they answer as for an
    empty wallet, [getCards] with no cards and [getSettings] with the
    built-in defaults: in guest mode, when the guest document is not JSON
    or is [null]; with a key in memory, when the fetch of the blob throws
    (its cache entry is not JSON), when there is no blob, and when the blob
    does not decrypt to a document with the key in memory. *)
Theorem wallet_reads_fall_back w :
  (∃ (cs : list CreditCard) (current : NotificationSettings * AISettings)
     w1 w2,
     getCards w = (Ok cs, w1) ∧ getSettings w = (Ok current, w2) ∧
     same_session w w1 ∧ same_session w w2) ∧
  (currentUser w = None →
   (∀ data : UserData, guest_document w ≠ Ok (Some data)) →
   getCards w = (Ok [], w) ∧
   getSettings w = (Ok (DEFAULT_NOTIFICATIONS, DEFAULT_AI_SETTINGS), w)) ∧
  (∀ user key r w1,
     currentUser w = Some user →
     currentSessionKey w = Some key →
     getUserDataRaw (user_id user) w = (r, w1) →
     (∀ blob (data : UserData),
        r = Ok (Some blob) →
        decryptData (iv blob) (ciphertext blob) key ≠ Ok (Some data)) →
     getCards w = (Ok [], w1) ∧
     getSettings w = (Ok (DEFAULT_NOTIFICATIONS, DEFAULT_AI_SETTINGS), w1)).
Proof.
  split_and!.
  - destruct (getCards_total w) as (cs & w1 & Hget & Hs1).
    destruct (getSettings_total w) as (current & w2 & Hset & Hs2).
    by exists cs, current, w1, w2.
  - intros Hu Hbad.
    rewrite getCards_guest_document, getSettings_guest_document by done.
    destruct (guest_document w) as [[data|]|e]; [|done..].
    by destruct (Hbad data).
  - intros user key r w1 Hu Hk Hraw Hbad.
    unfold getCards, getSettings. run_W. rewrite Hu, Hk, Hraw.
    destruct r as [[blob|]|e]; run_W; [|done..].
    destruct (decryptData (iv blob) (ciphertext blob) key)
      as [[data|]|e] eqn:Hdec; run_W; [|done..].
    by destruct (Hbad blob data).
Qed.

(** *** Import of a backup *)

Lemma importWalletJSON_replace jsonString (data : UserData)
    (imported current : list CreditCard)
    (currentSettings : NotificationSettings * AISettings) w w1 w2 :
  JSON_parse jsonString = Ok (Some data) →
  cards data = Some imported →
  getCards w = (Ok current, w1) →
  getSettings w1 = (Ok currentSettings, w2) →
  ∃ w', importWalletJSON jsonString false w = (Ok true, w') ∧
    wallet_saved
      {| cards := Some imported;
         settings := Some (default DEFAULT_NOTIFICATIONS (settings data));
         aiSettings := Some (default DEFAULT_AI_SETTINGS (aiSettings data)) |}
      w2 w'.
Proof.
  intros Hparse Hcards Hget Hset.
  set (payload := {| cards := Some imported; settings := _;
                     aiSettings := _ |} : UserData).
  unfold importWalletJSON. run_W. rewrite Hparse. run_W. rewrite Hcards.
  run_W. rewrite Hget. run_W. rewrite Hset. run_W. fold payload.
  unfold wallet_saved.
  destruct (currentUser w2) as [user|]; run_W.
  - destruct (currentSessionKey w2) as [key|]; run_W; [|by eexists].
    rewrite encrypt_and_save_saved. eexists. split; [done|].
    exists (next_iv w2), (sealed payload key w2).
    split; [apply sealed_encryptData|].
    destruct (saved_frame (user_id user) (sealed payload key w2)
                (set_entropy_used (entropy_used w2 + 12) w2))
      as (_ & _ & _ & _ & Hl & _).
    change (localStorage
              (saved (user_id user) (sealed payload key w2)
                 (set_entropy_used (entropy_used w2 + 12) w2))
            !! user_data_key (user_id user)
            = Some (JSON_stringify (sealed payload key w2))).
    by rewrite Hl, lookup_insert_eq.
  - eexists. split; [done|]. cbn [localStorage set_localStorage].
    by rewrite lookup_insert_eq.
Qed.

(** X24. [importWalletJSON] in replace mode, for every backup that has
    cards: it answers true and saves a wallet whose cards are the cards of
    the backup, all of them and nothing else, and whose notification and AI
    settings are those of the backup, the built-in defaults standing in for
    the ones the backup lacks. The wallet that was there is read (which may
    refresh the cache) and then dropped. *)
Theorem import_replace_overwrites jsonString (data : UserData)
    (imported : list CreditCard) w :
  JSON_parse jsonString = Ok (Some data) →
  cards data = Some imported →
  ∃ current currentSettings w1 w2 w',
    getCards w = (Ok current, w1) ∧
    getSettings w1 = (Ok currentSettings, w2) ∧
    importWalletJSON jsonString false w = (Ok true, w') ∧
    wallet_saved
      {| cards := Some imported;
         settings := Some (default DEFAULT_NOTIFICATIONS (settings data));
         aiSettings := Some (default DEFAULT_AI_SETTINGS (aiSettings data)) |}
      w2 w'.
Proof.
  intros Hparse Hcards.
  destruct (getCards_total w) as (current & w1 & Hget & _).
  destruct (getSettings_total w1) as (currentSettings & w2 & Hset & _).
  destruct (importWalletJSON_replace jsonString data imported current
              currentSettings w w1 w2 Hparse Hcards Hget Hset)
    as (w' & Himp & Hsaved).
  by exists current, currentSettings, w1, w2, w'.
Qed.


(** *** Lists of cards *)

Lemma filter_idem {A} (f : A → bool) (l : list A) :
  List.filter f (List.filter f l) = List.filter f l.
Proof.
  apply forallb_filter_id, forallb_forall. by intros x [_ ?]%filter_In.
Qed.

Lemma cleaned_idem today (cards : list CreditCard) :
  cleaned today (cleaned today cards) = cleaned today cards.
Proof.
  unfold cleaned. rewrite map_map. apply map_ext. intros card.
  destruct (temporaryBenefits card) as [[|b bs]|] eqn:Hb; rewrite ?Hb;
    try done.
  cbn [temporaryBenefits card_id card_details].
  destruct (List.filter (still_valid today) (b :: bs)) as [|x l] eqn:Hf;
    [done|].
  by rewrite <-Hf, filter_idem.
Qed.

(** X26. [cleanCards] drops expired temporary benefits and nothing else.
    It never throws and changes no state; it keeps the number and the order
    of the cards, their ids and all their other fields; the temporary
    benefits of each card afterwards are, in their order, those that have no
    expiry date or do not expire before the start of the current day; and
    cleaning a cleaned list changes nothing. *)
Theorem cleanCards_keeps_cards (cards : list CreditCard) w :
  ∃ cs, cleanCards cards w = (Ok cs, w) ∧
    card_id <$> cs = card_id <$> cards ∧
    card_details <$> cs = card_details <$> cards ∧
    benefits_of <$> cs
      = (λ card, List.filter (still_valid (startOfDay (now w)))
                   (benefits_of card)) <$> cards ∧
    cleanCards cs w = (Ok cs, w).
Proof.
  exists (cleaned (startOfDay (now w)) cards).
  split; [apply cleanCards_spec|].
  rewrite cleanCards_spec, cleaned_idem. split_and!; [..|done].
  all: unfold cleaned; induction cards as [|card cards IH]; [done|].
  all: cbn [map]; rewrite !fmap_cons, IH; f_equal.
  all: unfold benefits_of.
  all: by destruct (temporaryBenefits card) as [[|b bs]|] eqn:Hb;
         rewrite ?Hb.
Qed.

Lemma filter_rejects_all {A} (f : A → bool) (l : list A) :
  forallb (λ x, negb (f x)) l = true → List.filter f l = [].
Proof.
  induction l as [|a l IH]; [done|]. simpl.
  intros [Ha Hl]%andb_true_iff. destruct (f a); [done|]. by apply IH.
Qed.

Lemma filter_fmap_NoDup {A B} (f : A → B) (p : A → bool) (l : list A) :
  NoDup (f <$> l) → NoDup (f <$> List.filter p l).
Proof.
  induction l as [|a l IH]; [done|]. rewrite fmap_cons, NoDup_cons.
  intros [Ha Hl]. simpl. destruct (p a); [|by apply IH].
  rewrite fmap_cons. apply NoDup_cons. split; [|by apply IH].
  intros (x & Hx & Hin)%list_elem_of_fmap. apply Ha.
  apply list_elem_of_fmap. exists x. split; [done|].
  by apply list_elem_of_In, filter_In in Hin as [?%list_elem_of_In _].
Qed.

(** X27. The cards of an append. No id is lost and none is made up: the
    ids of the result are those of the current cards and those of the
    imported cards. When the ids of the current cards are distinct and the
    ids of the imported cards are distinct, the ids of the result are
    distinct. And appending the same imported cards once more adds
    nothing. *)
Theorem append_cards_ids (current imported : list CreditCard) :
  (∀ id, id ∈ card_id <$> append_cards current imported ↔
         id ∈ card_id <$> current ∨ id ∈ card_id <$> imported) ∧
  (NoDup (card_id <$> current) → NoDup (card_id <$> imported) →
   NoDup (card_id <$> append_cards current imported)) ∧
  append_cards (append_cards current imported) imported
  = append_cards current imported.
Proof.
  rewrite !append_cards_eq.
  set (new := List.filter _ imported).
  assert (∀ c, c ∈ new ↔ c ∈ imported ∧ card_id c ∉ card_id <$> current)
    as Hnew.
  { intros c. unfold new. rewrite list_elem_of_In, filter_In.
    by rewrite bool_decide_eq_true, <-list_elem_of_In. }
  split_and!.
  - intros id. rewrite fmap_app, elem_of_app. split.
    + intros [?|(c & -> & [? _]%Hnew)%list_elem_of_fmap]; [by left|].
      right. by apply list_elem_of_fmap_2.
    + intros [?|(c & -> & Hc)%list_elem_of_fmap]; [by left|].
      destruct (decide (card_id c ∈ card_id <$> current)); [by left|].
      right. apply list_elem_of_fmap_2. by apply Hnew.
  - intros Hcur Himp. rewrite fmap_app. apply NoDup_app. split_and!.
    + done.
    + intros id Hid (c & -> & [_ Hc]%Hnew)%list_elem_of_fmap. done.
    + by apply filter_fmap_NoDup.
  - rewrite <-(app_nil_r (current ++ new)) at 2. f_equal.
    apply filter_rejects_all.
    apply forallb_forall. intros c Hc%list_elem_of_In.
    apply negb_true_iff, bool_decide_eq_false. intros Hnot. apply Hnot.
    rewrite fmap_app, elem_of_app.
    destruct (decide (card_id c ∈ card_id <$> current)); [by left|].
    right. apply list_elem_of_fmap_2. by apply Hnew.
Qed.

End wallet.
End WalletFacts.

(** ** Backup files and data of earlier versions *)
Module BackupFacts.
Import CryptoUtils AuthService Session StorageService StorageSpec.
Import AuthFacts StorageFacts WalletFacts.

Section backup.
Context {CryptoKey JsonWebKey CardDetails BenefitDetails JSDate : Type}.
Context `{!WebCrypto CryptoKey JsonWebKey, !Utf8, !DateFns JSDate}.
Context `{!Json EncryptedPayload, !Json (UserData CardDetails BenefitDetails)}.
Context `{!IsoDate, !Json (WalletBackup CardDetails BenefitDetails)}.
Context `{!Json (list (CreditCard CardDetails BenefitDetails)),
          !Json NotificationSettings}.
Implicit Types w : World CryptoKey.
Local Abbreviation UserData := (UserData CardDetails BenefitDetails).
Local Abbreviation CreditCard := (CreditCard CardDetails BenefitDetails).

(** X28. A backup restores the wallet it was made of. [exportWalletJSON]
    never throws; it reads the wallet with [getCards] and [getSettings] and
    prints it. [importWalletJSON] of the text it returned, in replace mode,
    answers true and saves a wallet whose cards and whose notification and
    AI settings are the ones that were read at the export, where the user
    and the key in memory at the export say a wallet is kept. *)
Theorem import_of_export `{!JsonBackup CardDetails BenefitDetails} w :
  ∃ json (current : list CreditCard)
      (currentSettings : NotificationSettings * AISettings) w1 w2 w3 w',
    getCards w = (Ok current, w1) ∧
    getSettings w1 = (Ok currentSettings, w2) ∧
    exportWalletJSON w = (Ok json, w2) ∧
    importWalletJSON json false w2 = (Ok true, w') ∧
    same_session w w3 ∧
    wallet_saved
      {| cards := Some current; settings := Some currentSettings.1;
         aiSettings := Some currentSettings.2 |} w3 w'.
Proof.
  destruct (getCards_total w) as (current & w1 & Hget & Hs1).
  destruct (getSettings_total w1) as (currentSettings & w2 & Hset & Hs2).
  destruct (getCards_total w2) as (again & w21 & Hget2 & Hs3).
  destruct (getSettings_total w21) as (settingsAgain & w3 & Hset2 & Hs4).
  pose proof (same_session_trans _ _ _ (same_session_trans _ _ _ Hs1 Hs2)
                (same_session_trans _ _ _ Hs3 Hs4)) as Hs.
  set (exportData :=
    {| version := 2; exportDate := toISOString (now w2);
       backup_cards := current; backup_settings := currentSettings.1;
       backup_aiSettings := currentSettings.2 |}
    : WalletBackup CardDetails BenefitDetails).
  destruct (importWalletJSON_replace (JSON_stringify exportData)
              (backup_document exportData) current again settingsAgain
              w2 w21 w3 (parse_backup exportData) eq_refl Hget2 Hset2)
    as (w' & Himp & Hsaved).
  exists (JSON_stringify exportData), current, currentSettings, w1, w2, w3, w'.
  split_and!; try done.
  unfold exportWalletJSON. run_M. rewrite Hget. run_M. by rewrite Hset.
Qed.

(** X29. The data of earlier versions is read all or nothing.
    [getLegacyData] never throws and changes nothing, and its AI settings
    are always the built-in defaults. When the stored cards and the stored
    settings were written by [JSON.stringify], it returns them, and
    [hasLegacyData] answers true. When the stored settings are not JSON it
    returns no cards and the default settings, even though the stored cards
    are intact. After [clearLegacyData], [hasLegacyData] answers false and
    [getLegacyData] returns no cards and the defaults. *)
Theorem legacy_data_all_or_nothing
    `{!JsonCorrect (list CreditCard), !JsonCorrect NotificationSettings} w :
  (∃ data, getLegacyData w = (Ok data, w) ∧
     aiSettings data = Some DEFAULT_AI_SETTINGS) ∧
  (∀ (cs : list CreditCard) (s : NotificationSettings),
     localStorage w !! OLD_CARDS_KEY = Some (JSON_stringify cs) →
     localStorage w !! OLD_SETTINGS_KEY = Some (JSON_stringify s) →
     hasLegacyData w = (Ok true, w) ∧
     getLegacyData w
     = (Ok {| cards := Some cs; settings := Some s;
              aiSettings := Some DEFAULT_AI_SETTINGS |}, w)) ∧
  (∀ (cs : list CreditCard) c settingsStr e,
     localStorage w !! OLD_CARDS_KEY = Some (JSON_stringify cs) →
     localStorage w !! OLD_SETTINGS_KEY = Some (c :: settingsStr) →
     JSON_parse (A:=NotificationSettings) (c :: settingsStr) = Throw e →
     getLegacyData w
     = (Ok {| cards := Some []; settings := Some DEFAULT_NOTIFICATIONS;
              aiSettings := Some DEFAULT_AI_SETTINGS |}, w)) ∧
  (∃ w', clearLegacyData w = (Ok (), w') ∧
     hasLegacyData w' = (Ok false, w') ∧
     getLegacyData w'
     = (Ok {| cards := Some []; settings := Some DEFAULT_NOTIFICATIONS;
              aiSettings := Some DEFAULT_AI_SETTINGS |}, w')).
Proof.
  split_and!.
  - unfold getLegacyData. run_M.
    destruct (localStorage w !! OLD_CARDS_KEY) as [[|c1 s1]|];
      destruct (localStorage w !! OLD_SETTINGS_KEY) as [[|c2 s2]|]; run_M;
      repeat match goal with
             | |- context [JSON_parse ?s] =>
                 destruct (JSON_parse s) as [?|?]; run_M
             end;
      by eexists.
  - intros cs s Hc Hs.
    pose proof (stringify_nonempty cs). pose proof (stringify_nonempty s).
    unfold hasLegacyData, getLegacyData. run_M. rewrite Hc, Hs.
    destruct (JSON_stringify cs) eqn:Hcs; [done|].
    destruct (JSON_stringify s) eqn:Hss; [done|]. run_M.
    rewrite <-Hcs, <-Hss, !parse_stringify. by run_M.
  - intros cs c settingsStr e Hc Hs He.
    pose proof (stringify_nonempty cs).
    unfold getLegacyData. run_M. rewrite Hc, Hs.
    destruct (JSON_stringify cs) eqn:Hcs; [done|]. run_M.
    rewrite <-Hcs, parse_stringify. run_M. by rewrite He.
  - eexists. split; [done|].
    assert (OLD_CARDS_KEY ≠ OLD_SETTINGS_KEY) as Hne by done.
    unfold hasLegacyData, getLegacyData, clearLegacyData. run_M.
    rewrite lookup_delete_ne, !lookup_delete_eq by done. by run_M.
Qed.

End backup.
End BackupFacts.

(** ** The wallet on the screen *)
Module AppFacts.
Import CryptoUtils AuthService Session StorageService StorageSpec.
Import AuthFacts StorageFacts WalletFacts.

Section app.
Context {CryptoKey JsonWebKey CardDetails BenefitDetails JSDate : Type}.
Context `{!WebCrypto CryptoKey JsonWebKey, !Utf8, !DateFns JSDate}.
Context `{!Json EncryptedPayload, !Json (UserData CardDetails BenefitDetails)}.
Implicit Types w : World CryptoKey.
Local Abbreviation UserData := (UserData CardDetails BenefitDetails).
Local Abbreviation CreditCard := (CreditCard CardDetails BenefitDetails).


End app.
End AppFacts.

(** ** The reference environment satisfies the further laws *)
Module ReferenceLaws.
Import Reference.

Lemma jwk_correct : JwkCorrect (H:=webcrypto).
Proof. intros key jwk. simpl. by intros [= ->]. Qed.

Section backup.
Context {CardDetails BenefitDetails : Type}.
Context `{Countable CardDetails, Countable BenefitDetails}.

Lemma read_document_text header (data : UserData CardDetails BenefitDetails) :
  read_text (document_text header data) = Ok (header, data).
Proof using Type*.
  unfold read_text, document_text.
  by rewrite NumberFacts.parseInt_toString, decode_encode.
Qed.

Lemma json_backup_law :
  JsonBackup CardDetails BenefitDetails (H:=json_backup) (H0:=json_document).
Proof using Type*.
  intros b. unfold JSON_parse, JSON_stringify, json_document, json_backup.
  by rewrite read_document_text.
Qed.

End backup.
End ReferenceLaws.

(** ** The further properties at work on the scenarios *)
Module Walkthrough.
Import CryptoUtils AuthService Session RestoreFailure StorageService.
Import StorageSpec Scenario Scenario.Instances.
Local Existing Instances ReferenceFacts.aes_gcm_correct
  ReferenceFacts.extractable ReferenceFacts.json_correct
  ReferenceFacts.json_utf8 ReferenceLaws.jwk_correct.
Local Open Scope Z_scope.

Ltac evaluate := vm_compute; first [reflexivity | done].

(** The login of "a@x.com" on a first start. *)
Lemma loginUser_session_witness :
  loginUser (str "a@x.com") (str "secret123") (SignedIn alice) fresh
    = (Ok alice_profile, after_login) ∧
  ∃ user key,
    SignedIn alice = SignedIn user ∧
    user_id alice_profile = remote_id user ∧
    username alice_profile = str "a@x.com" ∧
    (if truthy (user_metadata_salt user)
     then user_metadata_salt user = Some (salt alice_profile)
     else generateSalt (entropy fresh <$> seq (entropy_used fresh) 16)
          = Ok (salt alice_profile)) ∧
    deriveKey (str "secret123") (salt alice_profile) = Ok key ∧
    currentSessionKey after_login = Some key ∧
    currentUser after_login = Some alice_profile.
Proof.
  assert (loginUser (str "a@x.com") (str "secret123") (SignedIn alice) fresh
          = (Ok alice_profile, after_login)) as Hlogin by evaluate.
  split; [done|].
  exact (SessionLifecycle.loginUser_session _ _ _ fresh alice_profile
           after_login Hlogin).
Defined.

(** A login that the backend answers without a user. *)
Lemma loginUser_failure_witness :
  loginUser (str "a@x.com") (str "secret123") SignInNoUser fresh
    = (Throw (Error (str "Login failed")), fresh) ∧
  (localStorage fresh = localStorage fresh ∧
   currentSessionKey fresh = currentSessionKey fresh ∧
   currentUser fresh = currentUser fresh) ∧
  Error (str "Login failed") = Error (str "Login failed").
Proof.
  assert (loginUser (str "a@x.com") (str "secret123") SignInNoUser fresh
          = (Throw (Error (str "Login failed")), fresh)) as Hlogin
    by evaluate.
  split; [done|].
  exact (SessionLifecycle.loginUser_failure _ _ _ fresh _ fresh Hlogin).
Defined.

(** A cold start with the biometric preference on: the record stays. *)
Lemma restoreSession_biometric_gate_witness :
  biometric_enabled locked = true ∧
  localStorage locked !! SESSION_EXPIRY_STORAGE = Some (str "604800000") ∧
  Number.parseInt (str "604800000") = Some 604800000 ∧
  now locked ≤ 604800000 ∧
  restoreSession false locked = (Ok false, locked).
Proof.
  split_and!; [evaluate..|].
  apply (SessionLifecycle.restoreSession_biometric_gate locked
           (str "604800000") 604800000); evaluate.
Defined.

(** A page load one minute after the login of "a@x.com". *)
Lemma restoreSession_after_login_witness :
  loginUser (str "a@x.com") (str "secret123") (SignedIn alice) fresh
    = (Ok alice_profile, after_login) ∧
  0 ≤ 60000 ≤ session_timeout (biometric_enabled fresh) ∧
  biometric_enabled fresh && negb false = false ∧
  ∃ w2,
    restoreSession false (reload (set_now (now fresh + 60000) after_login))
      = (Ok true, w2) ∧
    is_Some (currentSessionKey after_login) ∧
    currentSessionKey w2 = currentSessionKey after_login ∧
    currentUser w2 = Some alice_profile ∧
    stored_expiry w2
      = Some (now fresh + 60000 + session_timeout (biometric_enabled fresh)).
Proof.
  assert (loginUser (str "a@x.com") (str "secret123") (SignedIn alice) fresh
          = (Ok alice_profile, after_login)) as Hlogin by evaluate.
  assert (0 ≤ 60000 ≤ session_timeout (biometric_enabled fresh)) as Hel
    by (by vm_compute).
  split; [done|]. split; [done|]. split; [done|].
  exact (SessionLifecycle.restoreSession_after_login _ _ _ fresh alice_profile
           after_login 60000 false Hlogin Hel eq_refl).
Defined.

(** Enabling and disabling the preference during the session of
    "a@x.com". *)
Lemma enableBiometrics_outcome_witness :
  match enableBiometrics true (Ok ()) after_login with
  | (Ok _, w') =>
      true = true ∧ Ok () = Ok () ∧
      biometric_enabled w' = true ∧
      currentSessionKey w' = currentSessionKey after_login ∧
      currentUser w' = currentUser after_login ∧
      stored_expiry w' =
        if bool_decide (is_Some (currentSessionKey after_login) ∧
                        is_Some (currentUser after_login))
        then Some (now after_login + 7 * 24 * 60 * 60 * 1000)
        else stored_expiry after_login
  | (Throw e, w') =>
      (if true then Ok () = Throw e
       else e = Error (str "Biometrics not supported")) ∧
      localStorage w' = localStorage after_login ∧
      currentSessionKey w' = currentSessionKey after_login ∧
      currentUser w' = currentUser after_login
  end.
Proof.
  exact (SessionLifecycle.enableBiometrics_outcome true (Ok ()) after_login).
Defined.



(** The two copies of the session controller on a first start. *)
Lemma legacy_session_agrees_witness :
  biometric_enabled fresh = false ∧
  AuthServiceLegacy.persistSession Byte.x07 alice_profile fresh
    = persistSession Byte.x07 alice_profile fresh ∧
  AuthServiceLegacy.restoreSession fresh = restoreSession false fresh ∧
  loginUser (str "a@x.com") (str "secret123") (SignedIn alice) fresh =
    match AuthServiceLegacy.loginUser (str "a@x.com") (str "secret123")
            (SignedIn alice) fresh with
    | (Ok profile, w') => (Ok profile, w')
    | (Throw error, w') =>
        (Throw (if bool_decide (exn_message error = str "Failed to fetch")
                then Error (str
                  "Network error. Please check your internet connection.")
                else error), w')
    end.
Proof.
  split; [evaluate|].
  apply (SessionLifecycle.legacy_session_agrees Byte.x07 alice_profile false
           (str "a@x.com") (str "secret123") (SignedIn alice) fresh).
  evaluate.
Defined.

(** The toggle of the settings screen, switched on during the session of
    "a@x.com". *)
Lemma handleToggleBiometrics_in_step_witness :
  false = biometric_enabled after_login ∧
  ∃ active status w',
    Settings.handleToggleBiometrics false true (Ok ()) after_login
      = (Ok (active, status), w') ∧
    active = biometric_enabled w' ∧
    (false = true → active = false) ∧
    (false = false → active = true → true = true ∧ Ok () = Ok ()).
Proof.
  assert (false = biometric_enabled after_login) as Hoff by evaluate.
  split; [done|].
  exact (SessionLifecycle.handleToggleBiometrics_in_step false true (Ok ())
           after_login Hoff).
Defined.




(** The first save of settings in the session of "a@x.com": there is no
    blob yet, and the saved wallet has no cards. *)
Lemma saveSettings_cards_witness :
  currentUser after_login = Some alice_profile ∧
  currentSessionKey after_login = Some Byte.x00 ∧
  getUserDataRaw (str "u1") after_login = (Ok None, after_login) ∧
  ∃ w' (sealedBlob : EncryptedPayload) (payload : UserData N unit),
    saveSettings (CardDetails:=N) (BenefitDetails:=unit)
      reminders assistant after_login = (Ok (), w') ∧
    localStorage w' !! user_data_key (str "u1")
      = Some (JSON_stringify sealedBlob) ∧
    decryptData (iv sealedBlob) (ciphertext sealedBlob) Byte.x00
      = Ok (Some payload) ∧
    settings payload = Some reminders ∧
    aiSettings payload = Some assistant ∧
    cards payload = Some [].
Proof.
  assert (getUserDataRaw (str "u1") after_login = (Ok None, after_login))
    as Hraw by evaluate.
  split; [evaluate|]. split; [evaluate|]. split; [done|].
  exact (WalletFacts.saveSettings_cards reminders assistant after_login
           alice_profile Byte.x00 None after_login eq_refl eq_refl Hraw).
Defined.

(** Saves in guest mode on a first start. *)
Lemma guest_saves_keep_rest_witness :
  currentUser fresh = None ∧
  (∀ r w', saveCards [card "1" 100] fresh = (r, w') ∨
           saveSettings (CardDetails:=N) (BenefitDetails:=unit)
             reminders assistant fresh = (r, w') →
     user_data w' = user_data fresh ∧
     (∀ k, k ≠ GUEST_DATA_KEY →
           localStorage w' !! k = localStorage fresh !! k) ∧
     (∀ e, r = Throw e →
           w' = fresh ∧
           guest_document (CardDetails:=N) (BenefitDetails:=unit) fresh
           = Throw e)) ∧
  (∀ w', saveCards [card "1" 100] fresh = (Ok (), w') →
     (getSettings (CardDetails:=N) (BenefitDetails:=unit) w').1
     = (getSettings (CardDetails:=N) (BenefitDetails:=unit) fresh).1) ∧
  (∀ w', saveSettings (CardDetails:=N) (BenefitDetails:=unit)
           reminders assistant fresh = (Ok (), w') →
     (getCards (CardDetails:=N) (BenefitDetails:=unit) w').1
     = (getCards (CardDetails:=N) (BenefitDetails:=unit) fresh).1).
Proof.
  split; [done|].
  exact (WalletFacts.guest_saves_keep_rest [card "1" 100] reminders assistant
           fresh eq_refl).
Defined.


(** The backup with cards "1" and "2" replacing the guest wallet. *)
Lemma import_replace_overwrites_witness :
  let data := {| cards := Some [card "1" 999; card "2" 200];
                 settings := Some DEFAULT_NOTIFICATIONS;
                 aiSettings := None |} in
  JSON_parse backup = Ok (Some data) ∧
  cards data = Some [card "1" 999; card "2" 200] ∧
  ∃ (current : list (CreditCard N unit)) currentSettings w1 w2 w',
    getCards guest_wallet = (Ok current, w1) ∧
    getSettings (CardDetails:=N) (BenefitDetails:=unit) w1
      = (Ok currentSettings, w2) ∧
    importWalletJSON (CardDetails:=N) (BenefitDetails:=unit)
      backup false guest_wallet = (Ok true, w') ∧
    wallet_saved
      {| cards := Some [card "1" 999; card "2" 200];
         settings := Some (default DEFAULT_NOTIFICATIONS (settings data));
         aiSettings := Some (default DEFAULT_AI_SETTINGS (aiSettings data)) |}
      w2 w'.
Proof.
  intros data.
  assert (JSON_parse backup = Ok (Some data)) as Hparse by evaluate.
  split; [done|]. split; [done|].
  exact (WalletFacts.import_replace_overwrites backup data
           [card "1" 999; card "2" 200] guest_wallet Hparse eq_refl).
Defined.

(** The data of earlier versions on a first start: there is none. *)
Lemma legacy_data_all_or_nothing_witness :
  (∃ data : UserData N unit,
     getLegacyData fresh = (Ok data, fresh) ∧
     aiSettings data = Some DEFAULT_AI_SETTINGS) ∧
  (∀ (cs : list (CreditCard N unit)) (s : NotificationSettings),
     localStorage fresh !! OLD_CARDS_KEY = Some (JSON_stringify cs) →
     localStorage fresh !! OLD_SETTINGS_KEY = Some (JSON_stringify s) →
     hasLegacyData fresh = (Ok true, fresh) ∧
     getLegacyData fresh
     = (Ok {| cards := Some cs; settings := Some s;
              aiSettings := Some DEFAULT_AI_SETTINGS |}, fresh)) ∧
  (∀ (cs : list (CreditCard N unit)) c settingsStr e,
     localStorage fresh !! OLD_CARDS_KEY = Some (JSON_stringify cs) →
     localStorage fresh !! OLD_SETTINGS_KEY = Some (c :: settingsStr) →
     JSON_parse (A:=NotificationSettings) (c :: settingsStr) = Throw e →
     getLegacyData (CardDetails:=N) (BenefitDetails:=unit) fresh
     = (Ok {| cards := Some []; settings := Some DEFAULT_NOTIFICATIONS;
              aiSettings := Some DEFAULT_AI_SETTINGS |}, fresh)) ∧
  (∃ w', clearLegacyData fresh = (Ok (), w') ∧
     hasLegacyData w' = (Ok false, w') ∧
     getLegacyData (CardDetails:=N) (BenefitDetails:=unit) w'
     = (Ok {| cards := Some []; settings := Some DEFAULT_NOTIFICATIONS;
              aiSettings := Some DEFAULT_AI_SETTINGS |}, w')).
Proof.
  exact (BackupFacts.legacy_data_all_or_nothing
           (CardDetails:=N) (BenefitDetails:=unit) fresh).
Defined.


End Walkthrough.

(** An export of the empty guest wallet of a first start, imported back;
    the texts are those of [Reference.json_document] and
    [Reference.json_backup]. *)
Module BackupWalkthrough.
Import CryptoUtils AuthService Session StorageService StorageSpec.
Import Scenario.
Local Existing Instances Reference.webcrypto Reference.utf8 Reference.datefns
  Reference.iso_date ReferenceLaws.json_backup_law.
Local Existing Instance Reference.json | 9.
Local Existing Instance Reference.json_document | 0.
Local Existing Instance Reference.json_backup | 0.

Lemma import_of_export_witness :
  ∃ json (current : list (CreditCard N unit))
      (currentSettings : NotificationSettings * AISettings) w1 w2 w3 w',
    getCards fresh = (Ok current, w1) ∧
    getSettings (CardDetails:=N) (BenefitDetails:=unit) w1
      = (Ok currentSettings, w2) ∧
    exportWalletJSON (CardDetails:=N) (BenefitDetails:=unit) fresh
      = (Ok json, w2) ∧
    importWalletJSON (CardDetails:=N) (BenefitDetails:=unit) json false w2
      = (Ok true, w') ∧
    same_session fresh w3 ∧
    wallet_saved
      {| cards := Some current; settings := Some currentSettings.1;
         aiSettings := Some currentSettings.2 |} w3 w'.
Proof.
  exact (BackupFacts.import_of_export (CardDetails:=N) (BenefitDetails:=unit)
           fresh).
Defined.

End BackupWalkthrough.
